(** * Session and dispatch runtime of the nutrition chat assistant

    A shallow embedding of the TypeScript sources
    - [src/core/entities] (Message, NutritionContext, UserProfile),
    - [src/infrastructure/workflows/ReminderWorkflow.ts],
    - [src/application/handlers] (CommandHandler, ChatMessageHandler),
    - [src/infrastructure/websocket/ConnectionHandler.ts],
    - [src/infrastructure/agent/NutritionAgent.ts] (handler registration,
      sockets),
    - [frontend/src/hooks/useWebSocket.ts],
    - [src/core/DIContainer.ts],
    - [src/services/state] (DurableObjectStorage, StateService),
    - [src/services/llm] (PromptBuilder, LLMService),
    followed by the properties established about them.

    Conventions of the embedding.
    - A JavaScript string is a [string] holding its UTF-8 bytes.  Every
      index-based operation of the sources acts on ASCII positions.
    - [Date.now()] and [crypto.randomUUID()] are read from arguments
      ([now], [uuid]) of the operation that calls them.
    - An operation that may throw returns a [Res]; stateful operations
      thread their object explicitly.
    - The host's key-value store is taken to succeed on every call. *)

From Stdlib Require Import ZArith QArith Ascii DecimalString Lia.
From stdpp Require Import base option list strings gmap sorting.

Local Open Scope Z_scope.

(* ===================================================================== *)
(** ** Text: the string primitives the sources call                      *)
(* ===================================================================== *)

Module Text.

(** [s.startsWith(p)] *)
Definition startsWith (p s : string) : bool := String.prefix p s.

Fixpoint drop (n : nat) (s : string) : string :=
  match n, s with
  | O, _ => s
  | S n', String _ s' => drop n' s'
  | S _, EmptyString => EmptyString
  end.

(** [s.substring(k)] for a start inside the ASCII prefix of [s]. *)
Definition substring_from (k : nat) (s : string) : string := drop k s.

(** [s.includes(sub)] *)
Fixpoint includes (sub s : string) : bool :=
  startsWith sub s ||
  match s with
  | EmptyString => false
  | String _ s' => includes sub s'
  end.

Definition lower_ascii (c : ascii) : ascii :=
  let n := N_of_ascii c in
  if ((65 <=? n) && (n <=? 90))%N then ascii_of_N (n + 32) else c.

(** [s.toLowerCase()]: the ASCII letters are mapped; the case mapping of
    letters outside ASCII is not part of this model. *)
Fixpoint toLowerCase (s : string) : string :=
  match s with
  | EmptyString => EmptyString
  | String c s' => String (lower_ascii c) (toLowerCase s')
  end.

Definition bytes (l : list Z) : string :=
  foldr (fun n acc => String (ascii_of_N (Z.to_N n)) acc) EmptyString l.

(** The characters ECMAScript counts as white space or line terminator
    (what [trim] strips and what [\s] matches), as UTF-8 sequences. *)
Definition whitespace : list string :=
  [ bytes [9]; bytes [10]; bytes [11]; bytes [12]; bytes [13]; bytes [32];
    bytes [194; 160];                         (* U+00A0 *)
    bytes [225; 154; 128];                    (* U+1680 *)
    bytes [226; 128; 128]; bytes [226; 128; 129]; bytes [226; 128; 130];
    bytes [226; 128; 131]; bytes [226; 128; 132]; bytes [226; 128; 133];
    bytes [226; 128; 134]; bytes [226; 128; 135]; bytes [226; 128; 136];
    bytes [226; 128; 137]; bytes [226; 128; 138];  (* U+2000 .. U+200A *)
    bytes [226; 128; 168]; bytes [226; 128; 169];  (* U+2028, U+2029 *)
    bytes [226; 128; 175];                    (* U+202F *)
    bytes [226; 129; 159];                    (* U+205F *)
    bytes [227; 128; 128];                    (* U+3000 *)
    bytes [239; 187; 191] ].                  (* U+FEFF *)

(** Remove one of [toks] from the front of [s], if one is there. *)
Fixpoint strip_any (toks : list string) (s : string) : option string :=
  match toks with
  | [] => None
  | t :: toks' =>
      if startsWith t s then Some (drop (String.length t) s)
      else strip_any toks' s
  end.

Fixpoint strip_all (fuel : nat) (toks : list string) (s : string) : string :=
  match fuel with
  | O => s
  | S fuel' =>
      match strip_any toks s with
      | Some s' => strip_all fuel' toks s'
      | None => s
      end
  end.

Definition trimStart (s : string) : string :=
  strip_all (String.length s) whitespace s.

Definition trimEnd (s : string) : string :=
  String.rev (strip_all (String.length s) (String.rev <$> whitespace)
                        (String.rev s)).

(** [s.trim()] *)
Definition trim (s : string) : string := trimEnd (trimStart s).

(** [s.split(" ")] *)
Fixpoint split_go (cur : string) (s : string) : list string :=
  match s with
  | EmptyString => [String.rev cur]
  | String c s' =>
      if Ascii.eqb c " "%char then String.rev cur :: split_go EmptyString s'
      else split_go (String c cur) s'
  end.
Definition split_space (s : string) : list string := split_go EmptyString s.

(** [parts.join(" ")] *)
Fixpoint join_space (parts : list string) : string :=
  match parts with
  | [] => EmptyString
  | [p] => p
  | p :: rest => p +:+ " " +:+ join_space rest
  end.

(** [s.replace(pat, "")] for a string pattern: the first occurrence goes. *)
Fixpoint remove_first (pat s : string) : string :=
  if startsWith pat s then drop (String.length pat) s
  else match s with
       | EmptyString => EmptyString
       | String c s' => String c (remove_first pat s')
       end.

(** The double quote, for string constants that contain one. *)
Definition quote : string := String "034"%char EmptyString.

(** Decimal rendering of an integer, as in a template literal. *)
Definition string_of_Z (z : Z) : string := NilZero.string_of_int (Z.to_int z).

(** *** Regular expressions

    The fragment used by the sources: literals, the class [\s], sequence,
    alternation, greedy repetition, and the anchors [^] and [$].
    [rests r s] lists, in the order a backtracking matcher tries them,
    what is left of [s] after [r] has matched a prefix of it. *)

Inductive regex : Type :=
| Eps
| Lit (l : string)
| Cls (toks : list string)
| Seq (r1 r2 : regex)
| Alt (r1 r2 : regex)
| Star (r : regex)
| Eos.

Definition Plus (r : regex) : regex := Seq r (Star r).
Definition Opt (r : regex) : regex := Alt r Eps.
Definition ws : regex := Cls whitespace.

Fixpoint star_loop (step : string -> list string) (fuel : nat) (s : string)
  : list string :=
  match fuel with
  | O => [s]
  | S fuel' =>
      flat_map (fun s' =>
                  if (String.length s' <? String.length s)%nat
                  then star_loop step fuel' s' else [])
               (step s)
      ++ [s]
  end.

Fixpoint rests (r : regex) (s : string) : list string :=
  match r with
  | Eps => [s]
  | Lit l => if startsWith l s then [drop (String.length l) s] else []
  | Cls toks => option_list (strip_any toks s)
  | Seq r1 r2 => flat_map (rests r2) (rests r1 s)
  | Alt r1 r2 => rests r1 s ++ rests r2 s
  | Star r1 => star_loop (rests r1) (String.length s) s
  | Eos => match s with EmptyString => [s] | _ => [] end
  end.

Record pattern : Type := Pattern { anchored : bool; body : regex }.

Definition matches_here (r : regex) (s : string) : bool :=
  match rests r s with [] => false | _ :: _ => true end.

Fixpoint matches_somewhere (r : regex) (s : string) : bool :=
  matches_here r s ||
  match s with
  | EmptyString => false
  | String _ s' => matches_somewhere r s'
  end.

(** [p.test(s)] *)
Definition test (p : pattern) (s : string) : bool :=
  if anchored p then matches_here (body p) s
  else matches_somewhere (body p) s.

Fixpoint remove_match (r : regex) (s : string) : string :=
  match rests r s with
  | rest :: _ => rest
  | [] => match s with
          | EmptyString => EmptyString
          | String c s' => String c (remove_match r s')
          end
  end.

(** [s.replace(p, "")] for a pattern without the [g] flag. *)
Definition replace_empty (p : pattern) (s : string) : string :=
  if anchored p
  then match rests (body p) s with rest :: _ => rest | [] => s end
  else remove_match (body p) s.

End Text.

(* ===================================================================== *)
(** ** Results of operations that may throw                              *)
(* ===================================================================== *)

Inductive Res (A : Type) : Type :=
| Ok (a : A)
| Throw (e : string).
Arguments Ok {A} a.
Arguments Throw {A} e.

(* ===================================================================== *)
(** ** Json: values, [JSON.parse], property access, truthiness           *)
(* ===================================================================== *)

Module Json.

(** A number keeps the exact decimal it was written as:
    [mantissa * 10 ^ exponent]. *)
#[warnings="-register-all"] Inductive JValue : Type :=
| JNull
| JBool (b : bool)
| JNumber (mantissa exponent : Z)
| JString (s : string)
| JArray (items : list JValue)
| JObject (fields : list (string * JValue)).

Definition is_ws (c : ascii) : bool :=
  match c with
  | " "%char | "009"%char | "010"%char | "013"%char => true
  | _ => false
  end.

Fixpoint skip_ws (s : string) : string :=
  match s with
  | String c s' => if is_ws c then skip_ws s' else s
  | EmptyString => s
  end.

Definition digit_of (c : ascii) : option Z :=
  let n := Z.of_N (N_of_ascii c) in
  if (48 <=? n) && (n <=? 57) then Some (n - 48) else None.

Definition hex_of (c : ascii) : option Z :=
  let n := Z.of_N (N_of_ascii c) in
  if (48 <=? n) && (n <=? 57) then Some (n - 48)
  else if (97 <=? n) && (n <=? 102) then Some (n - 87)
  else if (65 <=? n) && (n <=? 70) then Some (n - 55)
  else None.

(** Reads the longest run of digits: its value on top of [acc], how many
    digits were read on top of [count], and the rest. *)
Fixpoint take_digits (acc count : Z) (s : string) : Z * Z * string :=
  match s with
  | String c s' =>
      match digit_of c with
      | Some d => take_digits (acc * 10 + d) (count + 1) s'
      | None => (acc, count, s)
      end
  | EmptyString => (acc, count, s)
  end.

Definition parse_int_part (s : string) : option (Z * string) :=
  match s with
  | String c s' =>
      match digit_of c with
      | Some 0 => Some (0, s')
      | Some d => let '(v, _, rest) := take_digits d 1 s' in Some (v, rest)
      | None => None
      end
  | EmptyString => None
  end.

(** [Some (f, n, rest)]: a fraction of [n] digits with value [f];
    [n = 0] when there is no fraction. *)
Definition parse_frac_part (s : string) : option (Z * Z * string) :=
  match s with
  | String "."%char s' =>
      let '(f, n, rest) := take_digits 0 0 s' in
      if n =? 0 then None else Some (f, n, rest)
  | _ => Some (0, 0, s)
  end.

Definition parse_exp_digits (sign : Z) (s : string) : option (Z * string) :=
  let '(e, n, rest) := take_digits 0 0 s in
  if n =? 0 then None else Some (sign * e, rest).

Definition parse_exp_part (s : string) : option (Z * string) :=
  match s with
  | String c s' =>
      if Ascii.eqb c "e"%char || Ascii.eqb c "E"%char then
        match s' with
        | String "+"%char s'' => parse_exp_digits 1 s''
        | String "-"%char s'' => parse_exp_digits (-1) s''
        | _ => parse_exp_digits 1 s'
        end
      else Some (0, s)
  | EmptyString => Some (0, s)
  end.

Definition parse_number (s : string) : option (JValue * string) :=
  let '(sign, s1) :=
    match s with
    | String "-"%char s' => (-1, s')
    | _ => (1, s)
    end in
  '(i, s2) ← parse_int_part s1;
  '(f, n, s3) ← parse_frac_part s2;
  '(e, s4) ← parse_exp_part s3;
  Some (JNumber (sign * (i * 10 ^ n + f)) (e - n), s4).

(** UTF-8 encoding of a code point (a lone surrogate gets the same
    three-byte form). *)
Definition utf8 (cp : Z) : string :=
  if cp <? 128 then Text.bytes [cp]
  else if cp <? 2048 then Text.bytes [192 + cp / 64; 128 + cp mod 64]
  else if cp <? 65536 then
    Text.bytes [224 + cp / 4096; 128 + (cp / 64) mod 64; 128 + cp mod 64]
  else
    Text.bytes [240 + cp / 262144; 128 + (cp / 4096) mod 64;
                128 + (cp / 64) mod 64; 128 + cp mod 64].

Definition read_hex4 (s : string) : option (Z * string) :=
  match s with
  | String a (String b (String c (String d rest))) =>
      h1 ← hex_of a; h2 ← hex_of b; h3 ← hex_of c; h4 ← hex_of d;
      Some (((h1 * 16 + h2) * 16 + h3) * 16 + h4, rest)
  | _ => None
  end.

(** After [\u] and a first unit [u] have been read: the code point, and
    the rest (a low surrogate that follows a high one is consumed). *)
Definition read_code_point (u : Z) (rest : string) : Z * string :=
  if (55296 <=? u) && (u <=? 56319) then
    match rest with
    | String "\"%char (String "u"%char rest') =>
        match read_hex4 rest' with
        | Some (lo, rest'') =>
            if (56320 <=? lo) && (lo <=? 57343)
            then (65536 + (u - 55296) * 1024 + (lo - 56320), rest'')
            else (u, rest)
        | None => (u, rest)
        end
    | _ => (u, rest)
    end
  else (u, rest).

(** The characters of a string literal after its opening quote; [acc]
    holds what was read, reversed. *)
Fixpoint parse_chars (fuel : nat) (acc : string) (s : string)
  : option (string * string) :=
  match fuel with
  | O => None
  | S fuel' =>
      match s with
      | EmptyString => None
      | String c rest =>
          if Ascii.eqb c "034"%char then Some (String.rev acc, rest)
          else if Ascii.eqb c "\"%char then
            match rest with
            | String e rest' =>
                let simple (x : Z) :=
                  parse_chars fuel' (String (ascii_of_N (Z.to_N x)) acc) rest' in
                match e with
                | "034"%char => simple 34
                | "\"%char => simple 92
                | "/"%char => simple 47
                | "b"%char => simple 8
                | "f"%char => simple 12
                | "n"%char => simple 10
                | "r"%char => simple 13
                | "t"%char => simple 9
                | "u"%char =>
                    match read_hex4 rest' with
                    | Some (u, rest'') =>
                        let '(cp, rest3) := read_code_point u rest'' in
                        parse_chars fuel' (String.rev_app (utf8 cp) acc) rest3
                    | None => None
                    end
                | _ => None
                end
            | EmptyString => None
            end
          else if (N_of_ascii c <? 32)%N then None
          else parse_chars fuel' (String c acc) rest
      end
  end.

Definition parse_string (s : string) : option (string * string) :=
  parse_chars (String.length s) EmptyString s.

Definition expect (word : string) (v : JValue) (s : string)
  : option (JValue * string) :=
  if Text.startsWith word s
  then Some (v, Text.drop (String.length word) s) else None.

Fixpoint parse_value (fuel : nat) (s : string) : option (JValue * string) :=
  match fuel with
  | O => None
  | S fuel' =>
      let s := skip_ws s in
      match s with
      | EmptyString => None
      | String c rest =>
          match c with
          | "n"%char => expect "null" JNull s
          | "t"%char => expect "true" (JBool true) s
          | "f"%char => expect "false" (JBool false) s
          | "034"%char =>
              '(str, rest') ← parse_string rest; Some (JString str, rest')
          | "["%char =>
              match skip_ws rest with
              | String "]"%char rest' => Some (JArray [], rest')
              | _ => '(items, rest') ← parse_elems fuel' rest;
                     Some (JArray items, rest')
              end
          | "{"%char =>
              match skip_ws rest with
              | String "}"%char rest' => Some (JObject [], rest')
              | _ => '(fields, rest') ← parse_members fuel' rest;
                     Some (JObject fields, rest')
              end
          | _ => parse_number s
          end
      end
  end
with parse_elems (fuel : nat) (s : string) : option (list JValue * string) :=
  match fuel with
  | O => None
  | S fuel' =>
      '(v, rest) ← parse_value fuel' s;
      match skip_ws rest with
      | String ","%char rest' =>
          '(vs, rest'') ← parse_elems fuel' rest'; Some (v :: vs, rest'')
      | String "]"%char rest' => Some ([v], rest')
      | _ => None
      end
  end
with parse_members (fuel : nat) (s : string)
  : option (list (string * JValue) * string) :=
  match fuel with
  | O => None
  | S fuel' =>
      match skip_ws s with
      | String "034"%char rest =>
          '(k, rest1) ← parse_string rest;
          match skip_ws rest1 with
          | String ":"%char rest2 =>
              '(v, rest3) ← parse_value fuel' rest2;
              match skip_ws rest3 with
              | String ","%char rest4 =>
                  '(kvs, rest5) ← parse_members fuel' rest4;
                  Some ((k, v) :: kvs, rest5)
              | String "}"%char rest4 => Some ([(k, v)], rest4)
              | _ => None
              end
          | _ => None
          end
      | _ => None
      end
  end.

(** [JSON.parse(text)]: [None] stands for the [SyntaxError] it throws. *)
Definition JSON_parse (text : string) : option JValue :=
  '(v, rest) ← parse_value (2 * String.length text + 2) text;
  match skip_ws rest with
  | EmptyString => Some v
  | _ => None
  end.

(** An object built by [JSON.parse] keeps the last value given to a key. *)
Fixpoint lookup_field (k : string) (fields : list (string * JValue))
  : option JValue :=
  match fields with
  | [] => None
  | (k', v) :: rest =>
      match lookup_field k rest with
      | Some v' => Some v'
      | None => if String.eqb k k' then Some v else None
      end
  end.

(** [v.k] for the property names the sources read ([content], [type],
    [role], [messageId], [timestamp]; none of them is inherited):
    [None] is [undefined], reading from [null] throws. *)
Definition get (k : string) (v : JValue) : Res (option JValue) :=
  match v with
  | JNull => Throw ("Cannot read properties of null (reading '" +:+ k +:+ "')")
  | JObject fields => Ok (lookup_field k fields)
  | _ => Ok None
  end.

(** A decimal becomes the number zero when it is zero or rounds to zero
    as a double (magnitude at most 2^-1075). *)
Definition is_zero (mantissa exponent : Z) : bool :=
  (mantissa =? 0) ||
  ((exponent <? 0) && (Z.abs mantissa * 2 ^ 1075 <=? 10 ^ (- exponent))).

(** ToBoolean of a value that may be [undefined]. *)
Definition truthy (v : option JValue) : bool :=
  match v with
  | None | Some JNull => false
  | Some (JBool b) => b
  | Some (JNumber m e) => negb (is_zero m e)
  | Some (JString s) => negb (String.eqb s "")
  | Some (JArray _) | Some (JObject _) => true
  end.

(** [typeof v === "string"] *)
Definition is_string (v : option JValue) : bool :=
  match v with Some (JString _) => true | _ => false end.

(** [v === "lit"] *)
Definition is_literal (lit : string) (v : option JValue) : bool :=
  match v with Some (JString s) => String.eqb s lit | _ => false end.

(** Writes a JSON text with ['] where the text has its double quotes. *)
Fixpoint dq (s : string) : string :=
  match s with
  | EmptyString => EmptyString
  | String c s' =>
      String (if Ascii.eqb c "'"%char then "034"%char else c) (dq s')
  end.

End Json.


(* ===================================================================== *)
(** ** Core types and entities (src/core/types, src/core/entities)       *)
(* ===================================================================== *)

(** [arr.slice(start)] of JavaScript arrays: a negative [start] counts from
    the end, and both directions are clamped to the array. *)
Definition slice {A : Type} (start : Z) (l : list A) : list A :=
  let len := Z.of_nat (length l) in
  let k := if start <? 0 then Z.max (len + start) 0 else Z.min start len in
  drop (Z.to_nat k) l.

Module Core.

Inductive MessageRole : Type := user | assistant | system.

(** interface ChatMessage *)
Record ChatMessage : Type := {
  id : string;
  role : MessageRole;
  content : string;
  timestamp : Z
}.

Inductive FitnessGoal : Type := weight_loss | muscle_gain | maintenance.

(** interface UserGoals: every field optional.  Quantities are numbers
    the entities only store and copy. *)
Record UserGoals : Type := {
  dailyCalories : option Q;
  dailyProtein : option Q;
  dietaryRestrictions : option (list string);
  fitnessGoal : option FitnessGoal
}.

Record NutritionData : Type := {
  calories : Q;
  protein : Q;
  carbs : Q;
  fat : Q;
  fiber : option Q
}.

Record MealAnalysis : Type := {
  mealName : string;
  nutrition : NutritionData;
  healthScore : Q;
  insights : list string
}.

(** interface WorkflowContext *)
Record WorkflowContext : Type := {
  userId : string;
  workflowId : string;
  data : gmap string Json.JValue
}.

End Core.

(** class Message (src/core/entities/Message.ts) *)
Module Message.
Import Core.

Record t : Type := {
  id : string;
  role : MessageRole;
  content : string;
  timestamp : Z
}.

(** [new Message(role, content, id?)]: [id || crypto.randomUUID()]. *)
Definition create (uuid : string) (now : Z)
    (role : MessageRole) (content : string) (id : option string) : t :=
  {| id := match id with
           | Some i => if String.eqb i "" then uuid else i
           | None => uuid
           end;
     role := role;
     content := content;
     timestamp := now |}.

Definition toJSON (m : t) : ChatMessage :=
  {| Core.id := id m;
     Core.role := role m;
     Core.content := content m;
     Core.timestamp := timestamp m |}.

Definition fromJSON (uuid : string) (now : Z) (data : ChatMessage) : t :=
  let msg := create uuid now (Core.role data) (Core.content data)
                    (Some (Core.id data)) in
  {| id := id msg; role := role msg; content := content msg;
     timestamp := Core.timestamp data |}.

End Message.

(** class NutritionContext (src/core/entities/NutritionContext.ts) *)
Module NutritionContext.
Import Core.

Record t : Type := {
  conversationHistory : list ChatMessage;
  currentMeal : option MealAnalysis;
  userGoals : option UserGoals;
  sessionStartTime : Z
}.

(** The stored form read by [fromJSON] ([data: any]): a field is optional
    where [fromJSON] has a default for it. *)
Record json : Type := {
  j_conversationHistory : option (list ChatMessage);
  j_currentMeal : option MealAnalysis;
  j_userGoals : option UserGoals;
  j_sessionStartTime : Z
}.

(** [new NutritionContext()] *)
Definition create (now : Z) : t :=
  {| conversationHistory := [];
     currentMeal := None;
     userGoals := None;
     sessionStartTime := now |}.

Definition set_history (h : list ChatMessage) (c : t) : t :=
  {| conversationHistory := h;
     currentMeal := currentMeal c;
     userGoals := userGoals c;
     sessionStartTime := sessionStartTime c |}.

Definition addMessage (message : ChatMessage) (c : t) : t :=
  let pushed := conversationHistory c ++ [message] in
  if (20 <? length pushed)%nat
  then set_history (slice (-20) pushed) c
  else set_history pushed c.

Definition setCurrentMeal (meal : MealAnalysis) (c : t) : t :=
  {| conversationHistory := conversationHistory c;
     currentMeal := Some meal;
     userGoals := userGoals c;
     sessionStartTime := sessionStartTime c |}.

Definition setUserGoals (goals : UserGoals) (c : t) : t :=
  {| conversationHistory := conversationHistory c;
     currentMeal := currentMeal c;
     userGoals := Some goals;
     sessionStartTime := sessionStartTime c |}.

(** [getRecentMessages(count = 10)] *)
Definition getRecentMessages (count : Z) (c : t) : list ChatMessage :=
  slice (- count) (conversationHistory c).

Definition clear (c : t) : t :=
  {| conversationHistory := [];
     currentMeal := None;
     userGoals := userGoals c;
     sessionStartTime := sessionStartTime c |}.

Definition toJSON (c : t) : json :=
  {| j_conversationHistory := Some (conversationHistory c);
     j_currentMeal := currentMeal c;
     j_userGoals := userGoals c;
     j_sessionStartTime := sessionStartTime c |}.

(** [static fromJSON(data)]; [now] is what the constructor reads before
    the stored time replaces it. *)
Definition fromJSON (now : Z) (data : json) : t :=
  let context := create now in
  {| conversationHistory := default [] (j_conversationHistory data);
     currentMeal := j_currentMeal data;
     userGoals := j_userGoals data;
     sessionStartTime := j_sessionStartTime data |}.

End NutritionContext.

(** class UserProfile (src/core/entities/UserProfile.ts) *)
Module UserProfile.
Import Core.

Record t : Type := {
  userId : string;
  goals : UserGoals;
  mealHistory : list MealAnalysis;
  preferences : gmap string Json.JValue;
  createdAt : Z;
  updatedAt : Z
}.

Record json : Type := {
  j_userId : string;
  j_goals : option UserGoals;
  j_mealHistory : option (list MealAnalysis);
  j_preferences : option (gmap string Json.JValue);
  j_createdAt : Z;
  j_updatedAt : Z
}.

Definition no_goals : UserGoals :=
  {| dailyCalories := None; dailyProtein := None;
     dietaryRestrictions := None; fitnessGoal := None |}.

(** [new UserProfile(userId, goals = {})] *)
Definition create (now : Z) (userId : string) (goals : option UserGoals) : t :=
  {| userId := userId;
     goals := default no_goals goals;
     mealHistory := [];
     preferences := ∅;
     createdAt := now;
     updatedAt := now |}.

(** [Partial<UserGoals>] as [updateGoals] receives it.  For the object
    spread a key that is present counts also when it holds [undefined]:
    a field is [None] when the key is left out and [Some v] when it is
    present, [v] being what it holds ([None]: [undefined]). *)
Record GoalsUpdate : Type := {
  u_dailyCalories : option (option Q);
  u_dailyProtein : option (option Q);
  u_dietaryRestrictions : option (option (list string));
  u_fitnessGoal : option (option FitnessGoal)
}.

(** [{ ...old, ...new }], by what reading each field of the result gives:
    a key present in [new] wins, with whatever it holds. *)
Definition spread (old : UserGoals) (new : GoalsUpdate) : UserGoals :=
  {| dailyCalories := default (dailyCalories old) (u_dailyCalories new);
     dailyProtein := default (dailyProtein old) (u_dailyProtein new);
     dietaryRestrictions :=
       default (dietaryRestrictions old) (u_dietaryRestrictions new);
     fitnessGoal := default (fitnessGoal old) (u_fitnessGoal new) |}.

Definition updateGoals (now : Z) (newGoals : GoalsUpdate) (p : t) : t :=
  {| userId := userId p;
     goals := spread (goals p) newGoals;
     mealHistory := mealHistory p;
     preferences := preferences p;
     createdAt := createdAt p;
     updatedAt := now |}.

Definition addMeal (now : Z) (meal : MealAnalysis) (p : t) : t :=
  let pushed := mealHistory p ++ [meal] in
  {| userId := userId p;
     goals := goals p;
     mealHistory := if (30 <? length pushed)%nat
                    then slice (-30) pushed else pushed;
     preferences := preferences p;
     createdAt := createdAt p;
     updatedAt := now |}.

(** [getRecentMeals(count = 5)] *)
Definition getRecentMeals (count : Z) (p : t) : list MealAnalysis :=
  slice (- count) (mealHistory p).

Definition toJSON (p : t) : json :=
  {| j_userId := userId p;
     j_goals := Some (goals p);
     j_mealHistory := Some (mealHistory p);
     j_preferences := Some (preferences p);
     j_createdAt := createdAt p;
     j_updatedAt := updatedAt p |}.

Definition fromJSON (now : Z) (data : json) : t :=
  let profile := create now (j_userId data) (j_goals data) in
  {| userId := userId profile;
     goals := goals profile;
     mealHistory := default [] (j_mealHistory data);
     preferences := default ∅ (j_preferences data);
     createdAt := j_createdAt data;
     updatedAt := j_updatedAt data |}.

End UserProfile.

(* ===================================================================== *)
(** ** ReminderWorkflow (src/infrastructure/workflows/ReminderWorkflow.ts) *)
(* ===================================================================== *)

Module Workflow.
Import Core.

Inductive WorkflowState : Type :=
| pending | running | completed | failed | cancelled.

(** The state as it is printed inside an error message. *)
Definition state_name (s : WorkflowState) : string :=
  match s with
  | pending => "pending"
  | running => "running"
  | completed => "completed"
  | failed => "failed"
  | cancelled => "cancelled"
  end.

(** interface WorkflowStatus ([result] is never written by the sources) *)
Record WorkflowStatus : Type := {
  workflowId : string;
  workflowName : string;
  state : WorkflowState;
  startedAt : option Z;
  completedAt : option Z;
  error : option string
}.

Definition with_state (st : WorkflowState) (s : WorkflowStatus) : WorkflowStatus :=
  {| workflowId := workflowId s; workflowName := workflowName s;
     state := st; startedAt := startedAt s;
     completedAt := completedAt s; error := error s |}.

Definition with_completedAt (at_ : Z) (s : WorkflowStatus) : WorkflowStatus :=
  {| workflowId := workflowId s; workflowName := workflowName s;
     state := state s; startedAt := startedAt s;
     completedAt := Some at_; error := error s |}.

Definition with_error (e : option string) (s : WorkflowStatus) : WorkflowStatus :=
  {| workflowId := workflowId s; workflowName := workflowName s;
     state := state s; startedAt := startedAt s;
     completedAt := completedAt s; error := e |}.

(** *** The Durable Object store: keyed records and one alarm slot *)

(** The records this class keeps in the store. *)
Inductive Stored : Type :=
| WorkflowEntry (workflowName : string) (context : WorkflowContext)
                (scheduledTime : Z)              (* under workflow:<id> *)
| ReminderEntry (type : string) (message : Json.JValue) (sentAt : Z)
                                                 (* under reminder:<user>:<ms> *)
| StatusTable (entries : gmap string WorkflowStatus).
                                                 (* under scheduled_reminders *)

Record Storage : Type := {
  records : gmap string Stored;
  alarm : option Z
}.

Definition storage_put (k : string) (v : Stored) (st : Storage) : Storage :=
  {| records := <[k := v]> (records st); alarm := alarm st |}.

Definition storage_delete (k : string) (st : Storage) : Storage :=
  {| records := delete k (records st); alarm := alarm st |}.

(** [storage.setAlarm(t)]: the object has one alarm; setting it replaces
    the time it held. *)
Definition storage_setAlarm (t : Z) (st : Storage) : Storage :=
  {| records := records st; alarm := Some t |}.

Definition entry_le : relation (string * Stored) :=
  fun a b => String.le a.1 b.1.
#[global] Instance entry_le_dec : RelDecision entry_le.
Proof. intros a b. unfold entry_le. apply _. Defined.

(** [storage.list({ prefix })]: the entries under the prefix, by key. *)
Definition storage_list (prefix : string) (st : Storage)
  : list (string * Stored) :=
  merge_sort entry_le
    (filter (fun kv => Is_true (Text.startsWith prefix kv.1))
            (map_to_list (records st))).

(** *** The object and its operations *)

Record t : Type := {
  storage : Storage;
  scheduledReminders : gmap string WorkflowStatus
}.

(** [new ReminderWorkflow(storage)] over a store without a saved table. *)
Definition create (st : Storage) : t :=
  {| storage := st; scheduledReminders := ∅ |}.

Definition empty_storage : Storage := {| records := ∅; alarm := None |}.

(** Operations: a result or a thrown error, and the object afterwards. *)
Definition M (A : Type) : Type := t -> Res A * t.

#[global] Instance M_ret : MRet M := fun A a w => (Ok a, w).
#[global] Instance M_bind : MBind M := fun A B f m w =>
  match m w with
  | (Ok a, w') => f a w'
  | (Throw e, w') => (Throw e, w')
  end.

Definition throw {A : Type} (e : string) : M A := fun w => (Throw e, w).

(** [try { body } catch (error) { handler(getErrorMessage(error)) }] *)
Definition try_catch {A : Type} (body : M A) (handler : string -> M A) : M A :=
  fun w =>
    match body w with
    | (Ok a, w') => (Ok a, w')
    | (Throw e, w') => handler e w'
    end.

Definition on_storage (f : Storage -> Storage) : M unit :=
  fun w => (Ok (), {| storage := f (storage w);
                      scheduledReminders := scheduledReminders w |}).

Definition reminders_get (workflowId : string) : M (option WorkflowStatus) :=
  fun w => (Ok (scheduledReminders w !! workflowId), w).

Definition reminders_set (workflowId : string) (s : WorkflowStatus) : M unit :=
  fun w => (Ok (), {| storage := storage w;
                      scheduledReminders :=
                        <[workflowId := s]> (scheduledReminders w) |}).

Definition persistReminders : M unit :=
  fun w => (Ok (), {| storage := storage_put "scheduled_reminders"
                                   (StatusTable (scheduledReminders w))
                                   (storage w);
                      scheduledReminders := scheduledReminders w |}).

Definition executeMealReminder (now : Z) (context : WorkflowContext) : M unit :=
  let message :=
    if Json.truthy (data context !! "message")
    then default Json.JNull (data context !! "message")
    else Json.JString "Time to log your meal!" in
  on_storage
    (storage_put
       ("reminder:" +:+ userId context +:+ ":" +:+ Text.string_of_Z now)
       (ReminderEntry "meal-reminder" message now)).

Definition executeDailySummary (context : WorkflowContext) : M unit := mret ().
Definition executeGoalCheckIn (context : WorkflowContext) : M unit := mret ().

Definition executeWorkflow (now : Z) (workflowName : string)
    (context : WorkflowContext) : M unit :=
  if String.eqb workflowName "meal-reminder" then executeMealReminder now context
  else if String.eqb workflowName "daily-summary" then executeDailySummary context
  else if String.eqb workflowName "goal-check-in" then executeGoalCheckIn context
  else throw ("Unknown workflow: " +:+ workflowName).

(** [context.workflowId || crypto.randomUUID()] *)
Definition choose_id (uuid : string) (context : WorkflowContext) : string :=
  if String.eqb (Core.workflowId context) "" then uuid
  else Core.workflowId context.

Definition startWorkflow (uuid : string) (now : Z) (workflowName : string)
    (context : WorkflowContext) : M string :=
  try_catch
    (let workflowId := choose_id uuid context in
     let status := {| workflowId := workflowId; workflowName := workflowName;
                      state := running; startedAt := Some now;
                      completedAt := None; error := None |} in
     reminders_set workflowId status;;
     persistReminders;;
     executeWorkflow now workflowName context;;
     reminders_set workflowId
       (with_completedAt now (with_state completed status));;
     persistReminders;;
     mret workflowId)
    (fun e => throw ("Failed to start workflow: " +:+ e)).


Definition cancelWorkflow (now : Z) (workflowId : string) : M unit :=
  status ← reminders_get workflowId;
  match status with
  | None => throw ("Workflow " +:+ workflowId +:+ " not found")
  | Some status =>
      match state status with
      | completed | failed =>
          throw ("Cannot cancel " +:+ state_name (state status) +:+ " workflow")
      | _ =>
          reminders_set workflowId
            (with_completedAt now (with_state cancelled status));;
          persistReminders
      end
  end.

(** [scheduleWorkflow], from the timestamp on (a time given as a date
    string is first converted by the host). *)
Definition scheduleWorkflow (uuid : string) (workflowName : string)
    (context : WorkflowContext) (timestamp : Z) : M string :=
  try_catch
    (let workflowId := choose_id uuid context in
     let status := {| workflowId := workflowId; workflowName := workflowName;
                      state := pending; startedAt := Some timestamp;
                      completedAt := None; error := None |} in
     on_storage (storage_put ("workflow:" +:+ workflowId)
                   (WorkflowEntry workflowName context timestamp));;
     reminders_set workflowId status;;
     persistReminders;;
     on_storage (storage_setAlarm timestamp);;
     mret workflowId)
    (fun e => throw ("Failed to schedule workflow: " +:+ e)).

Definition storage_get (k : string) : M (option Stored) :=
  fun w => (Ok (records (storage w) !! k), w).

Definition retryWorkflow (now : Z) (workflowId : string) : M unit :=
  status ← reminders_get workflowId;
  match status with
  | None => throw ("Workflow " +:+ workflowId +:+ " not found")
  | Some status =>
      match state status with
      | failed =>
          workflowData ← storage_get ("workflow:" +:+ workflowId);
          match workflowData with
          | Some (WorkflowEntry name context _) =>
              let status := with_error None (with_state running status) in
              reminders_set workflowId status;;
              persistReminders;;
              status' ← try_catch
                (executeWorkflow now name context;;
                 mret (with_completedAt now (with_state completed status)))
                (fun e => mret (with_error (Some e) (with_state failed status)));
              reminders_set workflowId status';;
              persistReminders
          | _ => throw ("Workflow data not found for " +:+ workflowId)
          end
      | st =>
          throw ("Can only retry failed workflows. Current state: "
                 +:+ state_name st)
      end
  end.

(** [if (status) { ...; this.scheduledReminders.set(workflowId, status) }] *)
Definition update_status (workflowId : string)
    (f : WorkflowStatus -> WorkflowStatus) : M unit :=
  status ← reminders_get workflowId;
  match status with
  | Some status => reminders_set workflowId (f status)
  | None => mret ()
  end.

(** One round of the loop of [handleAlarm]. *)
Definition sweep_entry (now : Z) (entry : string * Stored) : M unit :=
  match entry with
  | (key, WorkflowEntry name context scheduledTime) =>
      if scheduledTime <=? now then
        let workflowId := Text.remove_first "workflow:" key in
        try_catch
          (executeWorkflow now name context;;
           update_status workflowId
             (fun s => with_completedAt now (with_state completed s));;
           on_storage (storage_delete key))
          (fun e =>
             update_status workflowId
               (fun s => with_error (Some e) (with_state failed s)))
      else mret ()
  | _ => mret ()
  end.

Fixpoint for_each {A : Type} (f : A -> M unit) (l : list A) : M unit :=
  match l with
  | [] => mret ()
  | x :: l' => f x;; for_each f l'
  end.

Definition handleAlarm (now : Z) : M unit :=
  try_catch
    (fun w =>
       let workflows := storage_list "workflow:" (storage w) in
       (for_each (sweep_entry now) workflows;; persistReminders) w)
    (fun _ => mret ()).

(** [alarm()] of NutritionAgent, the only caller of [handleAlarm].  The
    runtime calls it when the armed time has come; by then the alarm has
    fired and the slot is empty, unless a call inside arms it again. *)
Definition storage_alarmFired (st : Storage) : Storage :=
  {| records := records st; alarm := None |}.

Definition agent_alarm (now : Z) : M unit :=
  on_storage storage_alarmFired;;
  handleAlarm now.

(** *** Sequences of calls, for stating properties of the store *)

Inductive Call : Type :=
| Schedule (uuid workflowName : string) (context : WorkflowContext) (dueAt : Z)
| Sweep (now : Z)
| Cancel (now : Z) (workflowId : string).

(** A call that throws leaves the object as it was when it threw.  A
    sweep is the alarm firing at [now]: it happens when an alarm is armed
    for a time that has come, and not otherwise. *)
Definition perform (c : Call) (w : t) : t :=
  match c with
  | Schedule uuid name context dueAt =>
      (scheduleWorkflow uuid name context dueAt w).2
  | Sweep now =>
      match alarm (storage w) with
      | Some armed => if armed <=? now then (agent_alarm now w).2 else w
      | None => w
      end
  | Cancel now workflowId => (cancelWorkflow now workflowId w).2
  end.

Definition perform_all (calls : list Call) (w : t) : t :=
  foldl (fun w c => perform c w) w calls.

(** The alarm slot after the calls, from what it held before: a schedule
    puts its due time there, a sweep empties it when it fires. *)
Fixpoint armed_after (calls : list Call) (acc : option Z) : option Z :=
  match calls with
  | [] => acc
  | Schedule _ _ _ dueAt :: rest => armed_after rest (Some dueAt)
  | Sweep now :: rest =>
      armed_after rest
        (match acc with
         | Some armed => if armed <=? now then None else acc
         | None => None
         end)
  | Cancel _ _ :: rest => armed_after rest acc
  end.

(** The earliest due time among the tasks the table holds as pending. *)
Definition earliest_pending (w : t) : option Z :=
  map_fold
    (fun _ s acc =>
       match state s, startedAt s with
       | pending, Some due =>
           Some (match acc with Some a => Z.min a due | None => due end)
       | _, _ => acc
       end)
    None (scheduledReminders w).

End Workflow.

(* ===================================================================== *)
(** ** Message handlers (src/application/handlers)                       *)
(* ===================================================================== *)

(** interface IMessageHandler.  A handler works on state of its own (what
    it reaches through its state service), of type [S] here; both methods
    may throw. *)
Record IMessageHandler (S : Type) : Type := {
  canHandle : Core.ChatMessage -> S -> Res bool * S;
  handle : Core.ChatMessage -> string -> S -> Res Core.ChatMessage * S
}.
Arguments canHandle {S} _ _ _.
Arguments handle {S} _ _ _ _.

Module CommandHandler.
Import Core Text.

(** interface Command, as a tagged union of [type] and its payload; a
    flag is [false] where the payload leaves it out. *)
Inductive Command : Type :=
| analyze_meal (mealDescription : string)
| get_recommendations (showHelp : bool)
| set_goals (args : string)
| get_history (showGoals : bool).

Definition commandPatterns : list pattern :=
  [ Pattern true (Seq (Lit "analyze") (Plus ws));              (* /^analyze\s+/ *)
    Pattern true (Seq (Lit "set") (Seq (Plus ws) (Lit "goal")));  (* /^set\s+goal/ *)
    Pattern true (Seq (Lit "my") (Seq (Plus ws)
                   (Seq (Lit "goal") (Seq (Opt (Lit "s")) Eos)))); (* /^my\s+goals?$/ *)
    Pattern true (Seq (Lit "show") (Seq (Plus ws) (Lit "history"))); (* /^show\s+history/ *)
    Pattern true (Lit "recommend");                            (* /^recommend/ *)
    Pattern true (Lit "suggest");                              (* /^suggest/ *)
    Pattern true (Seq (Lit "help") Eos);                       (* /^help$/ *)
    Pattern false (Seq (Lit "what") (Seq (Plus ws) (Seq (Lit "should")
                    (Seq (Plus ws) (Seq (Lit "i") (Seq (Plus ws) (Lit "eat")))))))
                                                      (* /what\s+should\s+i\s+eat/ *)
  ].

(** [canHandle(message)], which neither throws nor touches any state. *)
Definition looks_like_command (message : ChatMessage) : bool :=
  let content := toLowerCase (trim (content message)) in
  if startsWith "/" content then true
  else existsb (fun p => test p content) commandPatterns.

Definition parseSlashCommand (content : string) : option Command :=
  let parts := split_space content in
  let commandName := substring_from 1 (default "" (head parts)) in
  let args := join_space (tail parts) in
  if String.eqb commandName "analyze-meal" || String.eqb commandName "analyze"
  then Some (analyze_meal args)
  else if String.eqb commandName "recommend" || String.eqb commandName "suggestions"
  then Some (get_recommendations false)
  else if String.eqb commandName "set-goals" || String.eqb commandName "goals"
  then Some (set_goals args)
  else if String.eqb commandName "history"
  then Some (get_history false)
  else if String.eqb commandName "help"
  then Some (get_recommendations true)
  else None.

Definition parseNaturalCommand (content : string) : option Command :=
  if startsWith "analyze" content then
    Some (analyze_meal
            (replace_empty (Pattern true (Seq (Lit "analyze") (Plus ws))) content))
  else if includes "recommend" content || includes "suggest" content
          || includes "what should i eat" content then
    Some (get_recommendations false)
  else if includes "my goals" content || includes "show goals" content then
    Some (get_history true)
  else if startsWith "set goal" content then
    Some (set_goals
            (replace_empty
               (Pattern true (Seq (Lit "set") (Seq (Plus ws)
                  (Seq (Lit "goal") (Seq (Opt (Lit "s")) (Star ws))))))
               content))                       (* /^set\s+goals?\s*/ *)
  else if includes "show history" content || includes "meal history" content then
    Some (get_history false)
  else None.

Definition parseCommand (content : string) : option Command :=
  let trimmed := toLowerCase (trim content) in
  if startsWith "/" trimmed then parseSlashCommand trimmed
  else parseNaturalCommand trimmed.

Definition not_understood : string :=
  "I didn't understand that command. Try " +:+ quote +:+ "help" +:+ quote
  +:+ " to see available commands.".

Section handler.
Context {S : Type}.

(** [executeCommand(command, userId)]: the four actions run the use
    cases and the state service, collaborators outside this model;
    what matters here is the text they return or the error they throw. *)
Variable executeCommand : Command -> string -> S -> Res string * S.

(** [uuid], [now]: what the [Message] constructor reads. *)
Variables (uuid : string) (now : Z).

Definition reply (text : string) : ChatMessage :=
  Message.toJSON (Message.create uuid now assistant text None).

(** [handle(message, userId)]: the whole body sits in a [try]. *)
Definition handle_command (message : ChatMessage) (userId : string) (s : S)
  : Res ChatMessage * S :=
  match parseCommand (content message) with
  | None => (Ok (reply not_understood), s)
  | Some command =>
      match executeCommand command userId s with
      | (Ok responseContent, s') => (Ok (reply responseContent), s')
      | (Throw e, s') =>
          (Ok (reply ("Sorry, I couldn't execute that command: " +:+ e)), s')
      end
  end.

Definition make : IMessageHandler S :=
  {| canHandle := fun message s => (Ok (looks_like_command message), s);
     handle := handle_command |}.
End handler.

End CommandHandler.

Module ChatMessageHandler.
Import Core Text.

Definition commandKeywords : list string :=
  ["analyze meal"; "set goal"; "my goals"; "meal history"; "recommend";
   "suggest meal"].

(** [canHandle(message)]: refuses what starts with a slash; the keyword
    loop returns [true] when it finds one, and so does the line after it. *)
Definition accepts (message : ChatMessage) : bool :=
  let content := toLowerCase (trim (content message)) in
  if startsWith "/" content then false
  else if existsb (fun keyword => includes keyword content) commandKeywords
  then true
  else true.

Section handler.
Context {S : Type}.

(** [handle(message, userId)] talks to the language model and the state
    service; taken as given. *)
Variable handle_chat : ChatMessage -> string -> S -> Res ChatMessage * S.

Definition make : IMessageHandler S :=
  {| canHandle := fun message s => (Ok (accepts message), s);
     handle := handle_chat |}.
End handler.

End ChatMessageHandler.

(* ===================================================================== *)
(** ** ConnectionHandler (src/infrastructure/websocket) and the handler
       registration of NutritionAgent                                    *)
(* ===================================================================== *)

Module ConnectionHandler.
Import Core.

(** What the server sends: the objects handed to [JSON.stringify]. *)
Inductive Frame : Type :=
| message_frame (role : MessageRole) (content messageId : string) (timestamp : Z)
| system_frame (content : string) (timestamp : Z)
| error_frame (content : string) (timestamp : Z)
| stream_start (timestamp : Z)
| stream_chunk (content : string) (timestamp : Z)
| stream_end (timestamp : Z).

(** The calls made on the socket of the connection. *)
Inductive WsCall : Type :=
| ws_send (frame : Frame)
| ws_close (code : Z) (reason : string).

(** The calls made on the registered handlers, by position in the chain. *)
Inductive HandlerCall : Type :=
| called_canHandle (position : nat)
| called_handle (position : nat).

(** What one inbound frame led to. *)
Record Turn (S : Type) : Type := {
  ws_calls : list WsCall;
  handler_calls : list HandlerCall;
  state_after : S
}.
Arguments ws_calls {S} _.
Arguments handler_calls {S} _.
Arguments state_after {S} _.

(** [parseMessage(messageText)]; [None] is the [null] it returns. *)
Definition parseMessage (uuid : string) (now : Z) (messageText : string)
  : option ChatMessage :=
  let raw_text := Some (Message.toJSON (Message.create uuid now user messageText None)) in
  match Json.JSON_parse messageText with
  | None => raw_text
  | Some parsed =>
      match Json.get "content" parsed with
      | Throw _ => raw_text
      | Ok c =>
          if Json.truthy c && Json.is_string c then
            match c with
            | Some (Json.JString text) =>
                Some (Message.toJSON (Message.create uuid now user text None))
            | _ => None
            end
          else None
      end
  end.

(** [sendError(ws, errorMessage)] *)
Definition sendError (now : Z) (errorMessage : string) : WsCall :=
  ws_send (error_frame errorMessage now).

Section dispatch.
Context {S : Type}.

(** What the loop over the handlers ends with. *)
Inductive Found : Type :=
| responded (response : ChatMessage)
| no_handler
| thrown (e : string).

(** [for (const handler of this.handlers)]: the first handler whose
    [canHandle] says yes handles the message; [position] counts the
    handlers already passed. *)
Fixpoint find_handler (handlers : list (IMessageHandler S)) (position : nat)
    (message : ChatMessage) (userId : string) (s : S)
  : Found * list HandlerCall * S :=
  match handlers with
  | [] => (no_handler, [], s)
  | handler :: rest =>
      match canHandle handler message s with
      | (Throw e, s1) => (thrown e, [called_canHandle position], s1)
      | (Ok true, s1) =>
          match handle handler message userId s1 with
          | (Ok response, s2) =>
              (responded response,
               [called_canHandle position; called_handle position], s2)
          | (Throw e, s2) =>
              (thrown e,
               [called_canHandle position; called_handle position], s2)
          end
      | (Ok false, s1) =>
          let '(found, calls, s2) :=
            find_handler rest (Datatypes.S position) message userId s1 in
          (found, called_canHandle position :: calls, s2)
      end
  end.

(** [handleIncomingMessage(ws, userId, data)] for text data; [uuid] and
    [now] are what the call itself reads. *)
Definition handleIncomingMessage (handlers : list (IMessageHandler S))
    (uuid : string) (now : Z) (userId : string) (data : string) (s : S)
  : Turn S :=
  match parseMessage uuid now data with
  | None =>
      {| ws_calls := [sendError now "Invalid message format"];
         handler_calls := []; state_after := s |}
  | Some parsedMessage =>
      match find_handler handlers 0 parsedMessage userId s with
      | (responded response, calls, s') =>
          {| ws_calls :=
               [ws_send (message_frame (role response) (content response)
                                       (id response) (timestamp response))];
             handler_calls := calls; state_after := s' |}
      | (no_handler, calls, s') =>
          {| ws_calls := [sendError now "No handler available for this message"];
             handler_calls := calls; state_after := s' |}
      | (thrown e, calls, s') =>
          {| ws_calls := [sendError now ("Failed to process message: " +:+ e)];
             handler_calls := calls; state_after := s' |}
      end
  end.
End dispatch.

End ConnectionHandler.

Module NutritionAgent.

Section agent.
Context {S : Type}.
Variable executeCommand :
  CommandHandler.Command -> string -> S -> Res string * S.
Variable handle_chat :
  Core.ChatMessage -> string -> S -> Res Core.ChatMessage * S.
Variables (uuid : string) (now : Z).

(** [setupMessageHandlers()]: the handlers in the order of the two
    [registerHandler] calls. *)
Definition setupMessageHandlers : list (IMessageHandler S) :=
  [ CommandHandler.make executeCommand uuid now;
    ChatMessageHandler.make handle_chat ].

(** [webSocketMessage(ws, message)] once the user of the socket is known. *)
Definition webSocketMessage (uuid' : string) (userId : string) (data : string)
    (s : S) : ConnectionHandler.Turn S :=
  ConnectionHandler.handleIncomingMessage setupMessageHandlers
    uuid' now userId data s.
End agent.

End NutritionAgent.

(* ===================================================================== *)
(** ** useWebSocket (frontend/src/hooks/useWebSocket.ts)                 *)
(* ===================================================================== *)

Module Client.
Import Json.

Inductive ReadyState : Type := CONNECTING | OPEN | CLOSING | CLOSED.

(** The refs and state of the hook, and the host's table of pending
    timeouts ([handle], [delay in ms]) that [setTimeout] and
    [clearTimeout] act on. *)
Record Hook : Type := {
  isConnected : bool;
  wsRef : option ReadyState;          (* the socket, by its readyState *)
  reconnectTimeoutRef : option nat;
  reconnectAttemptsRef : Z;
  isConnectingRef : bool;
  shouldReconnectRef : bool;
  timeouts : list (nat * Z);
  next_timeout : nat
}.

Definition maxReconnectAttempts : Z := 5.

(** The hook before its effect has run. *)
Definition initial : Hook :=
  {| isConnected := false; wsRef := None; reconnectTimeoutRef := None;
     reconnectAttemptsRef := 0; isConnectingRef := false;
     shouldReconnectRef := true; timeouts := []; next_timeout := 0 |}.

(** [connect()]; [url_ok] tells whether [new WebSocket(url)] accepts the
    address (it throws otherwise). *)
Definition connect (url_ok : bool) (h : Hook) : Hook :=
  if isConnectingRef h || match wsRef h with Some OPEN => true | _ => false end
  then h
  else if url_ok then
    {| isConnected := isConnected h; wsRef := Some CONNECTING;
       reconnectTimeoutRef := reconnectTimeoutRef h;
       reconnectAttemptsRef := reconnectAttemptsRef h;
       isConnectingRef := true;
       shouldReconnectRef := shouldReconnectRef h;
       timeouts := timeouts h; next_timeout := next_timeout h |}
  else
    {| isConnected := false; wsRef := wsRef h;
       reconnectTimeoutRef := reconnectTimeoutRef h;
       reconnectAttemptsRef := reconnectAttemptsRef h;
       isConnectingRef := false;
       shouldReconnectRef := shouldReconnectRef h;
       timeouts := timeouts h; next_timeout := next_timeout h |}.

(** [ws.onopen]: the socket is open by then. *)
Definition onopen (h : Hook) : Hook :=
  {| isConnected := true;
     wsRef := match wsRef h with Some _ => Some OPEN | None => None end;
     reconnectTimeoutRef := reconnectTimeoutRef h;
     reconnectAttemptsRef := 0;
     isConnectingRef := false;
     shouldReconnectRef := shouldReconnectRef h;
     timeouts := timeouts h; next_timeout := next_timeout h |}.

(** [ws.onclose] *)
Definition onclose (h : Hook) : Hook :=
  if shouldReconnectRef h && (reconnectAttemptsRef h <? maxReconnectAttempts)
  then
    let attempts := reconnectAttemptsRef h + 1 in
    let delay := Z.min (1000 * 2 ^ attempts) 30000 in
    {| isConnected := false; wsRef := None;
       reconnectTimeoutRef := Some (next_timeout h);
       reconnectAttemptsRef := attempts;
       isConnectingRef := false;
       shouldReconnectRef := shouldReconnectRef h;
       timeouts := timeouts h ++ [(next_timeout h, delay)];
       next_timeout := Datatypes.S (next_timeout h) |}
  else
    {| isConnected := false; wsRef := None;
       reconnectTimeoutRef := reconnectTimeoutRef h;
       reconnectAttemptsRef := reconnectAttemptsRef h;
       isConnectingRef := false;
       shouldReconnectRef := shouldReconnectRef h;
       timeouts := timeouts h; next_timeout := next_timeout h |}.

(** [ws.onerror] *)
Definition onerror (h : Hook) : Hook :=
  {| isConnected := isConnected h; wsRef := wsRef h;
     reconnectTimeoutRef := reconnectTimeoutRef h;
     reconnectAttemptsRef := reconnectAttemptsRef h;
     isConnectingRef := false;
     shouldReconnectRef := shouldReconnectRef h;
     timeouts := timeouts h; next_timeout := next_timeout h |}.

Definition without_timeout (handle : nat) (l : list (nat * Z)) : list (nat * Z) :=
  filter (fun t => t.1 ≠ handle) l.

(** The host runs the callback of a pending timeout: [connect()]. *)
Definition timeout_fires (handle : nat) (h : Hook) : Hook :=
  if decide (handle ∈ (timeouts h).*1) then
    connect true
      {| isConnected := isConnected h; wsRef := wsRef h;
         reconnectTimeoutRef := reconnectTimeoutRef h;
         reconnectAttemptsRef := reconnectAttemptsRef h;
         isConnectingRef := isConnectingRef h;
         shouldReconnectRef := shouldReconnectRef h;
         timeouts := without_timeout handle (timeouts h);
         next_timeout := next_timeout h |}
  else h.

(** The effect of the hook: on mount ... *)
Definition mount (h : Hook) : Hook :=
  connect true
    {| isConnected := isConnected h; wsRef := wsRef h;
       reconnectTimeoutRef := reconnectTimeoutRef h;
       reconnectAttemptsRef := reconnectAttemptsRef h;
       isConnectingRef := isConnectingRef h;
       shouldReconnectRef := true;
       timeouts := timeouts h; next_timeout := next_timeout h |}.

(** ... and its cleanup. *)
Definition cleanup (h : Hook) : Hook :=
  {| isConnected := isConnected h;
     wsRef := None;
     reconnectTimeoutRef := None;
     reconnectAttemptsRef := reconnectAttemptsRef h;
     isConnectingRef := false;
     shouldReconnectRef := false;
     timeouts := match reconnectTimeoutRef h with
                 | Some handle => without_timeout handle (timeouts h)
                 | None => timeouts h
                 end;
     next_timeout := next_timeout h |}.

(** [sendMessage(content)]: whether it was sent, and what was. *)
Definition sendMessage (now : Z) (content : string) (h : Hook)
  : bool * option (string * Z) :=
  match wsRef h with
  | Some OPEN => (true, Some (content, now))
  | _ => (false, None)
  end.

(** The [Message] handed to the [onMessage] callback.  The fields are
    copied from the frame unchecked, so they are JSON values;
    [interpolated p v] is the template literal that puts [v] after the
    text [p]. *)
Inductive Content : Type :=
| plain (v : JValue)
| interpolated (prefix : string) (v : JValue).

Record Message : Type := {
  id : JValue;
  role : JValue;
  content : Content;
  timestamp : option JValue
}.

(** [a || b] where [b] is a string *)
Definition or_else (a : option JValue) (b : string) : JValue :=
  if truthy a then default JNull a else JString b.

(** [ws.onmessage]: the calls of the [onMessage] callback it makes.
    Whatever is thrown on the way is caught and logged. *)
Definition onmessage (uuid : string) (event_data : string) : list Message :=
  match JSON_parse event_data with
  | None => []
  | Some data =>
      match get "type" data, get "content" data, get "messageId" data,
            get "role" data, get "timestamp" data with
      | Ok type, Ok content', Ok messageId, Ok role', Ok timestamp' =>
          if is_literal "message" type && truthy content' then
            [ {| id := or_else messageId uuid;
                 role := or_else role' "assistant";
                 content := plain (default JNull content');
                 timestamp := timestamp' |} ]
          else if is_literal "system" type && truthy content' then
            [ {| id := JString uuid;
                 role := JString "system";
                 content := plain (default JNull content');
                 timestamp := timestamp' |} ]
          else if is_literal "error" type && truthy content' then
            [ {| id := JString uuid;
                 role := JString "system";
                 content := interpolated "Error: " (default JNull content');
                 timestamp := timestamp' |} ]
          else []
      | _, _, _, _, _ => []
      end
  end.

(** The [n]-th close in a row, each one before it followed by the firing
    of the timeout it set. *)
Definition close_then_retry (h : Hook) : Hook :=
  let h' := onclose h in
  match reconnectTimeoutRef h' with
  | Some handle => timeout_fires handle h'
  | None => h'
  end.

Definition nth_close (n : nat) (h : Hook) : Hook :=
  onclose (Nat.iter (Nat.pred n) close_then_retry h).

(** The delays of the timeouts pending. *)
Definition pending_delays (h : Hook) : list Z := (timeouts h).*2.

End Client.

(* ===================================================================== *)
(** ** Vocabulary of the properties                                       *)
(* ===================================================================== *)

(** The messages appended one after the other. *)
Definition append_all (messages : list Core.ChatMessage) (c : NutritionContext.t)
  : NutritionContext.t :=
  foldl (fun c m => NutritionContext.addMessage m c) c messages.

(** The hook is free to retry: reconnection is wanted, [k] attempts are
    counted, and no timeout is pending. *)
Definition retrying (k : Z) (h : Client.Hook) : Prop :=
  Client.shouldReconnectRef h = true
  /\ Client.reconnectAttemptsRef h = k
  /\ Client.timeouts h = [].

(** The [type] of a parsed frame ([None]: it has none, or the frame is
    [null]). *)
Definition frame_type (data : Json.JValue) : option Json.JValue :=
  match Json.get "type" data with Ok t => t | Throw _ => None end.

Definition frame_content (data : Json.JValue) : option Json.JValue :=
  match Json.get "content" data with Ok c => c | Throw _ => None end.

(** The types the [onmessage] handler has a branch for. *)
Definition delivered_type (t : option Json.JValue) : bool :=
  Json.is_literal "message" t || Json.is_literal "system" t
  || Json.is_literal "error" t.

Definition stream_type (t : option Json.JValue) : bool :=
  Json.is_literal "stream_start" t || Json.is_literal "stream_chunk" t
  || Json.is_literal "stream_end" t.

(** An operation of the workflow object that leaves the alarm slot alone. *)
Definition keeps_alarm {A : Type} (m : Workflow.M A) : Prop :=
  forall w : Workflow.t,
    Workflow.alarm (Workflow.storage (m w).2)
    = Workflow.alarm (Workflow.storage w).

(** *** The specification's wording of the statements the code departs from *)

Module AsStated.
Import Workflow.

(** "The timer is set to the due time of the earliest pending task known
    to the store" (unarmed when there is none). *)
Definition timer_tracks_earliest (w : Workflow.t) : Prop :=
  alarm (storage w) = earliest_pending w.

(** "Cancel succeeds, setting the state to cancelled, if and only if the
    task is pending or running; cancelling a task in a terminal state
    fails with a state error and leaves the state unchanged." *)
Definition cancel_only_live (now : Z) (workflowId : string) (w : Workflow.t)
  : Prop :=
  forall status : WorkflowStatus,
    scheduledReminders w !! workflowId = Some status ->
    match state status with
    | pending | running =>
        exists w', cancelWorkflow now workflowId w = (Ok (), w')
                   /\ state <$> scheduledReminders w' !! workflowId
                      = Some cancelled
    | completed | failed | cancelled =>
        exists e, cancelWorkflow now workflowId w = (Throw e, w)
    end.

(** "An exception raised while the handlers are matched or run is turned
    into an assistant-role apology message, with the error detail
    appended, that is returned to the sender."  Read as: the one frame
    sent is a message frame of the assistant that ends in the detail. *)
Definition apology_on_error {S : Type} (handlers : list (IMessageHandler S))
    (uuid : string) (now : Z) (userId data : string) (s : S) : Prop :=
  forall (message : Core.ChatMessage) (e : string)
         (calls : list ConnectionHandler.HandlerCall) (s' : S),
    ConnectionHandler.parseMessage uuid now data = Some message ->
    ConnectionHandler.find_handler handlers 0 message userId s
    = (ConnectionHandler.thrown e, calls, s') ->
    exists (apology messageId : string) (timestamp : Z),
      ConnectionHandler.ws_calls
        (ConnectionHandler.handleIncomingMessage handlers uuid now userId data s)
      = [ConnectionHandler.ws_send
           (ConnectionHandler.message_frame Core.assistant (apology +:+ e)
                                            messageId timestamp)].

(** "Valid structured input": a JSON object carrying a string [content]. *)
Definition structured (data : string) : bool :=
  match Json.JSON_parse data with
  | Some (Json.JObject fields) =>
      Json.is_string (Json.lookup_field "content" fields)
  | _ => false
  end.

(** "A frame that is not valid structured input is taken whole as the
    content of a user message." *)
Definition raw_text_fallback (uuid : string) (now : Z) (data : string) : Prop :=
  structured data = false ->
  ConnectionHandler.parseMessage uuid now data
  = Some {| Core.id := uuid; Core.role := Core.user;
            Core.content := data; Core.timestamp := now |}.

End AsStated.

(** *** Sample data *)

Module Sample.

Definition context (user workflow : string) : Core.WorkflowContext :=
  {| Core.userId := user; Core.workflowId := workflow; Core.data := ∅ |}.

Definition fresh_store : Workflow.t := Workflow.create Workflow.empty_storage.

(** A meal reminder for user u1 under the id a, due at 100. *)
Definition schedule_a : Workflow.Call :=
  Workflow.Schedule "uuid-1" "meal-reminder" (context "u1" "a") 100.

(** A daily summary for user u1 under the id b, due at 200. *)
Definition schedule_b : Workflow.Call :=
  Workflow.Schedule "uuid-2" "daily-summary" (context "u1" "b") 200.

(** A handler whose [canHandle] throws. *)
Definition broken_matcher : IMessageHandler unit :=
  {| canHandle := fun _ s => (Throw "boom", s);
     handle := fun message _ s => (Ok message, s) |}.

(** A handler that takes every message and throws while handling it. *)
Definition broken_handler : IMessageHandler unit :=
  {| canHandle := fun _ s => (Ok true, s);
     handle := fun _ _ s => (Throw "model unavailable", s) |}.

(** Actions of the command handler that all fail. *)
Definition failing_actions (command : CommandHandler.Command)
    (userId : string) (s : unit) : Res string * unit :=
  (Throw "Meal analysis failed: timeout", s).

(** Actions that answer with a fixed text. *)
Definition fixed_actions (command : CommandHandler.Command)
    (userId : string) (s : unit) : Res string * unit :=
  (Ok "done", s).

(** A conversational handler that echoes the message back. *)
Definition echo_chat (message : Core.ChatMessage) (userId : string) (s : unit)
  : Res Core.ChatMessage * unit :=
  (Ok message, s).

Definition text_message (text : string) : Core.ChatMessage :=
  {| Core.id := "m-1"; Core.role := Core.user;
     Core.content := text; Core.timestamp := 0 |}.

End Sample.

(** The meals logged one after the other, each at its own time. *)
Definition add_meals (meals : list (Z * Core.MealAnalysis)) (p : UserProfile.t)
  : UserProfile.t :=
  foldl (fun p tm => UserProfile.addMeal tm.1 tm.2 p) p meals.

(** What a bounded list holds after one more element: the last [n] of the
    list with the element pushed. *)
Definition keep_last {A : Type} (n : nat) (l : list A) (x : A) : list A :=
  drop (length (l ++ [x]) - n) (l ++ [x]).

(** The workflow names [executeWorkflow] has a case for. *)
Definition known_workflow (name : string) : bool :=
  String.eqb name "meal-reminder" || String.eqb name "daily-summary"
  || String.eqb name "goal-check-in".

(** The status table saved in the store is the one held in memory (or
    neither has been written yet). *)
Definition table_saved (w : Workflow.t) : Prop :=
  Workflow.records (Workflow.storage w) !! "scheduled_reminders"
  = Some (Workflow.StatusTable (Workflow.scheduledReminders w))
  \/ (Workflow.records (Workflow.storage w) !! "scheduled_reminders" = None
      /\ Workflow.scheduledReminders w = ∅).

(** How a sweep marks the status of a task it ran. *)
Definition mark_completed (now : Z) (s : Workflow.WorkflowStatus)
  : Workflow.WorkflowStatus :=
  Workflow.with_completedAt now (Workflow.with_state Workflow.completed s).

Definition mark_failed (e : string) (s : Workflow.WorkflowStatus)
  : Workflow.WorkflowStatus :=
  Workflow.with_error (Some e) (Workflow.with_state Workflow.failed s).

(** The property [name] of a parsed frame ([None]: [undefined]). *)
Definition frame_field (name : string) (data : Json.JValue) : option Json.JValue :=
  match Json.get name data with Ok v => v | Throw _ => None end.

(** What reading a field of the goals gives after an update: what the
    update holds under the key when the key is present, and the old value
    otherwise. *)
Definition field_after {V : Type} (old : option V) (update : option (option V))
  : option V :=
  match update with
  | Some given => given
  | None => old
  end.

(* ===================================================================== *)
(** ** DIContainer (src/core/DIContainer.ts)                              *)
(* ===================================================================== *)

Module DIContainer.
Section container.
(** The instances ([any] in the source). *)
Context {T : Type}.

(** The two maps of the container.  A factory is a function without
    arguments that gives an instance or throws. *)
Record t : Type := {
  services : gmap string T;
  factories : gmap string (unit -> Res T)
}.

(** [new DIContainer()] *)
Definition create : t := {| services := ∅; factories := ∅ |}.

Definition register (key : string) (instance : T) (c : t) : t :=
  {| services := <[key := instance]> (services c);
     factories := factories c |}.

Definition registerFactory (key : string) (factory : unit -> Res T) (c : t) : t :=
  {| services := services c;
     factories := <[key := factory]> (factories c) |}.

Definition not_found (key : string) : string :=
  "Service '" +:+ key +:+ "' not found in container. Did you forget to register it?".

(** [resolve(key)]: the instance, or what is thrown, and the container
    afterwards. *)
Definition resolve (key : string) (c : t) : Res T * t :=
  match services c !! key with
  | Some instance => (Ok instance, c)
  | None =>
      match factories c !! key with
      | Some factory =>
          match factory () with
          | Ok instance =>
              (Ok instance,
               {| services := <[key := instance]> (services c);
                  factories := delete key (factories c) |})
          | Throw e => (Throw e, c)
          end
      | None => (Throw (not_found key), c)
      end
  end.

Definition has (key : string) (c : t) : bool :=
  bool_decide (is_Some (services c !! key))
  || bool_decide (is_Some (factories c !! key)).

Definition unregister (key : string) (c : t) : t :=
  {| services := delete key (services c);
     factories := delete key (factories c) |}.

Definition clear (c : t) : t := {| services := ∅; factories := ∅ |}.

End container.
Arguments t : clear implicits.
End DIContainer.

(* ===================================================================== *)
(** ** DurableObjectStorage and StateService (src/services/state)        *)
(* ===================================================================== *)

(** class DurableObjectStorage: the state manager over the store of the
    object.  The store itself does not fail, so the wrapped errors of the
    class do not arise. *)
Module DurableObjectStorage.
Section storage.
Context {V : Type}.

Definition save (key : string) (data : V) (store : gmap string V)
  : gmap string V := <[key := data]> store.

(** [get(key)]: [None] is the [null] given for a key without a value. *)
Definition get (key : string) (store : gmap string V) : option V :=
  store !! key.

Definition delete (key : string) (store : gmap string V) : gmap string V :=
  base.delete key store.

Definition exists_ (key : string) (store : gmap string V) : bool :=
  bool_decide (is_Some (store !! key)).

Definition clear (store : gmap string V) : gmap string V := ∅.

End storage.
End DurableObjectStorage.

(** class StateService *)
Module StateService.
Import Core.

(** The records the service keeps in the store. *)
Inductive Stored : Type :=
| ProfileData (data : UserProfile.json)         (* under user:<id>:profile *)
| ContextData (data : NutritionContext.json).   (* under user:<id>:context *)

Abbreviation Store := (gmap string Stored).

Definition getUserProfileKey (userId : string) : string :=
  "user:" +:+ userId +:+ ":profile".

Definition getContextKey (userId : string) : string :=
  "user:" +:+ userId +:+ ":context".

(** Operations: the result and the store afterwards.  The readers are
    defined on the records of their own kind; [None] stands for a read
    that finds a record of the other kind under its key, from which
    [fromJSON] would take fields that are not there. *)
Definition M (A : Type) : Type := Store -> option (A * Store).

#[global] Instance M_ret : MRet M := fun A a store => Some (a, store).
#[global] Instance M_bind : MBind M := fun A B f m store =>
  match m store with
  | Some (a, store') => f a store'
  | None => None
  end.

(** [getUserProfile(userId)]; [now] is the time the constructor inside
    [fromJSON] reads. *)
Definition getUserProfile (now : Z) (userId : string)
  : M (option UserProfile.t) :=
  fun store =>
    match DurableObjectStorage.get (getUserProfileKey userId) store with
    | None => Some (None, store)
    | Some (ProfileData data) => Some (Some (UserProfile.fromJSON now data), store)
    | Some (ContextData _) => None
    end.

Definition saveUserProfile (profile : UserProfile.t) : M unit :=
  fun store =>
    Some ((), DurableObjectStorage.save
                (getUserProfileKey (UserProfile.userId profile))
                (ProfileData (UserProfile.toJSON profile)) store).

Definition getOrCreateUserProfile (now : Z) (userId : string)
  : M UserProfile.t :=
  existing ← getUserProfile now userId;
  match existing with
  | Some profile => mret profile
  | None =>
      let newProfile := UserProfile.create now userId None in
      saveUserProfile newProfile;;
      mret newProfile
  end.

Definition deleteUserProfile (userId : string) : M unit :=
  fun store =>
    Some ((), DurableObjectStorage.delete (getUserProfileKey userId) store).

Definition getContext (now : Z) (userId : string)
  : M (option NutritionContext.t) :=
  fun store =>
    match DurableObjectStorage.get (getContextKey userId) store with
    | None => Some (None, store)
    | Some (ContextData data) =>
        Some (Some (NutritionContext.fromJSON now data), store)
    | Some (ProfileData _) => None
    end.

Definition saveContext (userId : string) (context : NutritionContext.t)
  : M unit :=
  fun store =>
    Some ((), DurableObjectStorage.save (getContextKey userId)
                (ContextData (NutritionContext.toJSON context)) store).

Definition getOrCreateContext (now : Z) (userId : string)
  : M NutritionContext.t :=
  existing ← getContext now userId;
  match existing with
  | Some context => mret context
  | None =>
      let newContext := NutritionContext.create now in
      saveContext userId newContext;;
      mret newContext
  end.

Definition clearContext (userId : string) : M unit :=
  fun store =>
    Some ((), DurableObjectStorage.delete (getContextKey userId) store).

Definition userExists (userId : string) (store : Store) : bool :=
  DurableObjectStorage.exists_ (getUserProfileKey userId) store.

End StateService.

(* ===================================================================== *)
(** ** PromptBuilder, LLMService (src/services/llm) and the [handle] of
       ChatMessageHandler                                                *)
(* ===================================================================== *)

Module PromptBuilder.
Import Core.

Definition nl : string := String "010"%char EmptyString.

(** [parts.join(sep)] *)
Fixpoint join (sep : string) (parts : list string) : string :=
  match parts with
  | [] => ""
  | [p] => p
  | p :: rest => p +:+ sep +:+ join sep rest
  end.

Definition fitnessGoal_text (g : FitnessGoal) : string :=
  match g with
  | weight_loss => "weight-loss"
  | muscle_gain => "muscle-gain"
  | maintenance => "maintenance"
  end.

(** A quantity is truthy unless it is zero. *)
Definition number_truthy (q : Q) : bool := negb (Qnum q =? 0).

Section prompts.
(** How the host prints a number inside a template literal. *)
Variable show_number : Q -> string.

Definition buildSystemPrompt (userGoals : option UserGoals) : string :=
  let prompt :=
    "You are a helpful nutrition coach assistant. Your role is to:" +:+ nl +:+
    "- Analyze meals and provide nutritional information" +:+ nl +:+
    "- Give personalized recommendations based on user goals" +:+ nl +:+
    "- Answer questions about nutrition and healthy eating" +:+ nl +:+
    "- Be encouraging and supportive" +:+ nl +:+
    "- Provide accurate, science-based nutrition advice" +:+ nl +:+
    nl +:+
    "Provide clear, helpful responses. Include practical details and actionable advice." in
  match userGoals with
  | None => prompt
  | Some userGoals =>
      let prompt := prompt +:+ nl +:+ nl +:+ "User Goals:" +:+ nl in
      let prompt :=
        match fitnessGoal userGoals with
        | Some g => prompt +:+ "- Fitness Goal: " +:+ fitnessGoal_text g +:+ nl
        | None => prompt
        end in
      let prompt :=
        match dailyCalories userGoals with
        | Some c =>
            if number_truthy c
            then prompt +:+ "- Daily Calorie Target: " +:+ show_number c
                        +:+ " calories" +:+ nl
            else prompt
        | None => prompt
        end in
      let prompt :=
        match dailyProtein userGoals with
        | Some p =>
            if number_truthy p
            then prompt +:+ "- Daily Protein Target: " +:+ show_number p
                        +:+ "g" +:+ nl
            else prompt
        | None => prompt
        end in
      match dietaryRestrictions userGoals with
      | Some restrictions =>
          if (0 <? length restrictions)%nat
          then prompt +:+ "- Dietary Restrictions: "
                      +:+ join ", " restrictions +:+ nl
          else prompt
      | None => prompt
      end
  end.

(** One line of the history: whoever is not the user is the assistant. *)
Definition history_line (msg : ChatMessage) : string :=
  (match role msg with user => "User" | _ => "Assistant" end)
  +:+ ": " +:+ content msg.

(** [formatConversationHistory(messages, maxMessages = 10)] *)
Definition formatConversationHistory (messages : list ChatMessage)
    (maxMessages : Z) : string :=
  let recentMessages := slice (- maxMessages) messages in
  join nl (history_line <$> recentMessages).

Definition buildChatPrompt (userMessage : string)
    (conversationHistory : list ChatMessage) (userGoals : option UserGoals)
  : string :=
  let prompt := buildSystemPrompt userGoals in
  let prompt :=
    if (0 <? length conversationHistory)%nat
    then prompt +:+ nl +:+ nl +:+ "Conversation History:" +:+ nl
                +:+ formatConversationHistory conversationHistory 8
    else prompt in
  prompt +:+ nl +:+ nl +:+ "User: " +:+ userMessage +:+ nl +:+ "Assistant:".

End prompts.
End PromptBuilder.

Module LLMService.
Import Core.

Section service.
(** [provider.generate(prompt)], by the content of the response it gives
    or the message of what it throws. *)
Variable generate : string -> Res string.
Variable show_number : Q -> string.

Definition validateResponse (content : string) : bool :=
  if String.eqb content "" || (String.length (Text.trim content) =? 0)%nat
  then false
  else true.

Definition generateChatResponse (userMessage : string)
    (conversationHistory : list ChatMessage) (userGoals : option UserGoals)
  : Res string :=
  let attempt :=
    let prompt :=
      PromptBuilder.buildChatPrompt show_number userMessage
        conversationHistory userGoals in
    match generate prompt with
    | Ok content =>
        if negb (validateResponse content)
        then Throw "Generated response failed validation"
        else Ok content
    | Throw e => Throw e
    end in
  match attempt with
  | Ok content => Ok content
  | Throw _ => Throw "Failed to generate response. Please try again."
  end.

End service.
End LLMService.

(** [handle] of class ChatMessageHandler, over the store of its state
    service. *)
Module ChatMessageHandling.
Import Core.

Definition apology : string :=
  "Sorry, I encountered an error processing your message. Please try again.".

Section handler.
Variable generate : string -> Res string.
Variable show_number : Q -> string.

(** [handle(message, userId)].  [uuid] is the id drawn for the reply;
    [t_context], [t_profile] and [t_reply] are the times read when the
    context, the profile and the reply are made. *)
Definition handle (uuid : string) (t_context t_profile t_reply : Z)
    (message : ChatMessage) (userId : string) : StateService.M ChatMessage :=
  nutritionContext ← StateService.getOrCreateContext t_context userId;
  userProfile ← StateService.getOrCreateUserProfile t_profile userId;
  let nutritionContext := NutritionContext.addMessage message nutritionContext in
  match LLMService.generateChatResponse generate show_number
          (content message)
          (NutritionContext.getRecentMessages 10 nutritionContext)
          (Some (UserProfile.goals userProfile)) with
  | Ok responseContent =>
      let responseMessage :=
        Message.create uuid t_reply assistant responseContent None in
      let nutritionContext :=
        NutritionContext.addMessage (Message.toJSON responseMessage)
                                    nutritionContext in
      StateService.saveContext userId nutritionContext;;
      mret (Message.toJSON responseMessage)
  | Throw _ =>
      let errorMessage := Message.create uuid t_reply assistant apology None in
      mret (Message.toJSON errorMessage)
  end.

End handler.
End ChatMessageHandling.

(* ===================================================================== *)
(** ** The connections of ConnectionHandler and the sockets of
       NutritionAgent                                                    *)
(* ===================================================================== *)

(** [Map<string, V>] as the sources use it: entries in insertion order,
    [set] on a key that is present keeps its place. *)
Module StringMap.
Section map.
Context {V : Type}.

Fixpoint set (key : string) (value : V) (m : list (string * V))
  : list (string * V) :=
  match m with
  | [] => [(key, value)]
  | (k, v) :: rest =>
      if String.eqb k key then (key, value) :: rest
      else (k, v) :: set key value rest
  end.

Fixpoint get (key : string) (m : list (string * V)) : option V :=
  match m with
  | [] => None
  | (k, v) :: rest => if String.eqb k key then Some v else get key rest
  end.

Definition has (key : string) (m : list (string * V)) : bool :=
  match get key m with Some _ => true | None => false end.

Fixpoint delete (key : string) (m : list (string * V)) : list (string * V) :=
  match m with
  | [] => []
  | (k, v) :: rest =>
      if String.eqb k key then delete key rest else (k, v) :: delete key rest
  end.

Definition size (m : list (string * V)) : nat := length m.

End map.
End StringMap.

(** The connection registry of class ConnectionHandler.  A socket is
    known by a number; the calls made on sockets are logged in order. *)
Module Connections.
Import ConnectionHandler.

Record t : Type := {
  activeConnections : list (string * nat);
  calls : list (nat * WsCall)
}.

(** [new ConnectionHandler()] *)
Definition create : t := {| activeConnections := []; calls := [] |}.

Definition welcome : string :=
  "Connected to Nutrition Coach! How can I help you today?".

(** [sendMessage(ws, data)] *)
Definition sendMessage (ws : nat) (frame : Frame) (c : t) : t :=
  {| activeConnections := activeConnections c;
     calls := calls c ++ [(ws, ws_send frame)] |}.

Definition handleConnection (now : Z) (ws : nat) (userId : string) (c : t) : t :=
  sendMessage ws (system_frame welcome now)
    {| activeConnections := StringMap.set userId ws (activeConnections c);
       calls := calls c |}.

Definition handleConnectionClose (userId : string) (c : t) : t :=
  {| activeConnections := StringMap.delete userId (activeConnections c);
     calls := calls c |}.

Definition handleConnectionError (userId : string) (c : t) : t :=
  {| activeConnections := StringMap.delete userId (activeConnections c);
     calls := calls c |}.

(** [broadcast(message)] *)
Definition broadcast (frame : Frame) (c : t) : t :=
  foldl (fun c entry => sendMessage entry.2 frame c) c (activeConnections c).

Definition sendToUser (userId : string) (frame : Frame) (c : t) : bool * t :=
  match StringMap.get userId (activeConnections c) with
  | None => (false, c)
  | Some ws => (true, sendMessage ws frame c)
  end.

Definition isUserConnected (userId : string) (c : t) : bool :=
  StringMap.has userId (activeConnections c).

Definition getActiveConnectionCount (c : t) : nat :=
  StringMap.size (activeConnections c).

Definition closeConnection (userId : string) (c : t) : t :=
  match StringMap.get userId (activeConnections c) with
  | Some ws =>
      {| activeConnections := StringMap.delete userId (activeConnections c);
         calls := calls c ++ [(ws, ws_close 1000 "Connection closed by server")] |}
  | None => c
  end.

Definition closeAllConnections (c : t) : t :=
  {| activeConnections := [];
     calls := calls c
              ++ ((fun entry : string * nat =>
                     (entry.2, ws_close 1000 "Server closing"))
                  <$> activeConnections c) |}.

End Connections.

(** The socket side of class NutritionAgent. *)
Module AgentSockets.

Record t : Type := {
  wsToUserId : gmap nat string;
  connectionHandler : Connections.t
}.

(** The agent as its constructor leaves it. *)
Definition create : t :=
  {| wsToUserId := ∅; connectionHandler := Connections.create |}.

(** [a || b] on strings that may be missing *)
Definition or_else (a : option string) (b : string) : string :=
  match a with
  | Some s => if String.eqb s "" then b else s
  | None => b
  end.

(** [handleWebSocketUpgrade(request)]: [param] is the [userId] of the
    query, [server] the server end of the new socket pair. *)
Definition handleWebSocketUpgrade (param : option string) (uuid : string)
    (now : Z) (server : nat) (a : t) : t :=
  let userId := or_else param uuid in
  {| wsToUserId := <[server := userId]> (wsToUserId a);
     connectionHandler :=
       Connections.handleConnection now server userId (connectionHandler a) |}.

(** The user a socket event is attributed to. *)
Definition user_of (ws : nat) (a : t) : string :=
  or_else (wsToUserId a !! ws) "unknown".

(** [webSocketClose(ws, code, reason)]: the connection handler has no
    [handleDisconnection], so the guarded call inside is never made. *)
Definition webSocketClose (ws : nat) (a : t) : t :=
  {| wsToUserId := delete ws (wsToUserId a);
     connectionHandler := connectionHandler a |}.

(** [webSocketError(ws, error)] only logs. *)
Definition webSocketError (ws : nat) (a : t) : t := a.

(** The [connections] figure of the health check. *)
Definition health_connections (a : t) : nat :=
  Connections.getActiveConnectionCount (connectionHandler a).

(** What happens to the sockets of an agent. *)
Inductive Event : Type :=
| upgraded (param : option string) (uuid : string) (now : Z) (server : nat)
| closed (ws : nat)
| errored (ws : nat).

Definition step (a : t) (e : Event) : t :=
  match e with
  | upgraded param uuid now server =>
      handleWebSocketUpgrade param uuid now server a
  | closed ws => webSocketClose ws a
  | errored ws => webSocketError ws a
  end.

Definition run (events : list Event) (a : t) : t := foldl step a events.

End AgentSockets.

(** *** Vocabulary of the properties of the state service *)

(** Every profile key of the store holds profile data and every context
    key context data. *)
Definition well_kinded (store : StateService.Store) : Prop :=
  forall userId : string,
    (forall data, store !! StateService.getUserProfileKey userId
                  = Some (StateService.ContextData data) -> False)
    /\ (forall data, store !! StateService.getContextKey userId
                     = Some (StateService.ProfileData data) -> False).

(** What an operation returns, and the store it leaves. *)
Definition returned {A : Type} (r : option (A * StateService.Store)) : option A :=
  fst <$> r.

(** The history the store holds for a user ([[]] without a context). *)
Definition stored_history (userId : string) (store : StateService.Store)
  : list Core.ChatMessage :=
  match store !! StateService.getContextKey userId with
  | Some (StateService.ContextData data) =>
      default [] (NutritionContext.j_conversationHistory data)
  | _ => []
  end.

(** The provider gave a usable answer to some prompt. *)
Definition answered (generate : string -> Res string) (text : string) : Prop :=
  exists prompt : string,
    generate prompt = Ok text /\ LLMService.validateResponse text = true.
Example trim_ex : Text.trim "  /Help me  " = "/Help me".
Proof. vm_compute. reflexivity. Qed.

Example split_ex : Text.split_space "a  b" = ["a"; ""; "b"].
Proof. reflexivity. Qed.

Example parse_ex1 :
  Json.JSON_parse (Json.dq "{'content': 'hi', 'timestamp': 12.50e1, 'x': [true, null, {}]}")
  = Some (Json.JObject [("content", Json.JString "hi");
                        ("timestamp", Json.JNumber 1250 (-1));
                        ("x", Json.JArray [Json.JBool true; Json.JNull; Json.JObject []])]).
Proof. vm_compute. reflexivity. Qed.

Example parse_ex2 : Json.JSON_parse "analyze oatmeal" = None.
Proof. vm_compute. reflexivity. Qed.

Example parse_ex3 : Json.JSON_parse (Json.dq " 'é\n' ") = Some (Json.JString (Text.bytes [195; 169; 10])).
Proof. vm_compute. reflexivity. Qed.

Example parse_ex4 : Json.JSON_parse "01" = None /\ Json.JSON_parse "[1,]" = None /\ Json.JSON_parse "-0.0" = Some (Json.JNumber 0 (-1)).
Proof. vm_compute. auto. Qed.

(* ===================================================================== *)
(** * Properties                                                         *)
(* ===================================================================== *)

(** ** Bounded conversation history                                      *)

Section history.
Import Core NutritionContext.

Lemma slice_last {A : Type} (n : nat) (l : list A) :
  (0 < n)%nat -> slice (- Z.of_nat n) l = drop (length l - n) l.
Proof.
  intros Hn. unfold slice. f_equal. generalize (length l) as len. intros len.
  destruct (- Z.of_nat n <? 0) eqn:E.
  - apply Z.ltb_lt in E. lia.
  - apply Z.ltb_ge in E. lia.
Qed.

Lemma addMessage_history (m : ChatMessage) (c : NutritionContext.t) :
  conversationHistory (addMessage m c)
  = drop (length (conversationHistory c ++ [m]) - 20)
         (conversationHistory c ++ [m]).
Proof.
  unfold addMessage.
  destruct (20 <? length (conversationHistory c ++ [m]))%nat eqn:E; simpl.
  - apply (slice_last 20). lia.
  - apply Nat.ltb_ge in E.
    replace (length (conversationHistory c ++ [m]) - 20)%nat with 0%nat by lia.
    reflexivity.
Qed.

Lemma append_all_history (messages : list ChatMessage) :
  forall c : NutritionContext.t,
    conversationHistory (append_all messages c)
    = drop (length (conversationHistory c ++ messages) - 20)
           (conversationHistory c ++ messages)
      \/ (messages = [] /\ append_all messages c = c).
Proof.
  induction messages as [|m rest IH]; intros c.
  - right. split; reflexivity.
  - left. simpl.
    destruct (IH (addMessage m c)) as [H | [-> H]].
    + rewrite H, addMessage_history.
      set (pushed := conversationHistory c ++ [m]).
      replace (conversationHistory c ++ m :: rest) with (pushed ++ rest)
        by (unfold pushed; rewrite <- app_assoc; reflexivity).
      set (k := (length pushed - 20)%nat).
      assert (Hk : (k <= length pushed)%nat) by (unfold k; lia).
      rewrite <- (drop_app_le pushed rest k Hk).
      rewrite drop_drop. f_equal.
      rewrite length_drop, !length_app. unfold k. lia.
    + simpl. apply addMessage_history.
Qed.

End history.

(** C5.  Whatever messages are appended to a new conversation context with
    [addMessage], the stored history has at most 20 entries and is exactly
    the last (up to) 20 of the appended messages, in the order they were
    appended: the oldest ones are the ones dropped. *)
Theorem C5_history_keeps_last_20 (now : Z) (messages : list Core.ChatMessage) :
  let history :=
    NutritionContext.conversationHistory
      (append_all messages (NutritionContext.create now)) in
  history = drop (length messages - 20) messages
  /\ (length history <= 20)%nat
  /\ history `suffix_of` messages.
Proof.
  simpl.
  assert (H : NutritionContext.conversationHistory
                (append_all messages (NutritionContext.create now))
              = drop (length messages - 20) messages).
  { destruct (append_all_history messages (NutritionContext.create now))
      as [H | [-> H]]; [exact H | reflexivity]. }
  rewrite H. split; [reflexivity | split].
  - rewrite length_drop. lia.
  - apply suffix_drop.
Qed.

(** ** Persistence round trip                                             *)

(** C9.  A user profile, and a conversation context, read back with
    [fromJSON] from what [toJSON] produced is equal to the saved one in
    every field (userId, goals, mealHistory, preferences, createdAt,
    updatedAt; conversationHistory, currentMeal, userGoals,
    sessionStartTime), whatever the clock shows at reload. *)
Theorem C9_toJSON_fromJSON_roundtrip :
  (forall (now : Z) (p : UserProfile.t),
      UserProfile.fromJSON now (UserProfile.toJSON p) = p)
  /\ (forall (now : Z) (c : NutritionContext.t),
         NutritionContext.fromJSON now (NutritionContext.toJSON c) = c).
Proof.
  split; intros now [] ; reflexivity.
Qed.

(** ** Reconnection with backoff                                          *)

Section reconnect.
Import Client.

Lemma onclose_schedules (k : Z) (h : Hook) :
  retrying k h -> 0 <= k < maxReconnectAttempts ->
  let h' := onclose h in
  timeouts h' = [(next_timeout h, Z.min (1000 * 2 ^ (k + 1)) 30000)]
  /\ reconnectTimeoutRef h' = Some (next_timeout h)
  /\ reconnectAttemptsRef h' = k + 1
  /\ shouldReconnectRef h' = true
  /\ isConnectingRef h' = false /\ wsRef h' = None /\ isConnected h' = false.
Proof.
  intros (Hs & Ha & Ht) Hk. unfold onclose. rewrite Hs, Ha, Ht.
  replace (k <? maxReconnectAttempts) with true
    by (symmetry; apply Z.ltb_lt; lia).
  simpl. repeat split; reflexivity.
Qed.

Lemma onclose_gives_up (h : Hook) :
  retrying maxReconnectAttempts h ->
  let h' := onclose h in
  timeouts h' = [] /\ isConnected h' = false /\ wsRef h' = None
  /\ isConnectingRef h' = false
  /\ retrying maxReconnectAttempts h'.
Proof.
  intros (Hs & Ha & Ht). unfold onclose, retrying.
  rewrite Hs, Ha. unfold maxReconnectAttempts. simpl. repeat split; auto.
Qed.

Lemma without_timeout_only (handle : nat) (delay : Z) :
  without_timeout handle [(handle, delay)] = [].
Proof.
  unfold without_timeout.
  rewrite filter_cons_False by (simpl; intros Hne; apply Hne; reflexivity).
  reflexivity.
Qed.

(** The timeout a close has set, when it fires, calls [connect]: a new
    socket is made and an attempt is under way. *)
Lemma retry_fires_connects (k : Z) (h : Hook) :
  retrying k h -> 0 <= k < maxReconnectAttempts ->
  let h' := timeout_fires (next_timeout h) (onclose h) in
  wsRef h' = Some CONNECTING
  /\ isConnectingRef h' = true
  /\ timeouts h' = []
  /\ reconnectAttemptsRef h' = k + 1
  /\ shouldReconnectRef h' = true.
Proof.
  intros Hr Hk.
  destruct (onclose_schedules k h Hr Hk) as (Ht & Hh & Ha & Hs & Hc & Hw & _).
  unfold timeout_fires. rewrite Ht.
  rewrite decide_True by (simpl; apply list_elem_of_here).
  rewrite without_timeout_only.
  unfold connect. simpl. rewrite Hc, Hw. simpl. auto.
Qed.

Lemma close_then_retry_counts (k : Z) (h : Hook) :
  retrying k h -> 0 <= k < maxReconnectAttempts ->
  retrying (k + 1) (close_then_retry h).
Proof.
  intros Hr Hk.
  destruct (onclose_schedules k h Hr Hk) as (Ht & Hh & Ha & Hs & Hc & Hw & _).
  unfold close_then_retry. rewrite Hh.
  unfold timeout_fires. rewrite Ht.
  rewrite decide_True by (simpl; apply list_elem_of_here).
  rewrite without_timeout_only.
  unfold connect. simpl. rewrite Hc, Hw. simpl.
  unfold retrying. simpl. auto.
Qed.

Lemma retries_count (n : nat) (h : Hook) :
  retrying 0 h -> (Z.of_nat n <= maxReconnectAttempts) ->
  retrying (Z.of_nat n) (Nat.iter n close_then_retry h).
Proof.
  intros Hr. induction n as [|n IH]; intros Hn.
  - exact Hr.
  - simpl Nat.iter.
    replace (Z.of_nat (S n)) with (Z.of_nat n + 1) by lia.
    apply close_then_retry_counts; [apply IH | ]; lia.
Qed.

End reconnect.

(** C6.  From a hook that wants to reconnect, has counted no attempt and
    has no timeout pending, let the connection close again and again, every
    retry timeout running but never an open in between.  The [n]-th close,
    for n = 1..5, sets one timeout of min(1000 * 2^n, 30000) ms, that is
    2000, 4000, 8000, 16000 and 30000; the 6th close sets none and leaves
    the hook disconnected, with no socket and no pending timeout, and
    further closes change nothing; a [connect()] call from there opens a
    socket again.  Each of the five timeouts is the one the hook holds,
    and when it fires the hook reconnects: [connect] runs, a new socket is
    being connected, the attempt counts as the [n]-th and no timeout is
    left pending.  After the 6th close no timeout is there to fire, so the
    hook stays without a socket until [connect()] is called. *)
Theorem C6_reconnect_backoff (h : Client.Hook)
    (Hwant : Client.shouldReconnectRef h = true)
    (Hzero : Client.reconnectAttemptsRef h = 0)
    (Hidle : Client.timeouts h = []) :
  (forall n : nat, (1 <= n <= 5)%nat ->
     Client.pending_delays (Client.nth_close n h)
     = [Z.min (1000 * 2 ^ Z.of_nat n) 30000])
  /\ map (fun n => Client.pending_delays (Client.nth_close n h))
         [1; 2; 3; 4; 5]%nat
     = [[2000]; [4000]; [8000]; [16000]; [30000]]
  /\ Client.pending_delays (Client.nth_close 6 h) = []
  /\ Client.isConnected (Client.nth_close 6 h) = false
  /\ Client.wsRef (Client.nth_close 6 h) = None
  /\ Client.onclose (Client.nth_close 6 h) = Client.nth_close 6 h
  /\ Client.wsRef (Client.connect true (Client.nth_close 6 h))
     = Some Client.CONNECTING
  /\ (forall n : nat, (1 <= n <= 5)%nat ->
        exists handle : nat,
          Client.reconnectTimeoutRef (Client.nth_close n h) = Some handle
          /\ Client.timeouts (Client.nth_close n h)
             = [(handle, Z.min (1000 * 2 ^ Z.of_nat n) 30000)]
          /\ Client.wsRef (Client.nth_close n h) = None
          /\ let retried := Client.timeout_fires handle (Client.nth_close n h) in
             Client.wsRef retried = Some Client.CONNECTING
             /\ Client.isConnectingRef retried = true
             /\ Client.timeouts retried = []
             /\ Client.reconnectAttemptsRef retried = Z.of_nat n)
  /\ (forall handle : nat,
        Client.timeout_fires handle (Client.nth_close 6 h) = Client.nth_close 6 h).
Proof.
  assert (Hr : retrying 0 h) by (unfold retrying; auto).
  assert (Hn : forall n : nat, (1 <= n <= 5)%nat ->
     Client.pending_delays (Client.nth_close n h)
     = [Z.min (1000 * 2 ^ Z.of_nat n) 30000]).
  { intros n Hn. unfold Client.nth_close, Client.pending_delays.
    pose proof (retries_count (Nat.pred n) h Hr) as Hp.
    unfold Client.maxReconnectAttempts in Hp.
    destruct (onclose_schedules (Z.of_nat (Nat.pred n)) _ (Hp ltac:(lia)))
      as (Ht & _).
    { unfold Client.maxReconnectAttempts. lia. }
    rewrite Ht. simpl.
    replace (Z.of_nat (Nat.pred n) + 1) with (Z.of_nat n) by lia.
    reflexivity. }
  assert (Hfire : forall n : nat, (1 <= n <= 5)%nat ->
        exists handle : nat,
          Client.reconnectTimeoutRef (Client.nth_close n h) = Some handle
          /\ Client.timeouts (Client.nth_close n h)
             = [(handle, Z.min (1000 * 2 ^ Z.of_nat n) 30000)]
          /\ Client.wsRef (Client.nth_close n h) = None
          /\ let retried := Client.timeout_fires handle (Client.nth_close n h) in
             Client.wsRef retried = Some Client.CONNECTING
             /\ Client.isConnectingRef retried = true
             /\ Client.timeouts retried = []
             /\ Client.reconnectAttemptsRef retried = Z.of_nat n).
  { intros n Hrange. unfold Client.nth_close.
    pose proof (retries_count (Nat.pred n) h Hr) as Hp.
    unfold Client.maxReconnectAttempts in Hp.
    specialize (Hp ltac:(lia)).
    assert (Hk : 0 <= Z.of_nat (Nat.pred n) < Client.maxReconnectAttempts)
      by (unfold Client.maxReconnectAttempts; lia).
    destruct (onclose_schedules _ _ Hp Hk) as (Ht & Hh & _ & _ & _ & Hw & _).
    destruct (retry_fires_connects _ _ Hp Hk) as (Fw & Fc & Ft & Fa & _).
    exists (Client.next_timeout (Nat.iter (Nat.pred n) Client.close_then_retry h)).
    replace (Z.of_nat (Nat.pred n) + 1) with (Z.of_nat n) in * by lia.
    split; [exact Hh|]. split; [exact Ht|]. split; [exact Hw|].
    cbv zeta. auto. }
  split; [exact Hn | split].
  - simpl. rewrite !Hn by lia. reflexivity.
  - pose proof (retries_count 5 h Hr ltac:(unfold Client.maxReconnectAttempts; lia))
    as H5.
  change (Z.of_nat 5) with Client.maxReconnectAttempts in H5.
  destruct (onclose_gives_up _ H5) as (Ht & Hc & Hw & Hi & Hs6 & Ha6 & _).
  unfold Client.nth_close in *. change (Nat.pred 6) with 5%nat.
  set (h6 := Client.onclose (Nat.iter 5 Client.close_then_retry h)) in *.
  clearbody h6.
  split; [unfold Client.pending_delays; rewrite Ht; reflexivity|].
  split; [exact Hc|]. split; [exact Hw|].
  split.
  { unfold Client.onclose. rewrite Hs6, Ha6.
    destruct h6; simpl in *; subst; reflexivity. }
  split; [unfold Client.connect; rewrite Hi, Hw; reflexivity|].
  split; [exact Hfire|].
  intros handle. unfold Client.timeout_fires. rewrite Ht.
  rewrite decide_False by (simpl; apply not_elem_of_nil).
  reflexivity.
Qed.

(** The hook right after its effect has run fits C6. *)
Lemma C6_reconnect_backoff_witness :
  map (fun n => Client.pending_delays
                  (Client.nth_close n (Client.mount Client.initial)))
      [1; 2; 3; 4; 5]%nat
  = [[2000]; [4000]; [8000]; [16000]; [30000]]
  /\ Client.pending_delays (Client.nth_close 6 (Client.mount Client.initial)) = [].
Proof.
  pose proof (C6_reconnect_backoff (Client.mount Client.initial)
                eq_refl eq_refl eq_refl) as (_ & H & H6 & _).
  split; [exact H | exact H6].
Defined.

(** ** Frames the client drops                                            *)

Section inbound.
Import Json Client.

Lemma stream_type_not_delivered (t : option JValue) :
  stream_type t = true -> delivered_type t = false.
Proof.
  destruct t as [[| | | s | |]|]; simpl; try discriminate.
  unfold stream_type, delivered_type, is_literal.
  intros H.
  destruct (String.eqb_spec s "message") as [-> | _]; [discriminate H|].
  destruct (String.eqb_spec s "system") as [-> | _]; [discriminate H|].
  destruct (String.eqb_spec s "error") as [-> | _]; [discriminate H|].
  reflexivity.
Qed.

End inbound.

(** C10.  A frame that parses to a value whose [type] is [stream_start],
    [stream_chunk] or [stream_end], or any type other than [message],
    [system] and [error], or that has no [content], leads to no call of
    the [onMessage] callback. *)
Theorem C10_stream_frames_dropped (uuid text : string) (data : Json.JValue)
    (Hparse : Json.JSON_parse text = Some data)
    (Hframe : stream_type (frame_type data) = true
              \/ delivered_type (frame_type data) = false
              \/ frame_content data = None) :
  Client.onmessage uuid text = [].
Proof.
  assert (H : delivered_type (frame_type data) = false
              \/ frame_content data = None).
  { destruct Hframe as [H | H]; [left; apply stream_type_not_delivered, H | exact H]. }
  clear Hframe. unfold Client.onmessage. rewrite Hparse.
  unfold frame_type, frame_content, delivered_type in H.
  destruct (Json.get "type" data) as [t|]; [|reflexivity].
  destruct (Json.get "content" data) as [c|]; [|reflexivity].
  destruct (Json.get "messageId" data); [|reflexivity].
  destruct (Json.get "role" data); [|reflexivity].
  destruct (Json.get "timestamp" data); [|reflexivity].
  destruct H as [H | ->].
  - apply orb_false_iff in H as [H He].
    apply orb_false_iff in H as [Hm Hs].
    rewrite Hm, Hs, He. reflexivity.
  - simpl. rewrite !andb_false_r. reflexivity.
Qed.

(** A chunk of a streamed answer is such a frame. *)
Lemma C10_stream_frames_dropped_witness :
  Client.onmessage "id-1"
    (Json.dq "{'type':'stream_chunk','content':'Oats are','timestamp':7}") = [].
Proof.
  apply (C10_stream_frames_dropped "id-1" _
           (Json.JObject [("type", Json.JString "stream_chunk");
                          ("content", Json.JString "Oats are");
                          ("timestamp", Json.JNumber 7 0)])).
  - vm_compute. reflexivity.
  - left. vm_compute. reflexivity.
Defined.

(** ** The alarm of the scheduled-task store                              *)

Section alarm.
Import Workflow.

Lemma keeps_alarm_ret {A : Type} (a : A) : keeps_alarm (mret a : M A).
Proof. intros w. reflexivity. Qed.

Lemma keeps_alarm_throw {A : Type} (e : string) : keeps_alarm (@throw A e).
Proof. intros w. reflexivity. Qed.

Lemma keeps_alarm_bind {A B : Type} (m : M A) (f : A -> M B) :
  keeps_alarm m -> (forall a, keeps_alarm (f a)) -> keeps_alarm (m ≫= f).
Proof.
  intros Hm Hf w. unfold mbind, M_bind.
  specialize (Hm w). destruct (m w) as [[a | e] w']; simpl in *.
  - rewrite Hf. exact Hm.
  - exact Hm.
Qed.

Lemma keeps_alarm_try_catch {A : Type} (body : M A) (handler : string -> M A) :
  keeps_alarm body -> (forall e, keeps_alarm (handler e)) ->
  keeps_alarm (try_catch body handler).
Proof.
  intros Hb Hh w. unfold try_catch.
  specialize (Hb w). destruct (body w) as [[a | e] w']; simpl in *.
  - exact Hb.
  - rewrite Hh. exact Hb.
Qed.

Lemma keeps_alarm_put (k : string) (v : Stored) :
  keeps_alarm (on_storage (storage_put k v)).
Proof. intros w. reflexivity. Qed.

Lemma keeps_alarm_delete (k : string) :
  keeps_alarm (on_storage (storage_delete k)).
Proof. intros w. reflexivity. Qed.

Lemma keeps_alarm_get (workflowId : string) :
  keeps_alarm (reminders_get workflowId).
Proof. intros w. reflexivity. Qed.

Lemma keeps_alarm_set (workflowId : string) (s : WorkflowStatus) :
  keeps_alarm (reminders_set workflowId s).
Proof. intros w. reflexivity. Qed.

Lemma keeps_alarm_persist : keeps_alarm persistReminders.
Proof. intros w. reflexivity. Qed.

Create HintDb alarm.
#[local] Hint Resolve keeps_alarm_ret keeps_alarm_throw keeps_alarm_put
  keeps_alarm_delete keeps_alarm_get keeps_alarm_set keeps_alarm_persist
  : alarm.

Ltac alarm_steps :=
  repeat first
    [ solve [auto with alarm]
    | apply keeps_alarm_try_catch; [| intros ?]
    | apply keeps_alarm_bind; [| intros ?] ].

Lemma keeps_alarm_update (workflowId : string)
    (f : WorkflowStatus -> WorkflowStatus) :
  keeps_alarm (update_status workflowId f).
Proof.
  unfold update_status. apply keeps_alarm_bind; [auto with alarm|].
  intros [s|]; auto with alarm.
Qed.

Lemma keeps_alarm_execute (now : Z) (name : string) (context : Core.WorkflowContext) :
  keeps_alarm (executeWorkflow now name context).
Proof.
  unfold executeWorkflow, executeMealReminder, executeDailySummary,
    executeGoalCheckIn.
  repeat (destruct (String.eqb _ _)); auto with alarm.
Qed.

#[local] Hint Resolve keeps_alarm_update keeps_alarm_execute : alarm.

Lemma keeps_alarm_sweep_entry (now : Z) (entry : string * Stored) :
  keeps_alarm (sweep_entry now entry).
Proof.
  destruct entry as [key [name context due | |]]; simpl; auto with alarm.
  destruct (due <=? now); auto with alarm.
  alarm_steps.
Qed.

Lemma keeps_alarm_for_each {A : Type} (f : A -> M unit) (l : list A) :
  (forall a, keeps_alarm (f a)) -> keeps_alarm (for_each f l).
Proof.
  intros Hf. induction l as [|a l IH]; simpl; [auto with alarm|].
  apply keeps_alarm_bind; auto.
Qed.

(** A sweep makes no call that sets the alarm. *)
Lemma keeps_alarm_handleAlarm (now : Z) : keeps_alarm (handleAlarm now).
Proof.
  unfold handleAlarm. apply keeps_alarm_try_catch; [|auto with alarm].
  intros w.
  apply (keeps_alarm_bind (for_each _ _) (fun _ => persistReminders)).
  - apply keeps_alarm_for_each, keeps_alarm_sweep_entry.
  - auto with alarm.
Qed.

(** Neither does a cancellation. *)
Lemma keeps_alarm_cancel (now : Z) (workflowId : string) :
  keeps_alarm (cancelWorkflow now workflowId).
Proof.
  unfold cancelWorkflow. apply keeps_alarm_bind; [auto with alarm|].
  intros [s|]; [|auto with alarm].
  destruct (state s); alarm_steps.
Qed.

(** Scheduling sets the alarm to the new due time, whatever it held. *)
Lemma schedule_sets_alarm (uuid name : string)
    (context : Core.WorkflowContext) (dueAt : Z) (w : Workflow.t) :
  alarm (storage (scheduleWorkflow uuid name context dueAt w).2) = Some dueAt.
Proof. reflexivity. Qed.

(** The alarm firing empties the slot, and the sweep does not fill it. *)
Lemma agent_alarm_clears (now : Z) (w : Workflow.t) :
  alarm (storage (agent_alarm now w).2) = None.
Proof.
  unfold agent_alarm, mbind, M_bind, on_storage.
  rewrite keeps_alarm_handleAlarm. reflexivity.
Qed.

Lemma alarm_after_calls (calls : list Call) :
  forall w : Workflow.t,
    alarm (storage (perform_all calls w))
    = armed_after calls (alarm (storage w)).
Proof.
  induction calls as [|c calls IH]; intros w; [reflexivity|].
  unfold perform_all in *. simpl foldl. rewrite IH.
  destruct c as [uuid name context dueAt | now | now workflowId]; simpl.
  - reflexivity.
  - destruct (alarm (storage w)) as [armed|] eqn:E; [|rewrite E; reflexivity].
    destruct (armed <=? now); [|rewrite E; reflexivity].
    rewrite agent_alarm_clears. reflexivity.
  - rewrite keeps_alarm_cancel. reflexivity.
Qed.

End alarm.

(** C1, on the code.  The alarm does not track the earliest pending task.
    Every schedule call puts its own due time into the one alarm slot:
    after a task due at 100 and then one due at 200 are scheduled, the
    alarm is at 200 while the earliest pending task is due at 100.  And no
    call arms the alarm again once it has fired: with the task due at 200
    scheduled first and the one due at 100 second, the alarm fires at 100,
    the sweep completes the task due at 100, and afterwards the task due
    at 200 is still pending with its record in the store while no alarm is
    armed at all. *)
Theorem C1_alarm_not_earliest :
  let w := Workflow.perform_all [Sample.schedule_a; Sample.schedule_b]
                                Sample.fresh_store in
  let w' := Workflow.perform_all
              [Sample.schedule_b; Sample.schedule_a; Workflow.Sweep 100]
              Sample.fresh_store in
  (Workflow.alarm (Workflow.storage w) = Some 200
   /\ Workflow.earliest_pending w = Some 100
   /\ ~ AsStated.timer_tracks_earliest w)
  /\ (Workflow.state <$> Workflow.scheduledReminders w' !! "a"
        = Some Workflow.completed
      /\ Workflow.state <$> Workflow.scheduledReminders w' !! "b"
         = Some Workflow.pending
      /\ Workflow.records (Workflow.storage w') !! "workflow:b"
         = Some (Workflow.WorkflowEntry "daily-summary" (Sample.context "u1" "b") 200)
      /\ Workflow.alarm (Workflow.storage w') = None
      /\ Workflow.earliest_pending w' = Some 200
      /\ ~ AsStated.timer_tracks_earliest w').
Proof.
  unfold AsStated.timer_tracks_earliest.
  split.
  - split; [vm_compute; reflexivity | split; [vm_compute; reflexivity |]].
    vm_compute. discriminate.
  - repeat (split; [vm_compute; reflexivity |]).
    vm_compute. discriminate.
Qed.

(** ** Cancellation                                                        *)

(** C2, on the code.  A pending meal reminder is scheduled for 100 and
    cancelled at 150: its status is cancelled, but its record under
    workflow:a stays in the store.  The sweep at 200 runs its body (the
    reminder for u1 is written) and marks the task completed. *)
Theorem C2_cancelled_task_is_swept :
  let w1 := Workflow.perform_all [Sample.schedule_a; Workflow.Cancel 150 "a"]
                                 Sample.fresh_store in
  let w2 := Workflow.perform (Workflow.Sweep 200) w1 in
  Workflow.state <$> Workflow.scheduledReminders w1 !! "a"
    = Some Workflow.cancelled
  /\ Workflow.records (Workflow.storage w1) !! "workflow:a"
     = Some (Workflow.WorkflowEntry "meal-reminder" (Sample.context "u1" "a") 100)
  /\ Workflow.records (Workflow.storage w2) !! "reminder:u1:200"
     = Some (Workflow.ReminderEntry "meal-reminder"
               (Json.JString "Time to log your meal!") 200)
  /\ Workflow.state <$> Workflow.scheduledReminders w2 !! "a"
     = Some Workflow.completed.
Proof. vm_compute. repeat split; reflexivity. Qed.

(** C3, as the code has it.  For a known task, cancel succeeds exactly when
    the task is pending, running or already cancelled, and then the task is
    cancelled with the time of the call as its completion time; for a
    completed or failed task it throws "Cannot cancel <state> workflow" and
    leaves the object as it was. *)
Theorem C3_cancel_by_state (now : Z) (workflowId : string) (w : Workflow.t)
    (status : Workflow.WorkflowStatus)
    (Hknown : Workflow.scheduledReminders w !! workflowId = Some status) :
  match Workflow.state status with
  | Workflow.pending | Workflow.running | Workflow.cancelled =>
      exists w',
        Workflow.cancelWorkflow now workflowId w = (Ok (), w')
        /\ Workflow.scheduledReminders w' !! workflowId
           = Some (Workflow.with_completedAt now
                     (Workflow.with_state Workflow.cancelled status))
  | Workflow.completed | Workflow.failed =>
      Workflow.cancelWorkflow now workflowId w
      = (Throw ("Cannot cancel " +:+ Workflow.state_name (Workflow.state status)
                +:+ " workflow"), w)
  end.
Proof.
  unfold Workflow.cancelWorkflow, mbind, Workflow.M_bind, Workflow.reminders_get.
  rewrite Hknown.
  destruct (Workflow.state status) eqn:Hst; simpl;
    try reflexivity;
    (eexists; split; [reflexivity | simpl; apply lookup_insert_eq]).
Qed.

(** A task just scheduled is pending and can be cancelled. *)
Lemma C3_cancel_by_state_witness :
  exists w',
    Workflow.cancelWorkflow 150 "a"
      (Workflow.perform Sample.schedule_a Sample.fresh_store) = (Ok (), w')
    /\ Workflow.state <$> Workflow.scheduledReminders w' !! "a"
       = Some Workflow.cancelled.
Proof.
  destruct (C3_cancel_by_state 150 "a"
              (Workflow.perform Sample.schedule_a Sample.fresh_store)
              {| Workflow.workflowId := "a";
                 Workflow.workflowName := "meal-reminder";
                 Workflow.state := Workflow.pending;
                 Workflow.startedAt := Some 100;
                 Workflow.completedAt := None;
                 Workflow.error := None |}
              ltac:(vm_compute; reflexivity)) as (w' & Hc & Hs).
  exists w'. split; [exact Hc | rewrite Hs; reflexivity].
Defined.

(** C3, as stated, fails: a task that is already cancelled is cancelled
    again without any error. *)
Lemma C3_cancel_twice_succeeds :
  let w := Workflow.perform_all [Sample.schedule_a; Workflow.Cancel 150 "a"]
                                Sample.fresh_store in
  Workflow.state <$> Workflow.scheduledReminders w !! "a"
    = Some Workflow.cancelled
  /\ (Workflow.cancelWorkflow 160 "a" w).1 = Ok ()
  /\ ~ AsStated.cancel_only_live 160 "a" w.
Proof.
  split; [vm_compute; reflexivity | split; [vm_compute; reflexivity |]].
  intros H.
  specialize (H {| Workflow.workflowId := "a";
                   Workflow.workflowName := "meal-reminder";
                   Workflow.state := Workflow.cancelled;
                   Workflow.startedAt := Some 100;
                   Workflow.completedAt := Some 150;
                   Workflow.error := None |}
                ltac:(vm_compute; reflexivity)).
  simpl in H. destruct H as [e H].
  apply (f_equal fst) in H. vm_compute in H. discriminate H.
Qed.

(** ** Dispatch                                                            *)

Section dispatch.
Import Core Text ConnectionHandler.
Context {S : Type}.

Lemma prefix_empty (s : string) : String.prefix "" s = true.
Proof. destruct s; reflexivity. Qed.

Lemma startsWith_slash_inv (s : string) :
  startsWith "/" s = true -> exists rest, s = String "/"%char rest.
Proof.
  unfold startsWith. intros H. apply String.prefix_correct in H.
  destruct s as [|a rest]; [discriminate H|].
  simpl in H. destruct rest; simpl in H; injection H as ->; eauto.
Qed.

(** Lower-casing keeps a leading slash. *)
Lemma toLowerCase_slash (s : string) :
  startsWith "/" s = true -> startsWith "/" (toLowerCase s) = true.
Proof.
  intros H. apply startsWith_slash_inv in H as [rest ->].
  unfold startsWith. apply String.prefix_correct. simpl.
  destruct (toLowerCase rest); reflexivity.
Qed.

Lemma slash_is_command (message : ChatMessage) :
  startsWith "/" (trim (content message)) = true ->
  CommandHandler.looks_like_command message = true.
Proof.
  intros H. unfold CommandHandler.looks_like_command.
  rewrite (toLowerCase_slash _ H). reflexivity.
Qed.

(** The loop stops at the first handler that accepts. *)
Lemma first_match_wins (first : IMessageHandler S)
    (rest : list (IMessageHandler S)) (position : nat)
    (message : ChatMessage) (userId : string) (s s1 : S) :
  canHandle first message s = (Ok true, s1) ->
  find_handler (first :: rest) position message userId s
  = find_handler [first] position message userId s.
Proof. intros H. simpl. rewrite H. reflexivity. Qed.

Variable executeCommand :
  CommandHandler.Command -> string -> S -> Res string * S.
Variable handle_chat : ChatMessage -> string -> S -> Res ChatMessage * S.
Variables (uuid : string) (now : Z).

(** The command handler always answers. *)
Lemma handle_command_answers (message : ChatMessage) (userId : string) (s : S) :
  exists response s',
    CommandHandler.handle_command executeCommand uuid now message userId s
    = (Ok response, s').
Proof.
  unfold CommandHandler.handle_command.
  destruct (CommandHandler.parseCommand _); [|eauto].
  destruct (executeCommand _ _ _) as [[text | e] s']; eauto.
Qed.

Lemma command_handler_first (message : ChatMessage) (userId : string) (s : S)
    (response : ChatMessage) (s' : S) :
  CommandHandler.looks_like_command message = true ->
  CommandHandler.handle_command executeCommand uuid now message userId s
  = (Ok response, s') ->
  find_handler
    (NutritionAgent.setupMessageHandlers executeCommand handle_chat uuid now)
    0 message userId s
  = (responded response, [called_canHandle 0; called_handle 0], s').
Proof.
  intros Hc Hh. unfold NutritionAgent.setupMessageHandlers. simpl.
  rewrite Hc, Hh. reflexivity.
Qed.

End dispatch.

(** C7.  With the handlers as the agent registers them, a message the
    command handler recognises as a command (in particular one whose
    trimmed content starts with a slash) is handled by the command
    handler, which stands first: the loop calls its [canHandle] and its
    [handle] and nothing else, so the conversational handler in second
    place is not even asked, whatever it would have said, and the
    response is the command handler's. *)
Theorem C7_commands_never_reach_fallback {S : Type}
    (executeCommand : CommandHandler.Command -> string -> S -> Res string * S)
    (handle_chat : Core.ChatMessage -> string -> S -> Res Core.ChatMessage * S)
    (uuid : string) (now : Z)
    (message : Core.ChatMessage) (userId : string) (s : S)
    (Hcommand : CommandHandler.looks_like_command message = true
                \/ Text.startsWith "/" (Text.trim (Core.content message)) = true) :
  CommandHandler.looks_like_command message = true
  /\ exists response s',
       CommandHandler.handle_command executeCommand uuid now message userId s
       = (Ok response, s')
       /\ ConnectionHandler.find_handler
            (NutritionAgent.setupMessageHandlers executeCommand handle_chat uuid now)
            0 message userId s
          = (ConnectionHandler.responded response,
             [ConnectionHandler.called_canHandle 0;
              ConnectionHandler.called_handle 0], s').
Proof.
  assert (Hc : CommandHandler.looks_like_command message = true).
  { destruct Hcommand as [H | H]; [exact H | apply slash_is_command, H]. }
  split; [exact Hc|].
  destruct (handle_command_answers executeCommand uuid now message userId s)
    as (response & s' & Hh).
  exists response, s'. split; [exact Hh|].
  apply command_handler_first; assumption.
Qed.

(** "recommend a meal history" is a command that the conversational
    handler accepts as well; the command handler answers it. *)
Lemma C7_commands_never_reach_fallback_witness :
  ChatMessageHandler.accepts (Sample.text_message "recommend a meal history") = true
  /\ exists response s',
       ConnectionHandler.find_handler
         (NutritionAgent.setupMessageHandlers
            Sample.fixed_actions Sample.echo_chat "r-1" 9)
         0 (Sample.text_message "recommend a meal history") "u1" tt
       = (ConnectionHandler.responded response,
          [ConnectionHandler.called_canHandle 0;
           ConnectionHandler.called_handle 0], s').
Proof.
  split; [vm_compute; reflexivity|].
  assert (Hc : CommandHandler.looks_like_command
                 (Sample.text_message "recommend a meal history") = true)
    by (vm_compute; reflexivity).
  destruct (C7_commands_never_reach_fallback
              Sample.fixed_actions Sample.echo_chat "r-1" 9
              (Sample.text_message "recommend a meal history") "u1" tt
              (or_introl Hc))
    as (_ & response & s' & _ & H).
  exists response, s'. exact H.
Defined.

(** ** Errors at the dispatch boundary                                     *)

(** C4, as the code has it.  (1) When the walk over the handlers throws,
    in a [canHandle] or in a [handle], [handleIncomingMessage] catches the
    error and makes exactly one call on the socket: it sends an [error]
    frame whose content is "Failed to process message: " followed by the
    detail; it does not close the socket.  (2) An error thrown while the
    command handler executes a command does not get that far: the handler
    itself turns it into an assistant message "Sorry, I couldn't execute
    that command: " followed by the detail, which the agent's chain sends
    as an ordinary [message] frame. *)
Theorem C4_dispatch_errors :
  (forall (S : Type) (handlers : list (IMessageHandler S))
          (uuid : string) (now : Z) (userId data : string) (s : S)
          (message : Core.ChatMessage) (e : string)
          (calls : list ConnectionHandler.HandlerCall) (s' : S),
      ConnectionHandler.parseMessage uuid now data = Some message ->
      ConnectionHandler.find_handler handlers 0 message userId s
      = (ConnectionHandler.thrown e, calls, s') ->
      let turn :=
        ConnectionHandler.handleIncomingMessage handlers uuid now userId data s in
      ConnectionHandler.ws_calls turn
      = [ConnectionHandler.ws_send
           (ConnectionHandler.error_frame ("Failed to process message: " +:+ e) now)]
      /\ (forall code reason,
             ConnectionHandler.ws_close code reason ∉ ConnectionHandler.ws_calls turn))
  /\ (forall (S : Type)
             (executeCommand : CommandHandler.Command -> string -> S -> Res string * S)
             (handle_chat : Core.ChatMessage -> string -> S -> Res Core.ChatMessage * S)
             (uuid : string) (now : Z) (uuid' : string)
             (userId data : string) (s s' : S)
             (message : Core.ChatMessage) (command : CommandHandler.Command)
             (e : string),
         ConnectionHandler.parseMessage uuid' now data = Some message ->
         CommandHandler.looks_like_command message = true ->
         CommandHandler.parseCommand (Core.content message) = Some command ->
         executeCommand command userId s = (Throw e, s') ->
         ConnectionHandler.ws_calls
           (NutritionAgent.webSocketMessage executeCommand handle_chat uuid now
              uuid' userId data s)
         = [ConnectionHandler.ws_send
              (ConnectionHandler.message_frame Core.assistant
                 ("Sorry, I couldn't execute that command: " +:+ e) uuid now)]).
Proof.
  split.
  - intros S handlers uuid now userId data s message e calls s' Hp Hf turn.
    subst turn. unfold ConnectionHandler.handleIncomingMessage.
    rewrite Hp, Hf. simpl. split; [reflexivity|].
    intros code reason Hin. apply list_elem_of_singleton in Hin. discriminate Hin.
  - intros S executeCommand handle_chat uuid now uuid' userId data s s'
      message command e Hp Hc Hparse He.
    unfold NutritionAgent.webSocketMessage,
      ConnectionHandler.handleIncomingMessage.
    rewrite Hp.
    rewrite (command_handler_first executeCommand handle_chat uuid now
               message userId s
               (CommandHandler.reply uuid now
                  ("Sorry, I couldn't execute that command: " +:+ e)) s' Hc).
    + reflexivity.
    + unfold CommandHandler.handle_command. rewrite Hparse, He. reflexivity.
Qed.

(** Both parts on an instance: a handler that throws while handling
    "hello", and the agent's chain on "/analyze pizza" with failing
    actions. *)
Lemma C4_dispatch_errors_witness :
  ConnectionHandler.ws_calls
    (ConnectionHandler.handleIncomingMessage [Sample.broken_handler]
       "m-1" 5 "u1" "hello" tt)
  = [ConnectionHandler.ws_send
       (ConnectionHandler.error_frame
          "Failed to process message: model unavailable" 5)]
  /\ ConnectionHandler.ws_calls
       (NutritionAgent.webSocketMessage Sample.failing_actions Sample.echo_chat
          "r-1" 5 "m-1" "u1" "/analyze pizza" tt)
     = [ConnectionHandler.ws_send
          (ConnectionHandler.message_frame Core.assistant
             "Sorry, I couldn't execute that command: Meal analysis failed: timeout"
             "r-1" 5)].
Proof.
  destruct C4_dispatch_errors as [H1 H2]. split.
  - apply (H1 unit [Sample.broken_handler] "m-1" 5 "u1" "hello" tt
              {| Core.id := "m-1"; Core.role := Core.user;
                 Core.content := "hello"; Core.timestamp := 5 |}
              "model unavailable"
              [ConnectionHandler.called_canHandle 0; ConnectionHandler.called_handle 0]
              tt);
      vm_compute; reflexivity.
  - apply (H2 unit Sample.failing_actions Sample.echo_chat "r-1" 5 "m-1" "u1"
              "/analyze pizza" tt tt
              {| Core.id := "m-1"; Core.role := Core.user;
                 Core.content := "/analyze pizza"; Core.timestamp := 5 |}
              (CommandHandler.analyze_meal "pizza")
              "Meal analysis failed: timeout");
      vm_compute; reflexivity.
Defined.

(** C4, as stated, fails: when a [canHandle] throws while "hello" is
    matched, what is sent is an [error] frame, not an assistant message. *)
Lemma C4_error_frame_not_apology :
  ConnectionHandler.ws_calls
    (ConnectionHandler.handleIncomingMessage [Sample.broken_matcher]
       "m-1" 5 "u1" "hello" tt)
  = [ConnectionHandler.ws_send
       (ConnectionHandler.error_frame "Failed to process message: boom" 5)]
  /\ ~ AsStated.apology_on_error [Sample.broken_matcher] "m-1" 5 "u1" "hello" tt.
Proof.
  split; [vm_compute; reflexivity|].
  intros H.
  destruct (H {| Core.id := "m-1"; Core.role := Core.user;
                 Core.content := "hello"; Core.timestamp := 5 |}
              "boom" [ConnectionHandler.called_canHandle 0] tt
              ltac:(vm_compute; reflexivity) ltac:(vm_compute; reflexivity))
    as (apology & messageId & timestamp & Hsent).
  vm_compute in Hsent. discriminate Hsent.
Qed.

(** ** Parsing of inbound frames                                           *)

Section parse.
Import Core Json ConnectionHandler.

(** The user message made of the whole raw text. *)
Lemma parseMessage_not_json (uuid : string) (now : Z) (data : string) :
  JSON_parse data = None \/ JSON_parse data = Some JNull ->
  parseMessage uuid now data
  = Some {| id := uuid; role := user; content := data; timestamp := now |}.
Proof.
  unfold parseMessage. intros [-> | ->]; reflexivity.
Qed.

Lemma parseMessage_content (uuid : string) (now : Z) (data : string)
    (v : JValue) (text : string) :
  JSON_parse data = Some v -> frame_content v = Some (JString text) ->
  text <> "" ->
  parseMessage uuid now data
  = Some {| id := uuid; role := user; content := text; timestamp := now |}.
Proof.
  unfold parseMessage, frame_content. intros -> Hc Hne.
  destruct (get "content" v) as [c|]; [|discriminate Hc].
  subst c. simpl.
  destruct (String.eqb_spec text "") as [->|_]; [contradiction|reflexivity].
Qed.

Lemma parseMessage_rejects (uuid : string) (now : Z) (data : string) (v : JValue) :
  JSON_parse data = Some v -> v <> JNull ->
  (forall text, frame_content v = Some (JString text) -> text = "") ->
  parseMessage uuid now data = None.
Proof.
  unfold parseMessage, frame_content. intros -> Hnull Hc.
  destruct (get "content" v) as [c|] eqn:Hget.
  - destruct c as [[| | | text | |]|]; simpl;
      rewrite ?andb_false_r; try reflexivity.
    rewrite (Hc text eq_refl). reflexivity.
  - destruct v; try discriminate Hget. contradiction.
Qed.

End parse.

(** C8, as the code has it.  A frame whose text is not JSON, or is the JSON
    [null], is taken whole as the content of a user message, and that
    message is what the handlers are walked with.  A frame that is JSON
    and carries a non-empty string [content] gives a user message with
    that content.  Any other JSON frame (no [content], an empty one, or
    one that is not a string) is rejected: the answer is the [error] frame
    "Invalid message format" and no handler is called. *)
Theorem C8_parse_or_reject {S : Type} (handlers : list (IMessageHandler S))
    (uuid : string) (now : Z) (userId data : string) (s : S) :
  let raw := {| Core.id := uuid; Core.role := Core.user;
                Core.content := data; Core.timestamp := now |} in
  let turn :=
    ConnectionHandler.handleIncomingMessage handlers uuid now userId data s in
  (Json.JSON_parse data = None \/ Json.JSON_parse data = Some Json.JNull ->
     ConnectionHandler.parseMessage uuid now data = Some raw
     /\ ConnectionHandler.handler_calls turn
        = (ConnectionHandler.find_handler handlers 0 raw userId s).1.2
     /\ ConnectionHandler.state_after turn
        = (ConnectionHandler.find_handler handlers 0 raw userId s).2)
  /\ (forall (v : Json.JValue) (text : string),
         Json.JSON_parse data = Some v ->
         frame_content v = Some (Json.JString text) -> text <> "" ->
         ConnectionHandler.parseMessage uuid now data
         = Some {| Core.id := uuid; Core.role := Core.user;
                   Core.content := text; Core.timestamp := now |})
  /\ (forall v : Json.JValue,
         Json.JSON_parse data = Some v -> v <> Json.JNull ->
         (forall text, frame_content v = Some (Json.JString text) -> text = "") ->
         ConnectionHandler.parseMessage uuid now data = None
         /\ turn = {| ConnectionHandler.ws_calls :=
                        [ConnectionHandler.ws_send
                           (ConnectionHandler.error_frame "Invalid message format" now)];
                      ConnectionHandler.handler_calls := [];
                      ConnectionHandler.state_after := s |}).
Proof.
  intros raw turn. split; [|split].
  - intros H. pose proof (parseMessage_not_json uuid now data H) as Hp.
    split; [exact Hp|].
    subst turn. unfold ConnectionHandler.handleIncomingMessage. rewrite Hp.
    fold raw.
    destruct (ConnectionHandler.find_handler handlers 0 raw userId s)
      as [[[response| |e] calls] s']; simpl; auto.
  - intros v text Hv Hc Hne. eapply parseMessage_content; eassumption.
  - intros v Hv Hnull Hc.
    pose proof (parseMessage_rejects uuid now data v Hv Hnull Hc) as Hp.
    split; [exact Hp|].
    subst turn. unfold ConnectionHandler.handleIncomingMessage. rewrite Hp.
    reflexivity.
Qed.

(** The three cases on "analyze oatmeal", on a structured frame and on a
    JSON object without content. *)
Lemma C8_parse_or_reject_witness :
  ConnectionHandler.parseMessage "m-1" 5 "analyze oatmeal"
  = Some {| Core.id := "m-1"; Core.role := Core.user;
            Core.content := "analyze oatmeal"; Core.timestamp := 5 |}
  /\ ConnectionHandler.parseMessage "m-1" 5
       (Json.dq "{'content':'/help','timestamp':3}")
     = Some {| Core.id := "m-1"; Core.role := Core.user;
               Core.content := "/help"; Core.timestamp := 5 |}
  /\ ConnectionHandler.handleIncomingMessage [Sample.broken_handler]
       "m-1" 5 "u1" (Json.dq "{'note':'hi'}") tt
     = {| ConnectionHandler.ws_calls :=
            [ConnectionHandler.ws_send
               (ConnectionHandler.error_frame "Invalid message format" 5)];
          ConnectionHandler.handler_calls := [];
          ConnectionHandler.state_after := tt |}.
Proof.
  split; [|split].
  - apply (C8_parse_or_reject [Sample.broken_handler] "m-1" 5 "u1"
             "analyze oatmeal" tt).
    left. vm_compute. reflexivity.
  - apply (proj1 (proj2 (C8_parse_or_reject [Sample.broken_handler] "m-1" 5 "u1"
                           (Json.dq "{'content':'/help','timestamp':3}") tt))
             (Json.JObject [("content", Json.JString "/help");
                            ("timestamp", Json.JNumber 3 0)])).
    + vm_compute. reflexivity.
    + vm_compute. reflexivity.
    + discriminate.
  - apply (proj2 (proj2 (C8_parse_or_reject [Sample.broken_handler] "m-1" 5 "u1"
                           (Json.dq "{'note':'hi'}") tt))
             (Json.JObject [("note", Json.JString "hi")])).
    + vm_compute. reflexivity.
    + discriminate.
    + intros text H. vm_compute in H. discriminate H.
Defined.

(** C8, as stated, fails: the JSON object {"note":"hi"} has no string
    content, so it is not valid structured input, yet it is not taken as
    raw text: it is rejected. *)
Lemma C8_json_without_content_rejected :
  AsStated.structured (Json.dq "{'note':'hi'}") = false
  /\ ConnectionHandler.parseMessage "m-1" 5 (Json.dq "{'note':'hi'}") = None
  /\ ~ AsStated.raw_text_fallback "m-1" 5 (Json.dq "{'note':'hi'}").
Proof.
  split; [vm_compute; reflexivity | split; [vm_compute; reflexivity|]].
  intros H. specialize (H ltac:(vm_compute; reflexivity)).
  vm_compute in H. discriminate H.
Qed.

(** * Further properties                                                   *)

(** ** Entities                                                            *)

Section bounded.
Context {A : Type}.

Lemma keep_last_length (n : nat) (l : list A) (x : A) :
  (0 < n)%nat -> (length (keep_last n l x) <= n)%nat.
Proof.
  intros Hn. unfold keep_last. rewrite length_drop, length_app. simpl. lia.
Qed.

Lemma fold_keep_last (n : nat) (xs : list A) :
  (0 < n)%nat ->
  forall l : list A,
    (length l <= n)%nat ->
    foldl (keep_last n) l xs = drop (length (l ++ xs) - n) (l ++ xs).
Proof.
  intros Hn. induction xs as [|x xs IH]; intros l Hl.
  - simpl. rewrite app_nil_r.
    replace (length l - n)%nat with 0%nat by lia. reflexivity.
  - simpl. rewrite IH by (apply keep_last_length; exact Hn).
    unfold keep_last.
    set (pushed := l ++ [x]).
    replace (l ++ x :: xs) with (pushed ++ xs)
      by (unfold pushed; rewrite <- app_assoc; reflexivity).
    set (k := (length pushed - n)%nat).
    assert (Hk : (k <= length pushed)%nat) by (unfold k; lia).
    rewrite <- (drop_app_le pushed xs k Hk).
    rewrite drop_drop. f_equal.
    rewrite length_drop, !length_app. unfold k. lia.
Qed.

Lemma slice_negative (n : nat) (l : list A) :
  (0 < n)%nat -> slice (- Z.of_nat n) l = drop (length l - n) l.
Proof.
  intros Hn. unfold slice. f_equal. generalize (length l) as len. intros len.
  destruct (- Z.of_nat n <? 0) eqn:E.
  - apply Z.ltb_lt in E. lia.
  - apply Z.ltb_ge in E. lia.
Qed.

End bounded.

Section profile.
Import Core UserProfile.

Lemma addMeal_history (now : Z) (meal : MealAnalysis) (p : UserProfile.t) :
  mealHistory (addMeal now meal p) = keep_last 30 (mealHistory p) meal.
Proof.
  unfold addMeal, keep_last. simpl.
  destruct (30 <? length (mealHistory p ++ [meal]))%nat eqn:E.
  - apply (slice_negative 30). lia.
  - apply Nat.ltb_ge in E.
    replace (length (mealHistory p ++ [meal]) - 30)%nat with 0%nat by lia.
    reflexivity.
Qed.

Lemma add_meals_history (meals : list (Z * MealAnalysis)) :
  forall p : UserProfile.t,
    mealHistory (add_meals meals p)
    = foldl (keep_last 30) (mealHistory p) meals.*2.
Proof.
  induction meals as [|[now meal] meals IH]; intros p; [reflexivity|].
  unfold add_meals in *. simpl. rewrite IH, addMeal_history. reflexivity.
Qed.

Lemma add_meals_fixed (meals : list (Z * MealAnalysis)) :
  forall p : UserProfile.t,
    userId (add_meals meals p) = userId p
    /\ goals (add_meals meals p) = goals p
    /\ preferences (add_meals meals p) = preferences p
    /\ createdAt (add_meals meals p) = createdAt p
    /\ updatedAt (add_meals meals p) = default (updatedAt p) (last meals.*1).
Proof.
  induction meals as [|[now meal] meals IH]; intros p; [simpl; auto|].
  unfold add_meals in *. simpl foldl.
  destruct (IH (addMeal now meal p)) as (Hu & Hg & Hp & Hc & Ht).
  rewrite Hu, Hg, Hp, Hc, Ht. simpl. repeat split.
  destruct meals as [|[now' meal'] meals]; [reflexivity|].
  simpl.
  match goal with
  | |- default _ ?o = default _ ?o => destruct o eqn:E
  end; [reflexivity|].
  apply last_None in E. discriminate E.
Qed.

End profile.

(** X1.  Whatever meals are logged in a new profile with [addMeal], the
    history holds exactly the last (up to) 30 of them in the order logged.
    Logging meals in any profile leaves its user id, goals, preferences
    and creation time as they were, and the update time is the time of the
    last call. *)
Theorem X1_meal_history_keeps_last_30 (now : Z) (userId : string)
    (goals : option Core.UserGoals) (meals : list (Z * Core.MealAnalysis)) :
  let p := add_meals meals (UserProfile.create now userId goals) in
  UserProfile.mealHistory p = drop (length meals - 30) meals.*2
  /\ (length (UserProfile.mealHistory p) <= 30)%nat
  /\ UserProfile.createdAt p = now
  /\ UserProfile.goals p = default UserProfile.no_goals goals
  /\ UserProfile.updatedAt p = default now (last meals.*1)
  /\ UserProfile.preferences p = ∅
  /\ UserProfile.userId p = userId
  /\ (forall p0 : UserProfile.t,
        UserProfile.userId (add_meals meals p0) = UserProfile.userId p0
        /\ UserProfile.goals (add_meals meals p0) = UserProfile.goals p0
        /\ UserProfile.preferences (add_meals meals p0)
           = UserProfile.preferences p0
        /\ UserProfile.createdAt (add_meals meals p0) = UserProfile.createdAt p0
        /\ UserProfile.updatedAt (add_meals meals p0)
           = default (UserProfile.updatedAt p0) (last meals.*1)).
Proof.
  simpl.
  assert (H : UserProfile.mealHistory
                (add_meals meals (UserProfile.create now userId goals))
              = drop (length meals - 30) meals.*2).
  { rewrite add_meals_history, fold_keep_last by (simpl; lia).
    simpl. rewrite length_fmap. reflexivity. }
  destruct (add_meals_fixed meals (UserProfile.create now userId goals))
    as (Hu & Hg & Hp & Hc & Ht).
  rewrite H, Hu, Hg, Hp, Hc, Ht.
  split; [reflexivity|]. split; [rewrite length_drop, length_fmap; lia|].
  repeat (split; [reflexivity|]).
  apply add_meals_fixed.
Qed.

(** X2.  [getRecentMessages(count)] and [getRecentMeals(count)] return the
    last [count] entries (all of them when there are fewer) for a positive
    count; for a count of 0 they return the whole history, not an empty
    list; for a negative count they drop that many entries from the
    front. *)
Theorem X2_recent_entries (count : Z) (c : NutritionContext.t) (p : UserProfile.t) :
  let history := NutritionContext.conversationHistory c in
  let meals := UserProfile.mealHistory p in
  (0 < count ->
     NutritionContext.getRecentMessages count c
     = drop (length history - Z.to_nat count) history
     /\ UserProfile.getRecentMeals count p
        = drop (length meals - Z.to_nat count) meals)
  /\ (count = 0 ->
        NutritionContext.getRecentMessages count c = history
        /\ UserProfile.getRecentMeals count p = meals)
  /\ (count < 0 ->
        NutritionContext.getRecentMessages count c
        = drop (Z.to_nat (- count)) history
        /\ UserProfile.getRecentMeals count p = drop (Z.to_nat (- count)) meals).
Proof.
  simpl. unfold NutritionContext.getRecentMessages, UserProfile.getRecentMeals.
  split; [|split].
  - intros Hc. replace (- count) with (- Z.of_nat (Z.to_nat count)) by lia.
    split; apply slice_negative; lia.
  - intros ->. unfold slice. simpl.
    rewrite !Z.min_l by lia. split; reflexivity.
  - intros Hc. unfold slice.
    replace (- count <? 0) with false by (symmetry; apply Z.ltb_ge; lia).
    split.
    + destruct (Z.min_spec (- count)
                  (Z.of_nat (length (NutritionContext.conversationHistory c))))
        as [[_ ->] | [Hle ->]]; [reflexivity|].
      rewrite Nat2Z.id, !drop_ge by lia. reflexivity.
    + destruct (Z.min_spec (- count)
                  (Z.of_nat (length (UserProfile.mealHistory p))))
        as [[_ ->] | [Hle ->]]; [reflexivity|].
      rewrite Nat2Z.id, !drop_ge by lia. reflexivity.
Qed.

(** The ten most recent of twelve, everything for a count of 0. *)
Lemma X2_recent_entries_witness :
  let c := append_all (replicate 12 (Sample.text_message "hi"))
                      (NutritionContext.create 0) in
  length (NutritionContext.getRecentMessages 10 c) = 10%nat
  /\ length (NutritionContext.getRecentMessages 0 c) = 12%nat.
Proof.
  intros c. subst c.
  pose proof (X2_recent_entries 10
                (append_all (replicate 12 (Sample.text_message "hi"))
                            (NutritionContext.create 0))
                (UserProfile.create 0 "u1" None)) as (H10 & _).
  pose proof (X2_recent_entries 0
                (append_all (replicate 12 (Sample.text_message "hi"))
                            (NutritionContext.create 0))
                (UserProfile.create 0 "u1" None)) as (_ & H0 & _).
  destruct (H10 ltac:(lia)) as [-> _]. destruct (H0 eq_refl) as [-> _].
  split; vm_compute; reflexivity.
Defined.

(** X3.  One [addMessage] on any context, even one reloaded with a history
    longer than the bound, leaves at most 20 messages, the new one last and
    the ones before it in their old order. *)
Theorem X3_addMessage_bounds_any_history (m : Core.ChatMessage)
    (c : NutritionContext.t) :
  let history := NutritionContext.conversationHistory
                   (NutritionContext.addMessage m c) in
  (length history <= 20)%nat
  /\ last history = Some m
  /\ history `suffix_of` NutritionContext.conversationHistory c ++ [m]
  /\ NutritionContext.sessionStartTime (NutritionContext.addMessage m c)
     = NutritionContext.sessionStartTime c.
Proof.
  simpl. rewrite addMessage_history.
  set (pushed := NutritionContext.conversationHistory c ++ [m]).
  assert (Hlen : length pushed
                 = S (length (NutritionContext.conversationHistory c)))
    by (unfold pushed; rewrite length_app; simpl; lia).
  split; [rewrite length_drop; lia | split; [|split]].
  - unfold pushed.
    rewrite drop_app_le by (rewrite length_app; simpl; lia).
    apply last_snoc.
  - apply suffix_drop.
  - unfold NutritionContext.addMessage.
    destruct (20 <? _)%nat; reflexivity.
Qed.

(** X4.  A message read back with [Message.fromJSON] from its [toJSON] form
    is the same message as long as its id is not empty; with an empty id
    the reloaded message gets a new random id, the other fields staying. *)
Theorem X4_message_roundtrip (uuid : string) (now : Z) (m : Message.t) :
  (Message.id m <> "" ->
     Message.fromJSON uuid now (Message.toJSON m) = m)
  /\ (Message.id m = "" ->
        Message.fromJSON uuid now (Message.toJSON m)
        = {| Message.id := uuid; Message.role := Message.role m;
             Message.content := Message.content m;
             Message.timestamp := Message.timestamp m |}).
Proof.
  destruct m as [i r c t]. unfold Message.fromJSON, Message.toJSON,
    Message.create. simpl.
  split.
  - intros Hne. destruct (String.eqb_spec i "") as [->|_]; [contradiction|].
    reflexivity.
  - intros ->. reflexivity.
Qed.

(** A message made by the constructor keeps its id over the round trip. *)
Lemma X4_message_roundtrip_witness :
  Message.fromJSON "other" 9
    (Message.toJSON (Message.create "m-1" 5 Core.user "hello" None))
  = Message.create "m-1" 5 Core.user "hello" None.
Proof.
  apply (proj1 (X4_message_roundtrip "other" 9
                  (Message.create "m-1" 5 Core.user "hello" None))).
  discriminate.
Defined.

(** X5.  [updateGoals] changes a goal exactly when the update has its
    key: the goal then reads what the key holds, so a key that holds
    [undefined] erases the goal, and a key left out keeps the goal.  Of two
    updates in a row the later one wins for every key it has, the earlier
    one counts for the keys only it has, and the other goals stay.  User
    id, meals, preferences and creation time are never touched, and the
    update time is the time of the call. *)
Theorem X5_updateGoals_merges (t1 t2 : Z) (g1 g2 : UserProfile.GoalsUpdate)
    (p : UserProfile.t) :
  let p1 := UserProfile.updateGoals t1 g1 p in
  let p2 := UserProfile.updateGoals t2 g2 p1 in
  (Core.dailyCalories (UserProfile.goals p1)
   = field_after (Core.dailyCalories (UserProfile.goals p))
                 (UserProfile.u_dailyCalories g1)
   /\ Core.dailyProtein (UserProfile.goals p1)
      = field_after (Core.dailyProtein (UserProfile.goals p))
                    (UserProfile.u_dailyProtein g1)
   /\ Core.dietaryRestrictions (UserProfile.goals p1)
      = field_after (Core.dietaryRestrictions (UserProfile.goals p))
                    (UserProfile.u_dietaryRestrictions g1)
   /\ Core.fitnessGoal (UserProfile.goals p1)
      = field_after (Core.fitnessGoal (UserProfile.goals p))
                    (UserProfile.u_fitnessGoal g1))
  /\ (Core.dailyCalories (UserProfile.goals p2)
      = field_after (field_after (Core.dailyCalories (UserProfile.goals p))
                                 (UserProfile.u_dailyCalories g1))
                    (UserProfile.u_dailyCalories g2)
      /\ Core.dailyProtein (UserProfile.goals p2)
         = field_after (field_after (Core.dailyProtein (UserProfile.goals p))
                                    (UserProfile.u_dailyProtein g1))
                       (UserProfile.u_dailyProtein g2)
      /\ Core.dietaryRestrictions (UserProfile.goals p2)
         = field_after (field_after (Core.dietaryRestrictions (UserProfile.goals p))
                                    (UserProfile.u_dietaryRestrictions g1))
                       (UserProfile.u_dietaryRestrictions g2)
      /\ Core.fitnessGoal (UserProfile.goals p2)
         = field_after (field_after (Core.fitnessGoal (UserProfile.goals p))
                                    (UserProfile.u_fitnessGoal g1))
                       (UserProfile.u_fitnessGoal g2))
  /\ (forall calories : option Q,
        UserProfile.u_dailyCalories g2 = Some calories ->
        Core.dailyCalories (UserProfile.goals p2) = calories)
  /\ (UserProfile.u_dailyCalories g2 = None ->
        Core.dailyCalories (UserProfile.goals p2)
        = Core.dailyCalories (UserProfile.goals p1))
  /\ UserProfile.userId p1 = UserProfile.userId p
  /\ UserProfile.mealHistory p1 = UserProfile.mealHistory p
  /\ UserProfile.preferences p1 = UserProfile.preferences p
  /\ UserProfile.createdAt p1 = UserProfile.createdAt p
  /\ UserProfile.updatedAt p1 = t1
  /\ UserProfile.updatedAt p2 = t2.
Proof.
  destruct p as [u [c pr d f] h prefs ca ua].
  destruct g1 as [c1 p1 d1 f1], g2 as [c2 p2 d2 f2].
  unfold UserProfile.updateGoals, UserProfile.spread, field_after, default.
  simpl.
  repeat split; intros; subst; simpl;
    repeat (match goal with
            | |- context [match ?x with _ => _ end] => destruct x
            end);
    reflexivity.
Qed.

(** ** The scheduled-task store, further                                   *)

Section strings.
Import Text.

Lemma startsWith_split (p s : string) :
  startsWith p s = true -> s = p +:+ drop (String.length p) s.
Proof.
  unfold startsWith. revert s.
  induction p as [|a p IH]; intros s H.
  - reflexivity.
  - destruct s as [|b s]; simpl in H; [discriminate H|].
    destruct (ascii_dec a b) as [<- | _]; [|discriminate H].
    simpl. unfold String.app. simpl. f_equal. apply IH, H.
Qed.

Lemma remove_first_prefix (p s : string) :
  startsWith p s = true -> remove_first p s = drop (String.length p) s.
Proof. intros H. destruct s; cbn -[startsWith]; rewrite H; reflexivity. Qed.

Lemma prefixed_keys_inj (p k1 k2 : string) :
  startsWith p k1 = true -> startsWith p k2 = true ->
  remove_first p k1 = remove_first p k2 -> k1 = k2.
Proof.
  intros H1 H2. rewrite !remove_first_prefix by assumption. intros E.
  rewrite (startsWith_split p k1 H1), (startsWith_split p k2 H2), E.
  reflexivity.
Qed.

Lemma first_char_differs (a b : ascii) (p q x : string) (k : string) :
  a <> b -> startsWith (String a p) k = true -> String b q +:+ x <> k.
Proof.
  intros Hab Hk E. apply startsWith_split in Hk. rewrite Hk in E.
  unfold String.app in E. simpl in E. injection E as E _.
  apply Hab. symmetry. exact E.
Qed.

End strings.

Section sweep.
Import Workflow.

Lemma execute_unknown (now : Z) (name : string) (context : Core.WorkflowContext)
    (w : Workflow.t) :
  known_workflow name = false ->
  executeWorkflow now name context w = (Throw ("Unknown workflow: " +:+ name), w).
Proof.
  unfold known_workflow, executeWorkflow. intros H.
  apply orb_false_iff in H as [H H3]. apply orb_false_iff in H as [H1 H2].
  rewrite H1, H2, H3. reflexivity.
Qed.

Lemma execute_known (now : Z) (name : string) (context : Core.WorkflowContext)
    (w : Workflow.t) :
  known_workflow name = true ->
  exists st',
    executeWorkflow now name context w
    = (Ok (), {| storage := st'; scheduledReminders := scheduledReminders w |})
    /\ alarm st' = alarm (storage w)
    /\ (forall k, (forall x, "reminder:" +:+ x <> k) ->
                  records st' !! k = records (storage w) !! k).
Proof.
  unfold known_workflow, executeWorkflow. intros H.
  destruct (String.eqb name "meal-reminder").
  - eexists. split; [reflexivity|]. split; [reflexivity|].
    intros k Hk. simpl. apply lookup_insert_ne. apply Hk.
  - destruct (String.eqb name "daily-summary");
      [| destruct (String.eqb name "goal-check-in"); [|discriminate H]];
      (exists (storage w); split; [destruct w; reflexivity | auto]).
Qed.

Lemma workflow_key_not_reminder (k : string) :
  Text.startsWith "workflow:" k = true -> forall x, "reminder:" +:+ x <> k.
Proof.
  intros Hk x. apply (first_char_differs "w" "r" "orkflow:" "eminder:" x k);
    [discriminate | exact Hk].
Qed.

(** What one round of the sweep does to the other keys and ids. *)
Lemma sweep_entry_frame (now : Z) (k : string) (v : Stored) (w : Workflow.t) :
  let r := sweep_entry now (k, v) w in
  r.1 = Ok ()
  /\ alarm (storage r.2) = alarm (storage w)
  /\ (forall k', k' <> k -> (forall x, "reminder:" +:+ x <> k') ->
        records (storage r.2) !! k' = records (storage w) !! k')
  /\ (forall id', id' <> Text.remove_first "workflow:" k ->
        scheduledReminders r.2 !! id' = scheduledReminders w !! id').
Proof.
  destruct v as [name context due | |]; simpl; auto.
  destruct (due <=? now); [|simpl; auto].
  unfold try_catch, mbind, M_bind.
  destruct (known_workflow name) eqn:Hknown.
  - destruct (execute_known now name context w Hknown) as (st' & -> & Ha & Hr).
    unfold update_status, mbind, M_bind, reminders_get. simpl.
    destruct (scheduledReminders w !! Text.remove_first "workflow:" k) eqn:Hs;
      simpl; (split; [reflexivity|]); (split; [exact Ha|]); split.
    + intros k' Hk' Hx. rewrite lookup_delete_ne by congruence. apply Hr, Hx.
    + intros id' Hid. apply lookup_insert_ne. congruence.
    + intros k' Hk' Hx. rewrite lookup_delete_ne by congruence. apply Hr, Hx.
    + reflexivity.
  - rewrite (execute_unknown now name context w Hknown).
    unfold update_status, mbind, M_bind, reminders_get. simpl.
    destruct (scheduledReminders w !! Text.remove_first "workflow:" k) eqn:Hs;
      simpl; repeat split; auto.
    intros id' Hid. apply lookup_insert_ne. congruence.
Qed.

(** What it does to the task of the entry itself. *)
Lemma sweep_entry_own (now : Z) (k name : string) (context : Core.WorkflowContext)
    (due : Z) (w : Workflow.t) :
  Text.startsWith "workflow:" k = true ->
  let entry := WorkflowEntry name context due in
  let id := Text.remove_first "workflow:" k in
  let r := sweep_entry now (k, entry) w in
  (now < due -> r.2 = w)
  /\ (due <= now -> known_workflow name = true ->
        records (storage r.2) !! k = None
        /\ scheduledReminders r.2 !! id
           = mark_completed now <$> scheduledReminders w !! id)
  /\ (due <= now -> known_workflow name = false ->
        records (storage r.2) !! k = records (storage w) !! k
        /\ scheduledReminders r.2 !! id
           = mark_failed ("Unknown workflow: " +:+ name)
               <$> scheduledReminders w !! id).
Proof.
  intros Hk. simpl. split; [|split].
  - intros Hd. replace (due <=? now) with false
      by (symmetry; apply Z.leb_gt; lia). reflexivity.
  - intros Hd Hknown. replace (due <=? now) with true
      by (symmetry; apply Z.leb_le; lia).
    unfold try_catch, mbind, M_bind.
    destruct (execute_known now name context w Hknown) as (st' & -> & Ha & Hr).
    unfold update_status, mbind, M_bind, reminders_get. simpl.
    destruct (scheduledReminders w !! Text.remove_first "workflow:" k) eqn:Hs;
      simpl; (split; [apply lookup_delete_eq|]).
    + apply lookup_insert_eq.
    + exact Hs.
  - intros Hd Hknown. replace (due <=? now) with true
      by (symmetry; apply Z.leb_le; lia).
    unfold try_catch, mbind, M_bind.
    rewrite (execute_unknown now name context w Hknown).
    unfold update_status, mbind, M_bind, reminders_get. simpl.
    destruct (scheduledReminders w !! Text.remove_first "workflow:" k) eqn:Hs;
      simpl; (split; [reflexivity|]).
    + apply lookup_insert_eq.
    + exact Hs.
Qed.

Lemma storage_list_elem (prefix : string) (st : Storage) (k : string) (v : Stored) :
  (k, v) ∈ storage_list prefix st
  <-> records st !! k = Some v /\ Text.startsWith prefix k = true.
Proof.
  unfold storage_list. rewrite merge_sort_Permutation.
  rewrite list_elem_of_filter, elem_of_map_to_list. simpl.
  rewrite Is_true_true. tauto.
Qed.

Lemma storage_list_NoDup (prefix : string) (st : Storage) :
  NoDup (storage_list prefix st).*1.
Proof.
  unfold storage_list. rewrite merge_sort_Permutation.
  eapply sublist_NoDup; [apply (NoDup_fst_map_to_list (records st))|].
  apply fmap_sublist, sublist_filter.
Qed.

Lemma for_each_app {A : Type} (f : A -> M unit) (l1 l2 : list A) (w : Workflow.t) :
  for_each f (l1 ++ l2) w = (for_each f l1 ;; for_each f l2) w.
Proof.
  revert w. induction l1 as [|a l1 IH]; intros w; simpl.
  - reflexivity.
  - unfold mbind, M_bind in *. destruct (f a w) as [[[]|e] w1]; [|reflexivity].
    apply IH.
Qed.

Lemma for_each_frame (now : Z) (k0 id0 : string) (l : list (string * Stored)) :
  (forall x, "reminder:" +:+ x <> k0) ->
  (forall e, e ∈ l -> e.1 <> k0 /\ Text.remove_first "workflow:" e.1 <> id0) ->
  forall w : Workflow.t,
    let r := for_each (sweep_entry now) l w in
    r.1 = Ok ()
    /\ records (storage r.2) !! k0 = records (storage w) !! k0
    /\ scheduledReminders r.2 !! id0 = scheduledReminders w !! id0.
Proof.
  intros Hk0. induction l as [|[k v] l IH]; intros Hl w; [simpl; auto|].
  destruct (Hl (k, v) ltac:(left)) as [Hk Hid]. simpl in Hk, Hid.
  destruct (sweep_entry_frame now k v w) as (Hok & _ & Hr & Hs).
  cbv zeta.
  change (for_each (sweep_entry now) ((k, v) :: l) w)
    with ((sweep_entry now (k, v) ;; for_each (sweep_entry now) l) w).
  unfold mbind, M_bind.
  destruct (sweep_entry now (k, v) w) as [[[]|e] w1]; simpl in Hok, Hr, Hs;
    [|discriminate Hok].
  destruct (IH (fun e He => Hl e ltac:(right; exact He)) w1) as (Hok' & Hr' & Hs').
  split; [exact Hok'|]. split.
  - rewrite Hr'. apply Hr; [congruence | exact Hk0].
  - rewrite Hs'. apply Hs. congruence.
Qed.

(** The sweep as a whole, seen from one stored task: the rounds before it,
    its own round, the rounds after it. *)
Lemma for_each_around (now : Z) (w : Workflow.t) (key : string) (entry : Stored) :
  records (storage w) !! key = Some entry ->
  Text.startsWith "workflow:" key = true ->
  let id := Text.remove_first "workflow:" key in
  let r := for_each (sweep_entry now) (storage_list "workflow:" (storage w)) w in
  exists w1 : Workflow.t,
    r.1 = Ok ()
    /\ records (storage w1) !! key = records (storage w) !! key
    /\ scheduledReminders w1 !! id = scheduledReminders w !! id
    /\ records (storage r.2) !! key
       = records (storage (sweep_entry now (key, entry) w1).2) !! key
    /\ scheduledReminders r.2 !! id
       = scheduledReminders (sweep_entry now (key, entry) w1).2 !! id.
Proof.
  intros Hstored Hkey id r. subst r.
  pose proof (storage_list_NoDup "workflow:" (storage w)) as Hnodup.
  assert (Hin : (key, entry) ∈ storage_list "workflow:" (storage w))
    by (apply storage_list_elem; auto).
  assert (Hall : forall e, e ∈ storage_list "workflow:" (storage w) ->
                           Text.startsWith "workflow:" e.1 = true).
  { intros [k v] He. apply storage_list_elem in He. apply He. }
  destruct (list_elem_of_split _ _ Hin) as (l1 & l2 & Hl).
  rewrite Hl in Hnodup, Hall |- *.
  rewrite fmap_app, fmap_cons in Hnodup. simpl in Hnodup.
  apply NoDup_app in Hnodup as (_ & Hnot1 & Hnodup).
  apply NoDup_cons in Hnodup as (Hnot2 & _).
  assert (Hother : forall l : list (string * Stored),
                     (forall e, e ∈ l -> e.1 <> key) ->
                     (forall e, e ∈ l -> Text.startsWith "workflow:" e.1 = true) ->
                     forall e, e ∈ l ->
                       e.1 <> key /\ Text.remove_first "workflow:" e.1 <> id).
  { intros l Hne Hpre e He. split; [apply Hne, He|].
    intros E. apply (Hne e He).
    apply (prefixed_keys_inj "workflow:"); auto. }
  assert (H1 : forall e, e ∈ l1 -> e.1 <> key).
  { intros e He E. apply (Hnot1 e.1).
    - apply list_elem_of_fmap. exists e. auto.
    - rewrite E. left. }
  assert (H2 : forall e, e ∈ l2 -> e.1 <> key).
  { intros e He E. apply Hnot2. rewrite <- E.
    apply list_elem_of_fmap. exists e. auto. }
  assert (Hall1 : forall e, e ∈ l1 -> Text.startsWith "workflow:" e.1 = true).
  { intros e He. apply Hall, elem_of_app. left. exact He. }
  assert (Hall2 : forall e, e ∈ l2 -> Text.startsWith "workflow:" e.1 = true).
  { intros e He. apply Hall, elem_of_app. right. right. exact He. }
  pose proof (workflow_key_not_reminder key Hkey) as Hrem.
  rewrite for_each_app. unfold mbind, M_bind.
  destruct (for_each_frame now key id l1 Hrem
              (Hother l1 H1 Hall1) w)
    as (Hok1 & Hr1 & Hs1).
  destruct (for_each (sweep_entry now) l1 w) as [[[]|e1] w1];
    simpl in Hok1, Hr1, Hs1; [|discriminate Hok1].
  exists w1.
  change (for_each (sweep_entry now) ((key, entry) :: l2) w1)
    with ((sweep_entry now (key, entry) ;; for_each (sweep_entry now) l2) w1).
  unfold mbind, M_bind.
  destruct (sweep_entry_frame now key entry w1) as (Hok2 & _).
  destruct (sweep_entry now (key, entry) w1) as [[[]|e2] w2];
    simpl in Hok2; [|discriminate Hok2].
  destruct (for_each_frame now key id l2 Hrem
              (Hother l2 H2 Hall2) w2)
    as (Hok3 & Hr3 & Hs3).
  simpl. auto.
Qed.
End sweep.

(** X8.  What a sweep at time [now] does to a task stored under a
    workflow: key, whatever else the store holds: a task due later keeps
    its record and its status; a due task with a known workflow name loses
    its record and, if it has a status, is marked completed at [now]; a due
    task with an unknown name keeps its record (every later sweep runs it
    again) and is marked failed with the error "Unknown workflow: <name>".
    The sweep itself never throws, so one failing task does not stop the
    others. *)
Theorem X8_sweep_outcome (now : Z) (w : Workflow.t) (key name : string)
    (context : Core.WorkflowContext) (due : Z)
    (Hstored : Workflow.records (Workflow.storage w) !! key
               = Some (Workflow.WorkflowEntry name context due))
    (Hkey : Text.startsWith "workflow:" key = true) :
  let w' := (Workflow.handleAlarm now w).2 in
  let id := Text.drop 9 key in
  (Workflow.handleAlarm now w).1 = Ok ()
  /\ (now < due ->
        Workflow.records (Workflow.storage w') !! key
        = Some (Workflow.WorkflowEntry name context due)
        /\ Workflow.scheduledReminders w' !! id
           = Workflow.scheduledReminders w !! id)
  /\ (due <= now -> known_workflow name = true ->
        Workflow.records (Workflow.storage w') !! key = None
        /\ Workflow.scheduledReminders w' !! id
           = mark_completed now <$> Workflow.scheduledReminders w !! id)
  /\ (due <= now -> known_workflow name = false ->
        Workflow.records (Workflow.storage w') !! key
        = Some (Workflow.WorkflowEntry name context due)
        /\ Workflow.scheduledReminders w' !! id
           = mark_failed ("Unknown workflow: " +:+ name)
               <$> Workflow.scheduledReminders w !! id).
Proof.
  intros w' id. subst w'.
  assert (Hid : id = Text.remove_first "workflow:" key)
    by (symmetry; apply (remove_first_prefix "workflow:" key Hkey)).
  destruct (for_each_around now w key _ Hstored Hkey)
    as (w1 & Hok & Hr1 & Hs1 & Hr & Hs).
  rewrite <- Hid in Hs1, Hs.
  assert (Hsaved : "scheduled_reminders" <> key).
  { apply (first_char_differs "w" "s" "orkflow:" "cheduled_reminders" "" key);
      [discriminate | exact Hkey]. }
  unfold Workflow.handleAlarm, Workflow.try_catch, mbind, Workflow.M_bind.
  destruct (Workflow.for_each (Workflow.sweep_entry now)
              (Workflow.storage_list "workflow:" (Workflow.storage w)) w)
    as [[[]|e] w3]; cbn [fst snd] in Hok, Hr, Hs; [|discriminate Hok].
  simpl. rewrite lookup_insert_ne by exact Hsaved.
  rewrite Hr, Hs.
  destruct (sweep_entry_own now key name context due w1 Hkey) as (Hlater & Hrun & Hfail).
  rewrite <- Hid in Hrun, Hfail.
  split; [reflexivity|]. split; [|split].
  - intros Hd. rewrite (Hlater Hd), Hr1, Hs1. auto.
  - intros Hd Hk. destruct (Hrun Hd Hk) as [-> ->]. rewrite Hs1. auto.
  - intros Hd Hk. destruct (Hfail Hd Hk) as [-> ->]. rewrite Hr1, Hs1. auto.
Qed.

Section more.
Import Workflow.

Lemma for_each_sweep_ok (now : Z) (l : list (string * Stored)) :
  forall w, (for_each (sweep_entry now) l w).1 = Ok ().
Proof.
  induction l as [|[k v] l IH]; intros w; [reflexivity|].
  change (for_each (sweep_entry now) ((k, v) :: l) w)
    with ((sweep_entry now (k, v) ;; for_each (sweep_entry now) l) w).
  unfold mbind, M_bind.
  destruct (sweep_entry_frame now k v w) as (Hok & _).
  destruct (sweep_entry now (k, v) w) as [[[]|e] w1]; simpl in Hok;
    [apply IH | discriminate Hok].
Qed.

Lemma saved_key_not_reminder : forall x, "reminder:" +:+ x <> "scheduled_reminders".
Proof. intros x E. unfold String.app in E. simpl in E. discriminate E. Qed.

End more.

(** X9.  The status table saved under "scheduled_reminders" is the table
    held in memory: that holds for a new object and after every schedule,
    sweep and start, and cancel and retry keep it, also when they throw. *)
Theorem X9_status_table_saved :
  table_saved Sample.fresh_store
  /\ (forall uuid name context due w,
        table_saved (Workflow.scheduleWorkflow uuid name context due w).2)
  /\ (forall now w, table_saved (Workflow.handleAlarm now w).2)
  /\ (forall uuid now name context w,
        table_saved (Workflow.startWorkflow uuid now name context w).2)
  /\ (forall now id w, table_saved w ->
        table_saved (Workflow.cancelWorkflow now id w).2)
  /\ (forall now id w, table_saved w ->
        table_saved (Workflow.retryWorkflow now id w).2).
Proof.
  split; [right; split; reflexivity|].
  split; [intros; left; apply lookup_insert_eq|].
  split.
  { intros now w. left.
    unfold Workflow.handleAlarm, Workflow.try_catch, mbind, Workflow.M_bind.
    pose proof (for_each_sweep_ok now
                  (Workflow.storage_list "workflow:" (Workflow.storage w)) w) as Hok.
    destruct (Workflow.for_each _ _ w) as [[[]|e] w1]; simpl in Hok;
      [|discriminate Hok].
    apply lookup_insert_eq. }
  split.
  { intros uuid now name context w. left.
    unfold Workflow.startWorkflow, Workflow.try_catch, mbind, Workflow.M_bind.
    simpl.
    destruct (known_workflow name) eqn:Hknown.
    - destruct (execute_known now name context
                  {| Workflow.storage :=
                       Workflow.storage_put "scheduled_reminders"
                         (Workflow.StatusTable
                            (<[Workflow.choose_id uuid context :=
                                 {| Workflow.workflowId := Workflow.choose_id uuid context;
                                    Workflow.workflowName := name;
                                    Workflow.state := Workflow.running;
                                    Workflow.startedAt := Some now;
                                    Workflow.completedAt := None;
                                    Workflow.error := None |}]>
                               (Workflow.scheduledReminders w)))
                         (Workflow.storage w);
                     Workflow.scheduledReminders :=
                       <[Workflow.choose_id uuid context :=
                           {| Workflow.workflowId := Workflow.choose_id uuid context;
                              Workflow.workflowName := name;
                              Workflow.state := Workflow.running;
                              Workflow.startedAt := Some now;
                              Workflow.completedAt := None;
                              Workflow.error := None |}]>
                         (Workflow.scheduledReminders w) |} Hknown)
        as (st' & -> & _). simpl. apply lookup_insert_eq.
    - rewrite (execute_unknown now name context _ Hknown). simpl.
      apply lookup_insert_eq. }
  split.
  { intros now id w Hw.
    unfold Workflow.cancelWorkflow, mbind, Workflow.M_bind, Workflow.reminders_get.
    destruct (Workflow.scheduledReminders w !! id) as [status|]; [|exact Hw].
    destruct (Workflow.state status); simpl; try exact Hw;
      left; apply lookup_insert_eq. }
  { intros now id w Hw.
    unfold Workflow.retryWorkflow, mbind, Workflow.M_bind, Workflow.reminders_get,
      Workflow.storage_get.
    destruct (Workflow.scheduledReminders w !! id) as [status|]; [|exact Hw].
    destruct (Workflow.state status); simpl; try exact Hw.
    destruct (Workflow.records (Workflow.storage w) !! ("workflow:" +:+ id))
      as [[name context due | |]|]; simpl; try exact Hw.
    unfold Workflow.try_catch, mbind, Workflow.M_bind.
    destruct (known_workflow name) eqn:Hknown.
    - match goal with
      | |- context [Workflow.executeWorkflow now name context ?w0] =>
          destruct (execute_known now name context w0 Hknown) as (st' & -> & _)
      end.
      simpl. left. apply lookup_insert_eq.
    - match goal with
      | |- context [Workflow.executeWorkflow now name context ?w0] =>
          rewrite (execute_unknown now name context w0 Hknown)
      end.
      simpl. left. apply lookup_insert_eq. }
Qed.

Section more2.
Import Workflow.


End more2.


(** X7.  [startWorkflow] with a known workflow name answers with the id
    and leaves the task completed, started and completed at the time of the
    call.  With an unknown name it throws "Failed to start workflow: Unknown
    workflow: <name>" and the task stays in the table as running: it is
    never marked failed, so a retry of it is refused. *)
Theorem X7_startWorkflow_outcomes (uuid : string) (now : Z) (name : string)
    (context : Core.WorkflowContext) (w : Workflow.t) :
  let id := Workflow.choose_id uuid context in
  let r := Workflow.startWorkflow uuid now name context w in
  let started := {| Workflow.workflowId := id; Workflow.workflowName := name;
                    Workflow.state := Workflow.running;
                    Workflow.startedAt := Some now;
                    Workflow.completedAt := None; Workflow.error := None |} in
  (known_workflow name = true ->
     r.1 = Ok id
     /\ Workflow.scheduledReminders r.2 !! id = Some (mark_completed now started))
  /\ (known_workflow name = false ->
        r.1 = Throw ("Failed to start workflow: Unknown workflow: " +:+ name)
        /\ Workflow.scheduledReminders r.2 !! id = Some started
        /\ forall later : Z,
             (Workflow.retryWorkflow later id r.2).1
             = Throw "Can only retry failed workflows. Current state: running").
Proof.
  intros id r started. subst r.
  unfold Workflow.startWorkflow, Workflow.try_catch, mbind, Workflow.M_bind.
  simpl. fold id. fold started.
  split; intros Hknown.
  - match goal with
    | |- context [Workflow.executeWorkflow now name context ?w0] =>
        destruct (execute_known now name context w0 Hknown) as (st' & -> & _)
    end.
    simpl. split; [reflexivity|]. apply lookup_insert_eq.
  - match goal with
    | |- context [Workflow.executeWorkflow now name context ?w0] =>
        rewrite (execute_unknown now name context w0 Hknown)
    end.
    simpl. split; [reflexivity|]. split; [apply lookup_insert_eq|].
    intros later.
    unfold Workflow.retryWorkflow, mbind, Workflow.M_bind, Workflow.reminders_get.
    simpl. rewrite lookup_insert_eq. reflexivity.
Qed.

(** X6.  [retryWorkflow] throws "Workflow <id> not found" for an unknown
    id, "Can only retry failed workflows. Current state: <state>" for a task
    that is not failed, and "Workflow data not found for <id>" when the
    record of a failed task is gone; in each case nothing changes.  For a
    failed task with its record it runs the body again and leaves the task
    completed, the old error cleared, or failed again with the new error. *)
Theorem X6_retry_only_failed (now : Z) (id : string) (w : Workflow.t) :
  let r := Workflow.retryWorkflow now id w in
  (Workflow.scheduledReminders w !! id = None ->
     r = (Throw ("Workflow " +:+ id +:+ " not found"), w))
  /\ (forall status,
        Workflow.scheduledReminders w !! id = Some status ->
        Workflow.state status <> Workflow.failed ->
        r = (Throw ("Can only retry failed workflows. Current state: "
                    +:+ Workflow.state_name (Workflow.state status)), w))
  /\ (forall status,
        Workflow.scheduledReminders w !! id = Some status ->
        Workflow.state status = Workflow.failed ->
        Workflow.records (Workflow.storage w) !! ("workflow:" +:+ id) = None ->
        r = (Throw ("Workflow data not found for " +:+ id), w))
  /\ (forall status name context due,
        Workflow.scheduledReminders w !! id = Some status ->
        Workflow.state status = Workflow.failed ->
        Workflow.records (Workflow.storage w) !! ("workflow:" +:+ id)
        = Some (Workflow.WorkflowEntry name context due) ->
        r.1 = Ok ()
        /\ Workflow.scheduledReminders r.2 !! id
           = Some (if known_workflow name
                   then mark_completed now
                          (Workflow.with_error None
                             (Workflow.with_state Workflow.running status))
                   else mark_failed ("Unknown workflow: " +:+ name)
                          (Workflow.with_error None
                             (Workflow.with_state Workflow.running status)))).
Proof.
  intros r. subst r.
  unfold Workflow.retryWorkflow, mbind, Workflow.M_bind, Workflow.reminders_get,
    Workflow.storage_get.
  split; [intros ->; reflexivity|]. split; [|split].
  - intros status -> Hst. destruct (Workflow.state status); try reflexivity.
    contradiction.
  - intros status -> -> Hnone. simpl. rewrite Hnone. reflexivity.
  - intros status name context due -> -> Hsome. simpl. rewrite Hsome. simpl.
    unfold Workflow.try_catch, mbind, Workflow.M_bind.
    destruct (known_workflow name) eqn:Hknown.
    + match goal with
      | |- context [Workflow.executeWorkflow now name context ?w0] =>
          destruct (execute_known now name context w0 Hknown) as (st' & -> & _)
      end.
      simpl. split; [reflexivity|]. apply lookup_insert_eq.
    + match goal with
      | |- context [Workflow.executeWorkflow now name context ?w0] =>
          rewrite (execute_unknown now name context w0 Hknown)
      end.
      simpl. split; [reflexivity|]. apply lookup_insert_eq.
Qed.

(** A meal reminder scheduled for 100 and swept at 200. *)
Lemma X8_sweep_outcome_witness :
  let w := Workflow.perform Sample.schedule_a Sample.fresh_store in
  Workflow.records (Workflow.storage (Workflow.handleAlarm 200 w).2) !! "workflow:a"
  = None
  /\ Workflow.state <$> Workflow.scheduledReminders (Workflow.handleAlarm 200 w).2 !! "a"
     = Some Workflow.completed.
Proof.
  intros w.
  assert (H1 : Workflow.records (Workflow.storage w) !! "workflow:a"
               = Some (Workflow.WorkflowEntry "meal-reminder"
                         (Sample.context "u1" "a") 100))
    by (vm_compute; reflexivity).
  destruct (X8_sweep_outcome 200 w "workflow:a" "meal-reminder"
              (Sample.context "u1" "a") 100 H1 eq_refl)
    as (_ & _ & Hrun & _).
  destruct (Hrun ltac:(lia) eq_refl) as [Hr Hs].
  split; [exact Hr|].
  change "a" with (Text.drop 9 "workflow:a"). rewrite Hs.
  vm_compute. reflexivity.
Defined.

(** ** Dispatch, further                                                   *)

Section chain.
Import Core Text ConnectionHandler.
Context {S : Type}.

Lemma find_handler_all_decline (message : ChatMessage) (userId : string)
    (handlers : list (IMessageHandler S)) :
  Forall (fun h => forall s, (canHandle h message s).1 = Ok false) handlers ->
  forall (position : nat) (s : S),
    (find_handler handlers position message userId s).1
    = (no_handler, called_canHandle <$> seq position (length handlers)).
Proof.
  induction 1 as [|h handlers Hh _ IH]; intros position s; [reflexivity|].
  simpl. specialize (Hh s).
  destruct (canHandle h message s) as [[[]|e] s1]; simpl in Hh;
    try discriminate Hh.
  specialize (IH (Datatypes.S position) s1).
  destruct (find_handler handlers (Datatypes.S position) message userId s1)
    as [[found calls] s2].
  simpl in IH. injection IH as -> ->. reflexivity.
Qed.

Lemma not_command_accepted (message : ChatMessage) :
  CommandHandler.looks_like_command message = false ->
  ChatMessageHandler.accepts message = true.
Proof.
  unfold CommandHandler.looks_like_command, ChatMessageHandler.accepts.
  destruct (startsWith "/" _); [discriminate|].
  intros _. destruct (existsb _ _); reflexivity.
Qed.

End chain.

(** X11.  Whatever the handlers and whatever the frame, one inbound frame
    leads to exactly one call on the socket: a send of either a [message]
    frame or an [error] frame.  The socket is never closed and nothing else
    is sent. *)
Theorem X11_one_reply_per_frame {S : Type} (handlers : list (IMessageHandler S))
    (uuid : string) (now : Z) (userId data : string) (s : S) :
  exists frame : ConnectionHandler.Frame,
    ConnectionHandler.ws_calls
      (ConnectionHandler.handleIncomingMessage handlers uuid now userId data s)
    = [ConnectionHandler.ws_send frame]
    /\ match frame with
       | ConnectionHandler.message_frame _ _ _ _ => True
       | ConnectionHandler.error_frame _ t => t = now
       | _ => False
       end.
Proof.
  unfold ConnectionHandler.handleIncomingMessage.
  destruct (ConnectionHandler.parseMessage uuid now data) as [message|].
  - destruct (ConnectionHandler.find_handler handlers 0 message userId s)
      as [[[response| |e] calls] s']; simpl; eexists; split;
      reflexivity || exact I.
  - simpl. eexists. split; reflexivity.
Qed.

(** X12.  When every registered handler declines a message (or none is
    registered), each [canHandle] is asked once, in registration order, no
    [handle] runs, and the sender gets the [error] frame "No handler
    available for this message". *)
Theorem X12_no_handler_available {S : Type} (handlers : list (IMessageHandler S))
    (uuid : string) (now : Z) (userId data : string) (s : S)
    (message : Core.ChatMessage)
    (Hparse : ConnectionHandler.parseMessage uuid now data = Some message)
    (Hdecline : Forall (fun h => forall s, (canHandle h message s).1 = Ok false)
                       handlers) :
  let turn :=
    ConnectionHandler.handleIncomingMessage handlers uuid now userId data s in
  ConnectionHandler.ws_calls turn
  = [ConnectionHandler.ws_send
       (ConnectionHandler.error_frame "No handler available for this message" now)]
  /\ ConnectionHandler.handler_calls turn
     = ConnectionHandler.called_canHandle <$> seq 0 (length handlers).
Proof.
  intros turn. subst turn. unfold ConnectionHandler.handleIncomingMessage.
  rewrite Hparse.
  pose proof (find_handler_all_decline message userId handlers Hdecline 0%nat s) as H.
  destruct (ConnectionHandler.find_handler handlers 0 message userId s)
    as [[found calls] s'].
  simpl in H. injection H as -> ->. split; reflexivity.
Qed.

(** The conversational handler alone declines a slash command. *)
Lemma X12_no_handler_available_witness :
  ConnectionHandler.ws_calls
    (ConnectionHandler.handleIncomingMessage
       [ChatMessageHandler.make Sample.echo_chat] "m-1" 5 "u1" "/help" tt)
  = [ConnectionHandler.ws_send
       (ConnectionHandler.error_frame "No handler available for this message" 5)].
Proof.
  apply (X12_no_handler_available [ChatMessageHandler.make Sample.echo_chat]
           "m-1" 5 "u1" "/help" tt
           {| Core.id := "m-1"; Core.role := Core.user;
              Core.content := "/help"; Core.timestamp := 5 |}).
  - vm_compute. reflexivity.
  - constructor; [|constructor]. intros s. vm_compute. reflexivity.
Defined.

(** X13.  With the handlers as the agent registers them no message is left
    without a handler: what the command handler does not recognise is
    accepted by the conversational handler, whose keyword list changes
    nothing (it accepts everything that does not start with a slash).  For
    such a message the loop asks the command handler, then asks and runs
    the conversational handler, and the outcome is that handler's. *)
Theorem X13_agent_chain_total {S : Type}
    (executeCommand : CommandHandler.Command -> string -> S -> Res string * S)
    (handle_chat : Core.ChatMessage -> string -> S -> Res Core.ChatMessage * S)
    (uuid : string) (now : Z)
    (message : Core.ChatMessage) (userId : string) (s : S) :
  let chain :=
    NutritionAgent.setupMessageHandlers executeCommand handle_chat uuid now in
  (ConnectionHandler.find_handler chain 0 message userId s).1.1
  <> ConnectionHandler.no_handler
  /\ ChatMessageHandler.accepts message
     = negb (Text.startsWith "/" (Text.toLowerCase (Text.trim (Core.content message))))
  /\ (CommandHandler.looks_like_command message = false ->
        ConnectionHandler.find_handler chain 0 message userId s
        = (match (handle_chat message userId s).1 with
           | Ok response => ConnectionHandler.responded response
           | Throw e => ConnectionHandler.thrown e
           end,
           [ConnectionHandler.called_canHandle 0;
            ConnectionHandler.called_canHandle 1;
            ConnectionHandler.called_handle 1],
           (handle_chat message userId s).2)).
Proof.
  intros chain. subst chain.
  assert (Hchat : CommandHandler.looks_like_command message = false ->
            ConnectionHandler.find_handler
              (NutritionAgent.setupMessageHandlers executeCommand handle_chat uuid now)
              0 message userId s
            = (match (handle_chat message userId s).1 with
               | Ok response => ConnectionHandler.responded response
               | Throw e => ConnectionHandler.thrown e
               end,
               [ConnectionHandler.called_canHandle 0;
                ConnectionHandler.called_canHandle 1;
                ConnectionHandler.called_handle 1],
               (handle_chat message userId s).2)).
  { intros Hc. unfold NutritionAgent.setupMessageHandlers. simpl.
    rewrite Hc, (not_command_accepted message Hc).
    destruct (handle_chat message userId s) as [[response|e] s']; reflexivity. }
  split; [|split; [|exact Hchat]].
  - destruct (CommandHandler.looks_like_command message) eqn:Hc.
    + destruct (handle_command_answers executeCommand uuid now message userId s)
        as (response & s' & Hh).
      rewrite (command_handler_first executeCommand handle_chat uuid now
                 message userId s response s' Hc Hh).
      discriminate.
    + rewrite (Hchat eq_refl).
      destruct (handle_chat message userId s) as [[response|e] s']; discriminate.
  - unfold ChatMessageHandler.accepts.
    destruct (Text.startsWith "/" _); [reflexivity|].
    destruct (existsb _ _); reflexivity.
Qed.

(** X14.  A message that reads "help" once trimmed and lower-cased is taken
    by the command handler, yet no command is parsed from it: the answer is
    the fixed text that tells the user to try "help", no action runs and
    the state is left as it was. *)
Theorem X14_help_is_not_understood {S : Type}
    (executeCommand : CommandHandler.Command -> string -> S -> Res string * S)
    (uuid : string) (now : Z) (message : Core.ChatMessage) (userId : string) (s : S)
    (Hhelp : Text.toLowerCase (Text.trim (Core.content message)) = "help") :
  CommandHandler.looks_like_command message = true
  /\ CommandHandler.parseCommand (Core.content message) = None
  /\ CommandHandler.handle_command executeCommand uuid now message userId s
     = (Ok {| Core.id := uuid; Core.role := Core.assistant;
              Core.content := CommandHandler.not_understood;
              Core.timestamp := now |}, s).
Proof.
  assert (Hp : CommandHandler.parseCommand (Core.content message) = None).
  { unfold CommandHandler.parseCommand. rewrite Hhelp. vm_compute. reflexivity. }
  split; [|split; [exact Hp|]].
  - unfold CommandHandler.looks_like_command. rewrite Hhelp.
    vm_compute. reflexivity.
  - unfold CommandHandler.handle_command. rewrite Hp. reflexivity.
Qed.

(** The word with capitals and blanks around it. *)
Lemma X14_help_is_not_understood_witness :
  CommandHandler.handle_command Sample.fixed_actions "r-1" 9
    (Sample.text_message "  Help ") "u1" tt
  = (Ok {| Core.id := "r-1"; Core.role := Core.assistant;
           Core.content := CommandHandler.not_understood;
           Core.timestamp := 9 |}, tt).
Proof.
  apply (X14_help_is_not_understood Sample.fixed_actions "r-1" 9
           (Sample.text_message "  Help ") "u1" tt).
  vm_compute. reflexivity.
Defined.

(** ** The client hook, further                                            *)

Section hook.
Import Client.

Lemma onclose_stopped (h : Hook) :
  shouldReconnectRef h = false ->
  shouldReconnectRef (onclose h) = false
  /\ timeouts (onclose h) = timeouts h
  /\ reconnectTimeoutRef (onclose h) = reconnectTimeoutRef h
  /\ wsRef (onclose h) = None.
Proof.
  intros Hs. unfold onclose. rewrite Hs. simpl. auto.
Qed.

Lemma closes_stopped (n : nat) (h : Hook) :
  shouldReconnectRef h = false ->
  shouldReconnectRef (Nat.iter n onclose h) = false
  /\ timeouts (Nat.iter n onclose h) = timeouts h
  /\ reconnectTimeoutRef (Nat.iter n onclose h) = reconnectTimeoutRef h.
Proof.
  intros Hs. induction n as [|n (IH1 & IH2 & IH3)]; [auto|].
  simpl. destruct (onclose_stopped _ IH1) as (H1 & H2 & H3 & _).
  rewrite H1, H2, H3. auto.
Qed.

Lemma without_timeout_gone (handle : nat) (l : list (nat * Z)) :
  handle ∉ (without_timeout handle l).*1.
Proof.
  unfold without_timeout. intros Hin.
  apply list_elem_of_fmap in Hin as ([k d] & -> & Hin).
  apply list_elem_of_filter in Hin as [Hne _]. simpl in Hne. congruence.
Qed.

Lemma get_throws_alike (k k' : string) (data : Json.JValue) (e : string) :
  Json.get k data = Throw e -> exists e', Json.get k' data = Throw e'.
Proof.
  destruct data; simpl; try discriminate. eauto.
Qed.

End hook.

(** X16.  [connect] does nothing while an attempt is under way or the
    socket is open: calling it again right after a call changes nothing,
    so no second socket is made. *)
Theorem X16_connect_idempotent (h : Client.Hook) (url_ok : bool) :
  Client.connect url_ok (Client.connect true h) = Client.connect true h
  /\ (Client.isConnectingRef h = true -> Client.connect url_ok h = h)
  /\ (Client.wsRef h = Some Client.OPEN -> Client.connect url_ok h = h).
Proof.
  split; [|split].
  - destruct (Client.isConnectingRef h
              || match Client.wsRef h with
                 | Some Client.OPEN => true | _ => false end) eqn:E.
    + replace (Client.connect true h) with h
        by (unfold Client.connect; rewrite E; reflexivity).
      unfold Client.connect. rewrite E. reflexivity.
    + unfold Client.connect. rewrite E. simpl. reflexivity.
  - intros H. unfold Client.connect. rewrite H. reflexivity.
  - intros H. unfold Client.connect. rewrite H, orb_true_r. reflexivity.
Qed.

(** X17.  A successful open resets the back-off: whatever the count of
    attempts was, the close that follows schedules one retry, 2000 ms
    later, and counts it as attempt 1. *)
Theorem X17_open_resets_backoff (h : Client.Hook)
    (Hwanted : Client.shouldReconnectRef h = true) :
  let h' := Client.onclose (Client.onopen h) in
  Client.timeouts h' = Client.timeouts h ++ [(Client.next_timeout h, 2000)]
  /\ Client.reconnectTimeoutRef h' = Some (Client.next_timeout h)
  /\ Client.reconnectAttemptsRef h' = 1
  /\ Client.isConnected h' = false.
Proof.
  intros h'. subst h'. unfold Client.onclose, Client.onopen. simpl.
  rewrite Hwanted. simpl. auto.
Qed.

(** After five failed attempts, an open and a close. *)
Lemma X17_open_resets_backoff_witness :
  Client.pending_delays
    (Client.onclose (Client.onopen
       (Client.timeout_fires 4 (Nat.iter 5 Client.close_then_retry Client.initial))))
  = [2000].
Proof.
  unfold Client.pending_delays.
  rewrite (proj1 (X17_open_resets_backoff
             (Client.timeout_fires 4
                (Nat.iter 5 Client.close_then_retry Client.initial))
             eq_refl)).
  vm_compute. reflexivity.
Defined.

(** X18.  The cleanup of the effect stops the reconnection: the timeout
    the hook holds is cleared and no other is added, the socket is let go,
    and however many close events arrive afterwards, none of them
    schedules a retry. *)
Theorem X18_cleanup_stops_reconnecting (h : Client.Hook) (n : nat) :
  let h' := Nat.iter n Client.onclose (Client.cleanup h) in
  Client.timeouts h' = Client.timeouts (Client.cleanup h)
  /\ Client.reconnectTimeoutRef h' = None
  /\ Client.shouldReconnectRef h' = false
  /\ Client.wsRef (Client.cleanup h) = None
  /\ sublist (Client.timeouts (Client.cleanup h)) (Client.timeouts h)
  /\ (forall handle : nat,
        Client.reconnectTimeoutRef h = Some handle ->
        handle ∉ (Client.timeouts (Client.cleanup h)).*1).
Proof.
  intros h'. subst h'.
  destruct (closes_stopped n (Client.cleanup h) eq_refl) as (H1 & H2 & H3).
  rewrite H1, H2, H3. repeat split.
  - simpl. destruct (Client.reconnectTimeoutRef h); [apply sublist_filter | reflexivity].
  - intros handle Hh. simpl. rewrite Hh. apply without_timeout_gone.
Qed.

(** X19.  [sendMessage] sends, and returns true, exactly when the hook
    holds a socket that is open; what it sends is the content with the
    current time.  So nothing is sent after a close or a cleanup, nor
    between [connect] and the open event, and a send goes through once the
    socket has opened. *)
Theorem X19_send_needs_open_socket (now : Z) (content : string) (h : Client.Hook) :
  ((Client.sendMessage now content h).1 = true <-> Client.wsRef h = Some Client.OPEN)
  /\ (Client.sendMessage now content h).2
     = (if (Client.sendMessage now content h).1 then Some (content, now) else None)
  /\ Client.sendMessage now content (Client.onclose h) = (false, None)
  /\ Client.sendMessage now content (Client.cleanup h) = (false, None)
  /\ (Client.wsRef h = None -> Client.isConnectingRef h = false ->
        Client.sendMessage now content (Client.connect true h) = (false, None)
        /\ Client.sendMessage now content (Client.onopen (Client.connect true h))
           = (true, Some (content, now))).
Proof.
  repeat split.
  - unfold Client.sendMessage.
    destruct (Client.wsRef h) as [[]|]; simpl; congruence.
  - intros H. unfold Client.sendMessage. rewrite H. reflexivity.
  - unfold Client.sendMessage.
    destruct (Client.wsRef h) as [[]|]; reflexivity.
  - unfold Client.sendMessage, Client.onclose.
    destruct (_ && _); reflexivity.
  - unfold Client.connect. rewrite H, H0. reflexivity.
  - unfold Client.connect. rewrite H, H0. reflexivity.
Qed.

(** X20.  A frame that parses, whose [type] is [message], [system] or
    [error] and whose [content] is truthy, leads to exactly one call of the
    [onMessage] callback.  The message carries the frame's content (after
    "Error: " for an [error] frame) and timestamp; for a [message] frame
    its id and role are the frame's, or a fresh id and "assistant" where
    the frame has none; for the two others the id is fresh and the role is
    "system". *)
Theorem X20_delivered_frames (uuid text : string) (data : Json.JValue)
    (Hparse : Json.JSON_parse text = Some data)
    (Htype : delivered_type (frame_type data) = true)
    (Hcontent : Json.truthy (frame_content data) = true) :
  exists m : Client.Message,
    Client.onmessage uuid text = [m]
    /\ Client.timestamp m = frame_field "timestamp" data
    /\ Client.content m
       = (if Json.is_literal "error" (frame_type data)
          then Client.interpolated "Error: " (default Json.JNull (frame_content data))
          else Client.plain (default Json.JNull (frame_content data)))
    /\ Client.id m
       = (if Json.is_literal "message" (frame_type data)
          then Client.or_else (frame_field "messageId" data) uuid
          else Json.JString uuid)
    /\ Client.role m
       = (if Json.is_literal "message" (frame_type data)
          then Client.or_else (frame_field "role" data) "assistant"
          else Json.JString "system").
Proof.
  unfold Client.onmessage. rewrite Hparse.
  unfold frame_type, frame_content, frame_field, delivered_type in *.
  destruct (Json.get "type" data) as [t|e] eqn:Et; [|discriminate Htype].
  destruct (Json.get "content" data) as [c|e] eqn:Ec; [|discriminate Hcontent].
  destruct (Json.get "messageId" data) as [i|e] eqn:Ei;
    [|destruct (get_throws_alike _ "type" _ _ Ei); congruence].
  destruct (Json.get "role" data) as [r|e] eqn:Er;
    [|destruct (get_throws_alike _ "type" _ _ Er); congruence].
  destruct (Json.get "timestamp" data) as [ts|e] eqn:Ets;
    [|destruct (get_throws_alike _ "type" _ _ Ets); congruence].
  rewrite Hcontent, !andb_true_r.
  destruct t as [[| | | s | |]|]; try discriminate Htype.
  unfold Json.is_literal in *.
  destruct (String.eqb_spec s "message") as [-> | _].
  { eexists. split; [reflexivity|]. simpl. auto. }
  destruct (String.eqb_spec s "system") as [-> | _].
  { eexists. split; [reflexivity|]. simpl. auto. }
  destruct (String.eqb_spec s "error") as [-> | _]; [|discriminate Htype].
  eexists. split; [reflexivity|]. simpl. auto.
Qed.

(** An error frame of the server. *)
Lemma X20_delivered_frames_witness :
  exists m : Client.Message,
    Client.onmessage "id-1"
      (Json.dq "{'type':'error','content':'Failed to process message','timestamp':7}")
    = [m]
    /\ Client.role m = Json.JString "system".
Proof.
  destruct (X20_delivered_frames "id-1"
              (Json.dq "{'type':'error','content':'Failed to process message','timestamp':7}")
              (Json.JObject [("type", Json.JString "error");
                             ("content", Json.JString "Failed to process message");
                             ("timestamp", Json.JNumber 7 0)]))
    as (m & Hm & _ & _ & _ & Hr).
  - vm_compute. reflexivity.
  - vm_compute. reflexivity.
  - vm_compute. reflexivity.
  - exists m. split; [exact Hm | exact Hr].
Defined.

(** ** The container                                                       *)

(** X21.  A factory is run on the first [resolve] of its key and its
    instance is kept: the key is then held as an instance and no longer as
    a factory, every later [resolve] gives that same instance and leaves
    the container as it is, and a factory registered for the key
    afterwards is never used. *)
Theorem X21_factory_instance_is_cached {T : Type} (c : DIContainer.t T)
    (key : string) (factory : unit -> Res T) (instance : T)
    (Hfresh : DIContainer.services c !! key = None)
    (Hfactory : DIContainer.factories c !! key = Some factory)
    (Hmade : factory () = Ok instance) :
  let c' := (DIContainer.resolve key c).2 in
  (DIContainer.resolve key c).1 = Ok instance
  /\ DIContainer.services c' !! key = Some instance
  /\ DIContainer.factories c' !! key = None
  /\ DIContainer.resolve key c' = (Ok instance, c')
  /\ (forall other : unit -> Res T,
        DIContainer.resolve key (DIContainer.registerFactory key other c')
        = (Ok instance, DIContainer.registerFactory key other c')).
Proof.
  intros c'. subst c'.
  assert (Hr : DIContainer.resolve key c
               = (Ok instance,
                  {| DIContainer.services :=
                       <[key := instance]> (DIContainer.services c);
                     DIContainer.factories :=
                       delete key (DIContainer.factories c) |})).
  { unfold DIContainer.resolve. rewrite Hfresh, Hfactory, Hmade. reflexivity. }
  rewrite Hr. simpl.
  assert (Hs : forall m : gmap string (unit -> Res T),
            DIContainer.resolve key
              {| DIContainer.services := <[key := instance]> (DIContainer.services c);
                 DIContainer.factories := m |}
            = (Ok instance,
               {| DIContainer.services := <[key := instance]> (DIContainer.services c);
                  DIContainer.factories := m |})).
  { intros m. unfold DIContainer.resolve. simpl.
    rewrite lookup_insert_eq. reflexivity. }
  repeat split.
  - apply lookup_insert_eq.
  - apply lookup_delete_eq.
  - apply Hs.
  - intros other. unfold DIContainer.registerFactory. simpl. apply Hs.
Qed.

(** A factory registered on the empty container. *)
Lemma X21_factory_instance_is_cached_witness :
  (DIContainer.resolve "stateManager"
     (DIContainer.registerFactory "stateManager" (fun _ => Ok 7)
        DIContainer.create)).1 = Ok 7.
Proof.
  apply (X21_factory_instance_is_cached
           (DIContainer.registerFactory "stateManager" (fun _ => Ok 7)
              DIContainer.create)
           "stateManager" (fun _ => Ok 7) 7); reflexivity.
Defined.

(** X22.  On a key [has] denies, [resolve] throws its "not found" error
    and leaves the container as it is; on a key [has] accepts it gives an
    instance, provided the factory it may have to run gives one.  A
    registered instance is what [resolve] gives, whether or not a factory
    is registered for the key too, and that factory is neither run nor
    removed; once a key is unregistered it is unknown, instance and factory
    alike; a factory that throws leaves the container as it was, so the
    next [resolve] runs it again. *)
Theorem X22_resolve_and_has {T : Type} (c : DIContainer.t T) (key : string) :
  (DIContainer.has key c = false ->
     DIContainer.resolve key c = (Throw (DIContainer.not_found key), c))
  /\ (DIContainer.has key c = true ->
      (forall factory, DIContainer.factories c !! key = Some factory ->
                       exists instance, factory () = Ok instance) ->
      exists instance, (DIContainer.resolve key c).1 = Ok instance)
  /\ (forall instance : T,
        DIContainer.resolve key (DIContainer.register key instance c)
        = (Ok instance, DIContainer.register key instance c))
  /\ DIContainer.has key (DIContainer.unregister key c) = false
  /\ (forall (factory : unit -> Res T) (e : string),
        DIContainer.services c !! key = None ->
        DIContainer.factories c !! key = Some factory ->
        factory () = Throw e ->
        DIContainer.resolve key c = (Throw e, c)).
Proof.
  unfold DIContainer.has, DIContainer.resolve. repeat split.
  - intros H. apply orb_false_iff in H as [Hs Hf].
    apply bool_decide_eq_false in Hs. apply bool_decide_eq_false in Hf.
    destruct (DIContainer.services c !! key); [exfalso; eauto|].
    destruct (DIContainer.factories c !! key); [exfalso; eauto|].
    reflexivity.
  - intros H Hok.
    destruct (DIContainer.services c !! key) as [v|]; [simpl; eauto|].
    destruct (DIContainer.factories c !! key) as [f|].
    + destruct (Hok f eq_refl) as [v ->]. simpl. eauto.
    + discriminate H.
  - intros instance. simpl. rewrite lookup_insert_eq. reflexivity.
  - simpl. rewrite !lookup_delete_eq.
    rewrite !bool_decide_eq_false_2; [reflexivity | |]; intros [? ?]; discriminate.
  - intros factory e Hs Hf Hthrow. rewrite Hs, Hf, Hthrow. reflexivity.
Qed.

(** ** The state service                                                   *)

Section keys.
Import StateService.

Lemma length_app_string (a b : string) :
  String.length (a +:+ b) = (String.length a + String.length b)%nat.
Proof. induction a as [|c a IH]; simpl; [reflexivity | now rewrite <- IH]. Qed.

(** Two texts that end in tails of the same length. *)
Lemma app_same_length_inj (u u' s s' : string) :
  String.length s = String.length s' ->
  u +:+ s = u' +:+ s' -> u = u' /\ s = s'.
Proof.
  intros Hlen. revert u'.
  induction u as [|a u IH]; intros [|a' u'] E.
  - split; [reflexivity | exact E].
  - exfalso. apply (f_equal String.length) in E.
    change ("" +:+ s) with s in E.
    change (String a' u' +:+ s') with (String a' (u' +:+ s')) in E.
    simpl in E. rewrite length_app_string in E. lia.
  - exfalso. apply (f_equal String.length) in E.
    change ("" +:+ s') with s' in E.
    change (String a u +:+ s) with (String a (u +:+ s)) in E.
    simpl in E. rewrite length_app_string in E. lia.
  - change (String a (u +:+ s) = String a' (u' +:+ s')) in E.
    injection E as -> E. destruct (IH u' E) as [-> ->]. auto.
Qed.

Lemma startsWith_app (p s : string) : Text.startsWith p (p +:+ s) = true.
Proof.
  unfold Text.startsWith. induction p as [|a p IH].
  - destruct s; reflexivity.
  - change (String a p +:+ s) with (String a (p +:+ s)).
    cbn [String.prefix]. destruct (ascii_dec a a); [exact IH | congruence].
Qed.

Lemma profile_key_inj (u u' : string) :
  getUserProfileKey u = getUserProfileKey u' -> u = u'.
Proof.
  unfold getUserProfileKey. intros E.
  apply (inj (String.app "user:")) in E.
  apply (app_same_length_inj u u' ":profile" ":profile" eq_refl) in E.
  apply E.
Qed.

Lemma context_key_inj (u u' : string) :
  getContextKey u = getContextKey u' -> u = u'.
Proof.
  unfold getContextKey. intros E.
  apply (inj (String.app "user:")) in E.
  apply (app_same_length_inj u u' ":context" ":context" eq_refl) in E.
  apply E.
Qed.

Lemma profile_key_not_context (u u' : string) :
  getUserProfileKey u <> getContextKey u'.
Proof.
  unfold getUserProfileKey, getContextKey. intros E.
  apply (inj (String.app "user:")) in E.
  apply (app_same_length_inj u u' ":profile" ":context" eq_refl) in E.
  destruct E as [_ E]. discriminate E.
Qed.

Lemma well_kinded_empty : well_kinded ∅.
Proof.
  intros u. split; intros data H; rewrite lookup_empty in H; discriminate.
Qed.

Lemma well_kinded_save_profile (store : Store) (u : string) (d : UserProfile.json) :
  well_kinded store ->
  well_kinded (<[getUserProfileKey u := ProfileData d]> store).
Proof.
  intros Hk u'. destruct (Hk u') as [Hp Hc]. split; intros data H.
  - destruct (decide (getUserProfileKey u = getUserProfileKey u')) as [E|E].
    + rewrite E, lookup_insert_eq in H. discriminate.
    + rewrite lookup_insert_ne in H by exact E. eauto.
  - rewrite lookup_insert_ne in H by apply profile_key_not_context. eauto.
Qed.

Lemma well_kinded_save_context (store : Store) (u : string)
    (d : NutritionContext.json) :
  well_kinded store ->
  well_kinded (<[getContextKey u := ContextData d]> store).
Proof.
  intros Hk u'. destruct (Hk u') as [Hp Hc]. split; intros data H.
  - rewrite lookup_insert_ne in H
      by (intros E; symmetry in E; revert E; apply profile_key_not_context).
    eauto.
  - destruct (decide (getContextKey u = getContextKey u')) as [E|E].
    + rewrite E, lookup_insert_eq in H. discriminate.
    + rewrite lookup_insert_ne in H by exact E. eauto.
Qed.

Lemma well_kinded_delete (store : Store) (k : string) :
  well_kinded store -> well_kinded (delete k store).
Proof.
  intros Hk u. destruct (Hk u) as [Hp Hc]. split; intros data H;
    apply lookup_delete_Some in H as [_ H]; eauto.
Qed.

Lemma profile_roundtrip (now : Z) (p : UserProfile.t) :
  UserProfile.fromJSON now (UserProfile.toJSON p) = p.
Proof. destruct p. reflexivity. Qed.

Lemma context_roundtrip (now : Z) (c : NutritionContext.t) :
  NutritionContext.fromJSON now (NutritionContext.toJSON c) = c.
Proof. destruct c. reflexivity. Qed.

(** The two [getOrCreate] operations on a well-kinded store. *)
Lemma getOrCreateUserProfile_cases (now : Z) (u : string) (store : Store) :
  well_kinded store ->
  (exists d, store !! getUserProfileKey u = Some (ProfileData d)
             /\ getOrCreateUserProfile now u store
                = Some (UserProfile.fromJSON now d, store))
  \/ (store !! getUserProfileKey u = None
      /\ getOrCreateUserProfile now u store
         = Some (UserProfile.create now u None,
                 <[getUserProfileKey u :=
                     ProfileData (UserProfile.toJSON (UserProfile.create now u None))]>
                   store)).
Proof.
  intros Hk. destruct (Hk u) as [Hp _].
  unfold getOrCreateUserProfile, getUserProfile, mbind, M_bind,
    DurableObjectStorage.get.
  destruct (store !! getUserProfileKey u) as [[d|d]|] eqn:E.
  - left. exists d. split; reflexivity.
  - exfalso. eauto.
  - right. split; reflexivity.
Qed.

Lemma getOrCreateContext_cases (now : Z) (u : string) (store : Store) :
  well_kinded store ->
  (exists d, store !! getContextKey u = Some (ContextData d)
             /\ getOrCreateContext now u store
                = Some (NutritionContext.fromJSON now d, store))
  \/ (store !! getContextKey u = None
      /\ getOrCreateContext now u store
         = Some (NutritionContext.create now,
                 <[getContextKey u :=
                     ContextData (NutritionContext.toJSON (NutritionContext.create now))]>
                   store)).
Proof.
  intros Hk. destruct (Hk u) as [_ Hc].
  unfold getOrCreateContext, getContext, mbind, M_bind,
    DurableObjectStorage.get.
  destruct (store !! getContextKey u) as [[d|d]|] eqn:E.
  - exfalso. eauto.
  - left. exists d. split; reflexivity.
  - right. split; reflexivity.
Qed.

End keys.

(** X23.  The keys of the state service tell users and kinds apart: two
    users never share a profile key or a context key, a profile key is
    never a context key (whatever the ids contain), and neither collides
    with what the reminder workflow keeps in the same store (keys under
    [workflow:] and [reminder:], and [scheduled_reminders]). *)
Theorem X23_state_keys_separate (u u' : string) :
  (StateService.getUserProfileKey u = StateService.getUserProfileKey u' -> u = u')
  /\ (StateService.getContextKey u = StateService.getContextKey u' -> u = u')
  /\ StateService.getUserProfileKey u <> StateService.getContextKey u'
  /\ (forall k : string,
        k = StateService.getUserProfileKey u \/ k = StateService.getContextKey u ->
        Text.startsWith "user:" k = true
        /\ Text.startsWith "workflow:" k = false
        /\ Text.startsWith "reminder:" k = false
        /\ k <> "scheduled_reminders").
Proof.
  split; [apply profile_key_inj|].
  split; [apply context_key_inj|].
  split; [apply profile_key_not_context|].
  intros k [-> | ->];
    (split; [apply (startsWith_app "user:")|]); (split; [reflexivity|]);
    (split; [reflexivity|]); intros E; vm_compute in E; discriminate E.
Qed.

(** X24.  A saved profile is what [getUserProfile] gives back for its
    user, whatever the clock shows; saving it changes what is read for no
    other user and for no context, the user's own included. *)
Theorem X24_profile_saved_and_read (store : StateService.Store)
    (profile : UserProfile.t) (now : Z) :
  exists store' : StateService.Store,
    StateService.saveUserProfile profile store = Some ((), store')
    /\ StateService.getUserProfile now (UserProfile.userId profile) store'
       = Some (Some profile, store')
    /\ StateService.userExists (UserProfile.userId profile) store' = true
    /\ (forall u : string,
          u <> UserProfile.userId profile ->
          returned (StateService.getUserProfile now u store')
          = returned (StateService.getUserProfile now u store))
    /\ (forall u : string,
          returned (StateService.getContext now u store')
          = returned (StateService.getContext now u store)).
Proof.
  eexists. split; [reflexivity|].
  unfold StateService.getUserProfile, StateService.getContext,
    StateService.userExists, DurableObjectStorage.get,
    DurableObjectStorage.exists_, DurableObjectStorage.save.
  repeat split.
  - rewrite lookup_insert_eq, profile_roundtrip. reflexivity.
  - rewrite lookup_insert_eq. apply bool_decide_eq_true. eauto.
  - intros u Hu. rewrite lookup_insert_ne
      by (intros E; apply profile_key_inj in E; congruence).
    destruct (store !! _) as [[]|]; reflexivity.
  - intros u. rewrite lookup_insert_ne by apply profile_key_not_context.
    destruct (store !! _) as [[]|]; reflexivity.
Qed.

(** X25.  On a well-kinded store [getOrCreateUserProfile] always gives a
    profile and leaves the store well-kinded.  The profile is the stored
    one, with the store untouched, when the user has one; otherwise it is
    the default profile made at that time, and it is saved.  Either way
    the profile is stored afterwards: a second call, at any later time,
    gives the same profile and changes nothing. *)
Theorem X25_getOrCreateUserProfile (store : StateService.Store)
    (now later : Z) (u : string) (Hkinds : well_kinded store) :
  exists (profile : UserProfile.t) (store' : StateService.Store),
    StateService.getOrCreateUserProfile now u store = Some (profile, store')
    /\ well_kinded store'
    /\ StateService.getOrCreateUserProfile later u store' = Some (profile, store')
    /\ StateService.getUserProfile later u store' = Some (Some profile, store')
    /\ (StateService.userExists u store = true -> store' = store)
    /\ (StateService.userExists u store = false ->
          profile = UserProfile.create now u None
          /\ store' = <[StateService.getUserProfileKey u :=
                          StateService.ProfileData (UserProfile.toJSON profile)]> store)
    /\ (forall k : string,
          k <> StateService.getUserProfileKey u -> store' !! k = store !! k).
Proof.
  destruct (getOrCreateUserProfile_cases now u store Hkinds)
    as [(d & Hd & Hg) | (Hnone & Hg)]; rewrite Hg.
  - exists (UserProfile.fromJSON now d), store.
    split; [reflexivity|]. split; [exact Hkinds|].
    unfold StateService.getOrCreateUserProfile, StateService.getUserProfile,
      StateService.userExists, DurableObjectStorage.get,
      DurableObjectStorage.exists_, mbind, StateService.M_bind.
    rewrite Hd. split; [reflexivity|]. split; [reflexivity|].
    split; [reflexivity|]. split; [|reflexivity].
    intros Hf. apply bool_decide_eq_false in Hf. exfalso. apply Hf. eauto.
  - eexists _, _. split; [reflexivity|].
    split; [apply well_kinded_save_profile, Hkinds|].
    unfold StateService.getOrCreateUserProfile, StateService.getUserProfile,
      StateService.userExists, DurableObjectStorage.get,
      DurableObjectStorage.exists_, mbind, StateService.M_bind.
    rewrite lookup_insert_eq, Hnone, profile_roundtrip.
    split; [reflexivity|]. split; [reflexivity|]. split; [|split].
    + intros Ht. apply bool_decide_eq_true in Ht as [x Hx]. discriminate Hx.
    + intros _. split; reflexivity.
    + intros k Hk. apply lookup_insert_ne. congruence.
Qed.

(** On the empty store the default profile is made and saved. *)
Lemma X25_getOrCreateUserProfile_witness :
  exists (profile : UserProfile.t) (store' : StateService.Store),
    StateService.getOrCreateUserProfile 5 "u1" ∅ = Some (profile, store')
    /\ StateService.getOrCreateUserProfile 9 "u1" store' = Some (profile, store').
Proof.
  destruct (X25_getOrCreateUserProfile ∅ 5 9 "u1" well_kinded_empty)
    as (profile & store' & H1 & _ & H2 & _).
  exists profile, store'. split; assumption.
Defined.

(** X26.  On a well-kinded store [getOrCreateContext] always gives a
    context.  When the user has one stored it is that one, read back with
    its history, and the store is untouched; otherwise it is a new one
    without messages, saved under the user's context key.  Either way the
    context is stored afterwards, a second call gives the same, and no
    other key changes.  After [clearContext] the user's context is gone,
    so the next [getOrCreateContext] starts a new session without
    messages, while every profile and every other user's context read as
    before. *)
Theorem X26_context_lifecycle (store : StateService.Store)
    (now later : Z) (u : string) (Hkinds : well_kinded store) :
  (exists (context : NutritionContext.t) (store' : StateService.Store),
     StateService.getOrCreateContext now u store = Some (context, store')
     /\ well_kinded store'
     /\ StateService.getOrCreateContext later u store' = Some (context, store')
     /\ (store !! StateService.getContextKey u = None ->
           context = NutritionContext.create now
           /\ store' = <[StateService.getContextKey u :=
                           StateService.ContextData
                             (NutritionContext.toJSON context)]> store)
     /\ (forall data : NutritionContext.json,
           store !! StateService.getContextKey u
           = Some (StateService.ContextData data) ->
           context = NutritionContext.fromJSON now data
           /\ NutritionContext.conversationHistory context
              = default [] (NutritionContext.j_conversationHistory data)
           /\ store' = store)
     /\ StateService.getContext later u store' = Some (Some context, store')
     /\ (forall k : string,
           k <> StateService.getContextKey u -> store' !! k = store !! k))
  /\ (exists cleared : StateService.Store,
        StateService.clearContext u store = Some ((), cleared)
        /\ well_kinded cleared
        /\ StateService.getContext later u cleared = Some (None, cleared)
        /\ returned (StateService.getOrCreateContext later u cleared)
           = Some (NutritionContext.create later)
        /\ (forall u' : string,
              returned (StateService.getUserProfile later u' cleared)
              = returned (StateService.getUserProfile later u' store))
        /\ (forall u' : string,
              u' <> u ->
              returned (StateService.getContext later u' cleared)
              = returned (StateService.getContext later u' store))).
Proof.
  split.
  - destruct (getOrCreateContext_cases now u store Hkinds)
      as [(d & Hd & Hg) | (Hnone & Hg)]; rewrite Hg.
    + exists (NutritionContext.fromJSON now d), store.
      split; [reflexivity|]. split; [exact Hkinds|].
      unfold StateService.getOrCreateContext, StateService.getContext,
        DurableObjectStorage.get, mbind, StateService.M_bind.
      rewrite Hd. split; [reflexivity|]. split; [discriminate|].
      split; [intros data [= <-]; auto|]. split; reflexivity.
    + eexists _, _. split; [reflexivity|].
      split; [apply well_kinded_save_context, Hkinds|].
      unfold StateService.getOrCreateContext, StateService.getContext,
        DurableObjectStorage.get, mbind, StateService.M_bind.
      rewrite lookup_insert_eq, context_roundtrip, Hnone.
      split; [reflexivity|]. split; [intros _; split; reflexivity|].
      split; [intros data Hdata; discriminate Hdata|].
      split; [reflexivity|].
      intros k Hk. apply lookup_insert_ne. congruence.
  - eexists. split; [reflexivity|].
    split; [apply well_kinded_delete, Hkinds|].
    unfold StateService.getOrCreateContext, StateService.getContext,
      StateService.getUserProfile, DurableObjectStorage.get,
      DurableObjectStorage.delete, mbind, StateService.M_bind, returned.
    rewrite lookup_delete_eq. split; [reflexivity|]. split; [reflexivity|].
    split.
    + intros u'. rewrite lookup_delete_ne
        by (intros E; symmetry in E; revert E; apply profile_key_not_context).
      destruct (store !! _) as [[]|]; reflexivity.
    + intros u' Hu. rewrite lookup_delete_ne
        by (intros E; apply context_key_inj in E; congruence).
      destruct (store !! _) as [[]|]; reflexivity.
Qed.

(** A cleared store gives a new session. *)
Lemma X26_context_lifecycle_witness :
  exists cleared : StateService.Store,
    StateService.clearContext "u1" ∅ = Some ((), cleared)
    /\ returned (StateService.getOrCreateContext 9 "u1" cleared)
       = Some (NutritionContext.create 9).
Proof.
  destruct (proj2 (X26_context_lifecycle ∅ 5 9 "u1" well_kinded_empty))
    as (cleared & H1 & _ & _ & H2 & _).
  exists cleared. split; assumption.
Defined.

(** ** The conversational handler                                          *)

Section chat.
Import Core StateService.
Variable generate : string -> Res string.
Variable show_number : Q -> string.

Lemma append_assoc (a b c : string) : (a +:+ b) +:+ c = a +:+ (b +:+ c).
Proof.
  induction a as [|x a IH]; [reflexivity|].
  change ((String x a +:+ b) +:+ c) with (String x ((a +:+ b) +:+ c)).
  rewrite IH. reflexivity.
Qed.

Lemma join_snoc (sep : string) (l : list string) (x : string) :
  exists before : string, PromptBuilder.join sep (l ++ [x]) = before +:+ x.
Proof.
  induction l as [|a l [b IH]].
  - exists "". reflexivity.
  - exists (a +:+ sep +:+ b).
    change (PromptBuilder.join sep ((a :: l) ++ [x]))
      with (PromptBuilder.join sep (a :: (l ++ [x]))).
    destruct (l ++ [x]) as [|y r] eqn:E.
    + destruct l; discriminate E.
    + change (PromptBuilder.join sep (a :: y :: r))
        with (a +:+ sep +:+ PromptBuilder.join sep (y :: r)).
      rewrite IH, !append_assoc. reflexivity.
Qed.

Lemma slice_snoc {A : Type} (n : Z) (l : list A) (x : A) :
  0 < n -> exists l', slice (- n) (l ++ [x]) = l' ++ [x].
Proof.
  intros Hn. replace n with (Z.of_nat (Z.to_nat n)) by lia.
  rewrite (slice_last (Z.to_nat n)) by lia.
  exists (drop (length (l ++ [x]) - Z.to_nat n) l).
  apply drop_app_le. rewrite length_app. simpl. lia.
Qed.

Lemma addMessage_snoc (m : ChatMessage) (c : NutritionContext.t) :
  exists before,
    NutritionContext.conversationHistory (NutritionContext.addMessage m c)
    = before ++ [m].
Proof.
  rewrite addMessage_history.
  exists (drop (length (NutritionContext.conversationHistory c ++ [m]) - 20)
               (NutritionContext.conversationHistory c)).
  apply drop_app_le. rewrite length_app. simpl. lia.
Qed.

Lemma addMessage_keep_last (m : ChatMessage) (c : NutritionContext.t) :
  NutritionContext.conversationHistory (NutritionContext.addMessage m c)
  = keep_last 20 (NutritionContext.conversationHistory c) m.
Proof. apply addMessage_history. Qed.

(** The prompt of a turn ends with the message, twice. *)
Lemma chat_prompt_tail (message : ChatMessage) (c : NutritionContext.t)
    (goals : option UserGoals) :
  exists before : string,
    PromptBuilder.buildChatPrompt show_number (content message)
      (NutritionContext.getRecentMessages 10
         (NutritionContext.addMessage message c)) goals
    = before +:+ PromptBuilder.history_line message
      +:+ PromptBuilder.nl +:+ PromptBuilder.nl +:+ "User: "
      +:+ content message +:+ PromptBuilder.nl +:+ "Assistant:".
Proof.
  unfold PromptBuilder.buildChatPrompt, NutritionContext.getRecentMessages,
    PromptBuilder.formatConversationHistory.
  destruct (addMessage_snoc message c) as [h ->].
  destruct (slice_snoc 10 h message ltac:(lia)) as [r Hr]. rewrite Hr.
  destruct (slice_snoc 8 r message ltac:(lia)) as [r' Hr']. rewrite Hr'.
  rewrite length_app. simpl length.
  replace (0 <? length r + 1)%nat with true
    by (symmetry; apply Nat.ltb_lt; lia).
  rewrite fmap_app. simpl fmap.
  destruct (join_snoc PromptBuilder.nl (PromptBuilder.history_line <$> r')
              (PromptBuilder.history_line message)) as [b ->].
  exists (PromptBuilder.buildSystemPrompt show_number goals
          +:+ PromptBuilder.nl +:+ PromptBuilder.nl
          +:+ "Conversation History:" +:+ PromptBuilder.nl +:+ b).
  rewrite !append_assoc. reflexivity.
Qed.

(** What [generateChatResponse] gives. *)
Lemma generateChatResponse_cases (userMessage : string)
    (history : list ChatMessage) (goals : option UserGoals) :
  (exists text,
     LLMService.generateChatResponse generate show_number userMessage history goals
     = Ok text
     /\ generate (PromptBuilder.buildChatPrompt show_number userMessage history goals)
        = Ok text
     /\ LLMService.validateResponse text = true)
  \/ (LLMService.generateChatResponse generate show_number userMessage history goals
      = Throw "Failed to generate response. Please try again."
      /\ forall text,
           generate (PromptBuilder.buildChatPrompt show_number userMessage history goals)
           = Ok text ->
           LLMService.validateResponse text = false).
Proof.
  unfold LLMService.generateChatResponse.
  destruct (generate _) as [text|e].
  - destruct (LLMService.validateResponse text) eqn:V; simpl.
    + left. exists text. auto.
    + right. split; [reflexivity|]. intros t [= <-]. exact V.
  - right. split; [reflexivity|]. intros t [=].
Qed.

(** The two state reads of a turn, on a well-kinded store. *)
Lemma turn_reads (t_context t_profile : Z) (u : string)
    (store : gmap string Stored) :
  well_kinded store ->
  exists (c : NutritionContext.t) (p : UserProfile.t)
         (store0 store1 : gmap string Stored),
    getOrCreateContext t_context u store = Some (c, store0)
    /\ getOrCreateUserProfile t_profile u store0 = Some (p, store1)
    /\ well_kinded store1
    /\ NutritionContext.conversationHistory c = stored_history u store
    /\ stored_history u store1 = stored_history u store
    /\ is_Some (store1 !! getContextKey u)
    /\ is_Some (store1 !! getUserProfileKey u)
    /\ (forall k, k <> getContextKey u -> k <> getUserProfileKey u ->
                  store1 !! k = store !! k).
Proof.
  intros Hk.
  assert (Hc : exists c store0,
             getOrCreateContext t_context u store = Some (c, store0)
             /\ well_kinded store0
             /\ NutritionContext.conversationHistory c = stored_history u store
             /\ stored_history u store0 = stored_history u store
             /\ is_Some (store0 !! getContextKey u)
             /\ (forall k, k <> getContextKey u -> store0 !! k = store !! k)).
  { destruct (getOrCreateContext_cases t_context u store Hk)
      as [(d & Hd & Hg) | (Hnone & Hg)]; rewrite Hg.
    - eexists _, _. split; [reflexivity|]. split; [exact Hk|].
      unfold stored_history. rewrite Hd. split; [reflexivity|].
      split; [reflexivity|]. split; [eauto | reflexivity].
    - eexists _, _. split; [reflexivity|].
      split; [apply well_kinded_save_context, Hk|].
      unfold stored_history. rewrite Hnone, lookup_insert_eq.
      split; [reflexivity|]. split; [reflexivity|]. split; [eauto|].
      intros k Hne. apply lookup_insert_ne. congruence. }
  destruct Hc as (c & store0 & Hg0 & Hk0 & Hh & Hs0 & Hin0 & Hfr0).
  exists c.
  destruct (getOrCreateUserProfile_cases t_profile u store0 Hk0)
    as [(d & Hd & Hg) | (Hnone & Hg)].
  - exists (UserProfile.fromJSON t_profile d), store0, store0.
    split; [exact Hg0|]. split; [exact Hg|]. split; [exact Hk0|].
    split; [exact Hh|]. split; [exact Hs0|]. split; [exact Hin0|].
    split; [rewrite Hd; eauto|]. intros k H1 _. apply Hfr0, H1.
  - eexists _, store0, _. split; [exact Hg0|]. split; [exact Hg|].
    split; [apply well_kinded_save_profile, Hk0|]. split; [exact Hh|].
    assert (Hne : getUserProfileKey u <> getContextKey u)
      by apply profile_key_not_context.
    split; [|split; [|split]].
    + unfold stored_history in *. rewrite lookup_insert_ne by exact Hne.
      exact Hs0.
    + rewrite lookup_insert_ne by exact Hne. exact Hin0.
    + rewrite lookup_insert_eq. eauto.
    + intros k H1 H2. rewrite lookup_insert_ne by congruence. auto.
Qed.

(** One turn of the handler, by what the language service gives. *)
Lemma handle_cases (uuid : string) (t_context t_profile t_reply : Z)
    (message : ChatMessage) (u : string) (store : gmap string Stored) :
  well_kinded store ->
  exists (c : NutritionContext.t) (p : UserProfile.t)
         (store1 : gmap string Stored),
    well_kinded store1
    /\ NutritionContext.conversationHistory c = stored_history u store
    /\ stored_history u store1 = stored_history u store
    /\ is_Some (store1 !! getContextKey u)
    /\ is_Some (store1 !! getUserProfileKey u)
    /\ (forall k, k <> getContextKey u -> k <> getUserProfileKey u ->
                  store1 !! k = store !! k)
    /\ ChatMessageHandling.handle generate show_number uuid
         t_context t_profile t_reply message u store
       = match LLMService.generateChatResponse generate show_number
                 (content message)
                 (NutritionContext.getRecentMessages 10
                    (NutritionContext.addMessage message c))
                 (Some (UserProfile.goals p)) with
         | Ok text =>
             let reply :=
               {| id := uuid; role := assistant; content := text;
                  timestamp := t_reply |} in
             Some (reply,
                   <[getContextKey u :=
                       ContextData
                         (NutritionContext.toJSON
                            (NutritionContext.addMessage reply
                               (NutritionContext.addMessage message c)))]>
                     store1)
         | Throw _ =>
             Some ({| id := uuid; role := assistant;
                      content := ChatMessageHandling.apology;
                      timestamp := t_reply |}, store1)
         end.
Proof.
  intros Hk.
  destruct (turn_reads t_context t_profile u store Hk)
    as (c & p & store0 & store1 & Hg0 & Hg1 & Hk1 & Hh & Hs & Hin & Hip & Hfr).
  exists c, p, store1. repeat (split; [assumption|]).
  unfold ChatMessageHandling.handle, mbind, M_bind.
  rewrite Hg0, Hg1.
  destruct (LLMService.generateChatResponse _ _ _ _ _); reflexivity.
Qed.

End chat.

(** X15.  On a well-kinded store the conversational handler always
    answers: the reply is a message of the assistant with the new id and
    the time of the reply, and its text is either an answer the language
    model gave and that passed the validation (not empty, not blank), or
    the fixed apology; what the model or the validation threw is never
    shown.  When the model gives no usable answer, whatever the prompt, the
    reply is the apology.  Afterwards the user has a profile and a context
    in the store, which is still well-kinded. *)
Theorem X15_chat_reply (generate : string -> Res string)
    (show_number : Q -> string) (uuid : string)
    (t_context t_profile t_reply : Z) (message : Core.ChatMessage)
    (userId : string) (store : StateService.Store)
    (Hkinds : well_kinded store) :
  exists (reply : Core.ChatMessage) (store' : StateService.Store),
    ChatMessageHandling.handle generate show_number uuid
      t_context t_profile t_reply message userId store
    = Some (reply, store')
    /\ well_kinded store'
    /\ Core.id reply = uuid
    /\ Core.role reply = Core.assistant
    /\ Core.timestamp reply = t_reply
    /\ (answered generate (Core.content reply)
        \/ Core.content reply = ChatMessageHandling.apology)
    /\ ((forall prompt text,
           generate prompt = Ok text -> LLMService.validateResponse text = false) ->
        Core.content reply = ChatMessageHandling.apology)
    /\ StateService.userExists userId store' = true
    /\ is_Some (store' !! StateService.getContextKey userId).
Proof.
  destruct (handle_cases generate show_number uuid t_context t_profile t_reply
              message userId store Hkinds)
    as (c & p & store1 & Hk1 & _ & _ & Hin & Hip & _ & ->).
  destruct (generateChatResponse_cases generate show_number
              (Core.content message)
              (NutritionContext.getRecentMessages 10
                 (NutritionContext.addMessage message c))
              (Some (UserProfile.goals p)))
    as [(text & -> & Hg & Hv) | [-> Hbad]].
  - eexists _, _. split; [reflexivity|].
    split; [apply well_kinded_save_context, Hk1|].
    simpl. repeat (split; [reflexivity|]).
    split; [left; eexists; eauto|].
    split; [intros Hnever; rewrite (Hnever _ _ Hg) in Hv; discriminate Hv|].
    split.
    + unfold StateService.userExists, DurableObjectStorage.exists_.
      apply bool_decide_eq_true.
      rewrite lookup_insert_ne
        by (intros E; symmetry in E; revert E; apply profile_key_not_context).
      exact Hip.
    + rewrite lookup_insert_eq. eauto.
  - eexists _, _. split; [reflexivity|]. split; [exact Hk1|].
    simpl. repeat (split; [reflexivity|]).
    split; [right; reflexivity|]. split; [reflexivity|].
    split; [|exact Hin].
    apply bool_decide_eq_true. exact Hip.
Qed.

(** A first message to a model that answers. *)
Lemma X15_chat_reply_witness :
  exists (reply : Core.ChatMessage) (store' : StateService.Store),
    ChatMessageHandling.handle (fun _ => Ok "Oats are a good start.")
      (fun _ => "2000") "r-1" 5 6 7 (Sample.text_message "What should I eat?")
      "u1" ∅
    = Some (reply, store')
    /\ Core.role reply = Core.assistant.
Proof.
  destruct (X15_chat_reply (fun _ => Ok "Oats are a good start.")
              (fun _ => "2000") "r-1" 5 6 7
              (Sample.text_message "What should I eat?") "u1" ∅
              well_kinded_empty)
    as (reply & store' & H & _ & _ & Hr & _).
  exists reply, store'. split; assumption.
Defined.

(** X27.  What a turn of the conversational handler keeps.  When the
    reply is a model's answer, the stored history of the user is the
    previous one with the message and then the reply appended, cut to its
    last 20 entries each time.  When the model gives no usable answer the
    stored history is the previous one: the user's message is not kept.
    In both cases nothing changes for any other key of the store than the
    user's context and profile. *)
Theorem X27_chat_history (generate : string -> Res string)
    (show_number : Q -> string) (uuid : string)
    (t_context t_profile t_reply : Z) (message : Core.ChatMessage)
    (userId : string) (store : StateService.Store)
    (Hkinds : well_kinded store) :
  exists (reply : Core.ChatMessage) (store' : StateService.Store),
    ChatMessageHandling.handle generate show_number uuid
      t_context t_profile t_reply message userId store
    = Some (reply, store')
    /\ ((answered generate (Core.content reply)
         /\ stored_history userId store'
            = keep_last 20 (keep_last 20 (stored_history userId store) message)
                        reply
         /\ exists before, stored_history userId store' = before ++ [message; reply])
        \/ (Core.content reply = ChatMessageHandling.apology
            /\ stored_history userId store' = stored_history userId store))
    /\ ((forall prompt text,
           generate prompt = Ok text -> LLMService.validateResponse text = false) ->
        stored_history userId store' = stored_history userId store)
    /\ ((forall prompt, exists text,
           generate prompt = Ok text /\ LLMService.validateResponse text = true) ->
        stored_history userId store'
        = keep_last 20 (keep_last 20 (stored_history userId store) message) reply)
    /\ (forall k : string,
          k <> StateService.getContextKey userId ->
          k <> StateService.getUserProfileKey userId ->
          store' !! k = store !! k).
Proof.
  destruct (handle_cases generate show_number uuid t_context t_profile t_reply
              message userId store Hkinds)
    as (c & p & store1 & Hk1 & Hh & Hs & Hin & Hip & Hfr & ->).
  destruct (generateChatResponse_cases generate show_number
              (Core.content message)
              (NutritionContext.getRecentMessages 10
                 (NutritionContext.addMessage message c))
              (Some (UserProfile.goals p)))
    as [(text & -> & Hg & Hv) | [-> Hbad]].
  - set (reply := {| Core.id := uuid; Core.role := Core.assistant;
                     Core.content := text; Core.timestamp := t_reply |}).
    assert (Hstored :
      stored_history userId
        (<[StateService.getContextKey userId :=
             StateService.ContextData
               (NutritionContext.toJSON
                  (NutritionContext.addMessage reply
                     (NutritionContext.addMessage message c)))]> store1)
      = keep_last 20 (keep_last 20 (stored_history userId store) message) reply).
    { unfold stored_history at 1. rewrite lookup_insert_eq. simpl.
      rewrite !addMessage_keep_last, Hh. reflexivity. }
    exists reply, (<[StateService.getContextKey userId :=
             StateService.ContextData
               (NutritionContext.toJSON
                  (NutritionContext.addMessage reply
                     (NutritionContext.addMessage message c)))]> store1).
    split; [reflexivity|].
    split; [|split; [|split]].
    + left. split; [eexists; eauto|]. split; [exact Hstored|].
      rewrite Hstored. unfold keep_last.
      set (h := stored_history userId store).
      set (h1 := drop (length (h ++ [message]) - 20) (h ++ [message])).
      assert (H1 : exists b, h1 = b ++ [message]).
      { exists (drop (length (h ++ [message]) - 20) h). unfold h1.
        apply drop_app_le. rewrite length_app. simpl. lia. }
      destruct H1 as [b Hb].
      assert (Hlen : (length h1 <= 20)%nat).
      { unfold h1. rewrite length_drop. lia. }
      exists (drop (length (h1 ++ [reply]) - 20) b).
      rewrite Hb in *. rewrite <- !app_assoc. simpl.
      change [message; reply] with ([message] ++ [reply]).
      rewrite (drop_app_le b) by (rewrite !length_app in *; simpl in *; lia).
      reflexivity.
    + intros Hnever. rewrite (Hnever _ _ Hg) in Hv. discriminate Hv.
    + intros _. exact Hstored.
    + intros k H1 H2. rewrite lookup_insert_ne by congruence. auto.
  - eexists _, store1. split; [reflexivity|].
    split; [right; split; [reflexivity | exact Hs]|].
    split; [intros _; exact Hs|].
    split; [|exact Hfr].
    intros Halways.
    destruct (Halways (PromptBuilder.buildChatPrompt show_number
                         (Core.content message)
                         (NutritionContext.getRecentMessages 10
                            (NutritionContext.addMessage message c))
                         (Some (UserProfile.goals p))))
      as (text & Hg & Hv).
    rewrite (Hbad _ Hg) in Hv. discriminate Hv.
Qed.

(** A model that fails: the question is not kept. *)
Lemma X27_chat_history_witness :
  exists (reply : Core.ChatMessage) (store' : StateService.Store),
    ChatMessageHandling.handle (fun _ => Throw "model is down")
      (fun _ => "2000") "r-1" 5 6 7 (Sample.text_message "What should I eat?")
      "u1" ∅
    = Some (reply, store')
    /\ stored_history "u1" store' = [].
Proof.
  destruct (X27_chat_history (fun _ => Throw "model is down")
              (fun _ => "2000") "r-1" 5 6 7
              (Sample.text_message "What should I eat?") "u1" ∅
              well_kinded_empty)
    as (reply & store' & H & _ & Hfail & _).
  exists reply, store'. split; [exact H|].
  rewrite Hfail; [reflexivity | intros prompt text Hg; discriminate Hg].
Defined.

(** X28.  The prompt of a turn names the current message twice: the
    message is put into the history before the prompt is built, so the
    history section always exists and ends with the line of the message,
    and the prompt then ends with the message again as the question to
    answer.  A turn depends on the model only through its answer to that
    one prompt. *)
Theorem X28_prompt_repeats_message (show_number : Q -> string) (uuid : string)
    (t_context t_profile t_reply : Z) (message : Core.ChatMessage)
    (userId : string) (store : StateService.Store)
    (Hkinds : well_kinded store) :
  exists before : string,
    let prompt :=
      before +:+ PromptBuilder.history_line message
      +:+ PromptBuilder.nl +:+ PromptBuilder.nl +:+ "User: "
      +:+ Core.content message +:+ PromptBuilder.nl +:+ "Assistant:" in
    forall generate : string -> Res string,
      ChatMessageHandling.handle generate show_number uuid
        t_context t_profile t_reply message userId store
      = ChatMessageHandling.handle (fun _ => generate prompt) show_number uuid
          t_context t_profile t_reply message userId store
      /\ is_Some (ChatMessageHandling.handle generate show_number uuid
                    t_context t_profile t_reply message userId store).
Proof.
  destruct (turn_reads t_context t_profile userId store Hkinds)
    as (c & p & store0 & store1 & Hg0 & Hg1 & _).
  destruct (chat_prompt_tail show_number message c (Some (UserProfile.goals p)))
    as [before Hprompt].
  exists before. intros prompt generate.
  unfold ChatMessageHandling.handle, mbind, StateService.M_bind.
  rewrite Hg0, Hg1. unfold LLMService.generateChatResponse.
  rewrite Hprompt. fold prompt.
  split; [reflexivity|].
  destruct (generate prompt) as [text|e]; simpl;
    [destruct (LLMService.validateResponse text); simpl|]; eauto.
Qed.

(** The first message of a user. *)
Lemma X28_prompt_repeats_message_witness :
  exists before : string,
    is_Some
      (ChatMessageHandling.handle
         (fun _ =>
            Ok (before +:+ "User: What should I eat?"
                +:+ PromptBuilder.nl +:+ PromptBuilder.nl
                +:+ "User: What should I eat?"
                +:+ PromptBuilder.nl +:+ "Assistant:"))
         (fun _ => "2000") "r-1" 5 6 7
         (Sample.text_message "What should I eat?") "u1" ∅).
Proof.
  destruct (X28_prompt_repeats_message (fun _ => "2000") "r-1" 5 6 7
              (Sample.text_message "What should I eat?") "u1" ∅
              well_kinded_empty) as [before H].
  exists before.
  apply (proj2 (H (fun _ => Ok _))).
Defined.

(** ** Connections and sockets                                             *)

Section string_map.
Context {V : Type}.
Implicit Types (m : list (string * V)) (k : string) (v : V).

Lemma get_set_eq k v m : StringMap.get k (StringMap.set k v m) = Some v.
Proof.
  induction m as [|[k' v'] m IH]; simpl.
  - rewrite String.eqb_refl. reflexivity.
  - destruct (String.eqb k' k) eqn:E; simpl.
    + rewrite String.eqb_refl. reflexivity.
    + rewrite E. exact IH.
Qed.

Lemma get_set_ne k k' v m :
  k <> k' -> StringMap.get k' (StringMap.set k v m) = StringMap.get k' m.
Proof.
  intros Hne. induction m as [|[k0 v0] m IH]; simpl.
  - apply String.eqb_neq in Hne. rewrite Hne. reflexivity.
  - destruct (String.eqb_spec k0 k) as [-> | Hk]; simpl.
    + apply String.eqb_neq in Hne. rewrite Hne. reflexivity.
    + rewrite IH. reflexivity.
Qed.

Lemma size_set k v m :
  StringMap.size (StringMap.set k v m)
  = if StringMap.has k m then StringMap.size m else S (StringMap.size m).
Proof.
  unfold StringMap.size, StringMap.has.
  induction m as [|[k' v'] m IH]; simpl; [reflexivity|].
  destruct (String.eqb k' k); simpl; [reflexivity|].
  rewrite IH. destruct (StringMap.get k m); reflexivity.
Qed.

Lemma has_set k k' v m :
  StringMap.has k' m = true -> StringMap.has k' (StringMap.set k v m) = true.
Proof.
  unfold StringMap.has. intros H.
  destruct (String.eqb_spec k k') as [-> | Hne].
  - rewrite get_set_eq. reflexivity.
  - rewrite get_set_ne by exact Hne. exact H.
Qed.

Lemma get_delete_eq k m : StringMap.get k (StringMap.delete k m) = None.
Proof.
  induction m as [|[k' v'] m IH]; simpl; [reflexivity|].
  destruct (String.eqb k' k) eqn:E; simpl; [exact IH|].
  rewrite E. exact IH.
Qed.

Lemma get_delete_ne k k' m :
  k <> k' -> StringMap.get k' (StringMap.delete k m) = StringMap.get k' m.
Proof.
  intros Hne. induction m as [|[k0 v0] m IH]; simpl; [reflexivity|].
  destruct (String.eqb_spec k0 k) as [-> | Hk]; simpl.
  - apply String.eqb_neq in Hne. rewrite Hne. exact IH.
  - rewrite IH. reflexivity.
Qed.

End string_map.

Section sockets.
Import AgentSockets.

Lemma step_keeps_connections (a : t) (e : Event) :
  (health_connections a <= health_connections (step a e))%nat
  /\ (forall u, Connections.isUserConnected u (connectionHandler a) = true ->
                Connections.isUserConnected u (connectionHandler (step a e)) = true).
Proof.
  destruct e as [param uuid now server | ws | ws]; simpl; auto.
  unfold health_connections, Connections.getActiveConnectionCount,
    Connections.isUserConnected. simpl. split.
  - rewrite size_set. destruct (StringMap.has _ _); lia.
  - intros u. apply has_set.
Qed.

Lemma run_keeps_connections (events : list Event) :
  forall a : t,
    (health_connections a <= health_connections (run events a))%nat
    /\ (forall u, Connections.isUserConnected u (connectionHandler a) = true ->
                  Connections.isUserConnected u (connectionHandler (run events a))
                  = true).
Proof.
  induction events as [|e events IH]; intros a; [auto|].
  destruct (step_keeps_connections a e) as [H1 H2].
  destruct (IH (step a e)) as [H3 H4].
  change (run (e :: events) a) with (run events (step a e)).
  split; [lia | auto].
Qed.

End sockets.

(** X29.  The agent never releases a connection.  Whatever upgrades,
    closes and errors its sockets go through, the number of connections
    the health check reports never falls and a user once connected stays
    connected for the connection handler.  In particular, once a socket
    has closed the agent no longer knows its user, yet the user still
    counts as connected and what is sent to the user goes to the closed
    socket. *)
Theorem X29_connections_never_released (events : list AgentSockets.Event)
    (a : AgentSockets.t) :
  (AgentSockets.health_connections a
   <= AgentSockets.health_connections (AgentSockets.run events a))%nat
  /\ (forall u : string,
        Connections.isUserConnected u (AgentSockets.connectionHandler a) = true ->
        Connections.isUserConnected u
          (AgentSockets.connectionHandler (AgentSockets.run events a)) = true)
  /\ (forall (param : option string) (uuid : string) (now : Z) (server : nat)
             (frame : ConnectionHandler.Frame),
        let userId := AgentSockets.or_else param uuid in
        let opened := AgentSockets.handleWebSocketUpgrade param uuid now server a in
        let shut := AgentSockets.webSocketClose server opened in
        AgentSockets.user_of server opened = AgentSockets.or_else (Some userId) "unknown"
        /\ AgentSockets.user_of server shut = "unknown"
        /\ AgentSockets.health_connections shut
           = AgentSockets.health_connections opened
        /\ Connections.isUserConnected userId (AgentSockets.connectionHandler shut)
           = true
        /\ Connections.sendToUser userId frame (AgentSockets.connectionHandler shut)
           = (true,
              Connections.sendMessage server frame
                (AgentSockets.connectionHandler shut))).
Proof.
  destruct (run_keeps_connections events a) as [H1 H2].
  split; [exact H1|]. split; [exact H2|].
  intros param uuid now server frame userId opened shut.
  subst shut opened. unfold AgentSockets.user_of. simpl.
  rewrite lookup_insert_eq, lookup_delete_eq.
  unfold Connections.isUserConnected, Connections.sendToUser, StringMap.has.
  simpl. rewrite get_set_eq. repeat split.
Qed.

(** X30.  The connection handler keeps one socket per user.  A second
    connection of a user takes the place of the first: the count stays,
    what is sent to the user goes to the new socket, and the old socket is
    not closed (the only calls made are the two welcome frames).  A close
    or an error reported for the user then forgets the user altogether;
    either one makes no call on any socket and leaves every other user
    connected or not as before, with the socket held before.  After
    [closeAllConnections] nobody is connected. *)
Theorem X30_one_socket_per_user (c : Connections.t) (u : string)
    (t1 t2 : Z) (ws1 ws2 : nat) (frame : ConnectionHandler.Frame) :
  let c1 := Connections.handleConnection t1 ws1 u c in
  let c2 := Connections.handleConnection t2 ws2 u c1 in
  Connections.getActiveConnectionCount c2 = Connections.getActiveConnectionCount c1
  /\ Connections.sendToUser u frame c2
     = (true, Connections.sendMessage ws2 frame c2)
  /\ Connections.calls c2
     = Connections.calls c
       ++ [(ws1, ConnectionHandler.ws_send
                   (ConnectionHandler.system_frame Connections.welcome t1));
           (ws2, ConnectionHandler.ws_send
                   (ConnectionHandler.system_frame Connections.welcome t2))]
  /\ Connections.isUserConnected u (Connections.handleConnectionClose u c2) = false
  /\ Connections.isUserConnected u (Connections.handleConnectionError u c2) = false
  /\ (forall u' : string,
        u' <> u ->
        Connections.isUserConnected u' (Connections.handleConnectionClose u c2)
        = Connections.isUserConnected u' c
        /\ Connections.isUserConnected u' (Connections.handleConnectionError u c2)
           = Connections.isUserConnected u' c
        /\ StringMap.get u' (Connections.activeConnections
                               (Connections.handleConnectionClose u c2))
           = StringMap.get u' (Connections.activeConnections c)
        /\ StringMap.get u' (Connections.activeConnections
                               (Connections.handleConnectionError u c2))
           = StringMap.get u' (Connections.activeConnections c)
        /\ Connections.isUserConnected u' c2 = Connections.isUserConnected u' c)
  /\ Connections.calls (Connections.handleConnectionClose u c2) = Connections.calls c2
  /\ Connections.calls (Connections.handleConnectionError u c2) = Connections.calls c2
  /\ (forall u' : string,
        Connections.sendToUser u' frame (Connections.closeAllConnections c2)
        = (false, Connections.closeAllConnections c2))
  /\ Connections.getActiveConnectionCount (Connections.closeAllConnections c2) = 0%nat.
Proof.
  intros c1 c2. subst c2 c1.
  unfold Connections.getActiveConnectionCount, Connections.sendToUser,
    Connections.isUserConnected, StringMap.has. simpl.
  rewrite !size_set. unfold StringMap.has.
  rewrite !get_set_eq, !get_delete_eq, <- app_assoc. simpl.
  repeat split; try (intros u' Hne);
    rewrite ?get_delete_ne, ?get_set_ne by congruence; reflexivity.
Qed.
